(** * Waze travel time sensor: route selection and refresh

    A shallow embedding of
    [homeassistant/components/waze_travel_time/sensor.py]: the refresher
    object [WazeTravelTimeData], its [update] procedure, and the sensor
    entity [WazeTravelTime] that resolves the endpoints and publishes the
    state.

    Python values are modelled as follows.
    - [str]: the [string] of its UTF-8 bytes; [str.lower] and [str.upper]
      follow the Unicode tables of Python 3.11.
    - [float]: the primitive binary64 [float]; [/] is [PrimFloat.div].
    - a [dict] in insertion order: an association list.
    - an attribute or option that may be [None]: [option].
    - a method body: a computation over the [World] (the object and the
      trace of logger records and routing-engine calls) ending in a
      [Completion]: fall through, [return], or a propagating exception. *)

From Stdlib Require Import Bool Ascii String List NArith ZArith QArith Qabs Lia ZifyBool Floats.
Import ListNotations.

Set Warnings "-inexact-float".

Local Open Scope list_scope.
Local Open Scope string_scope.

(* ===================================================================== *)
(** ** Python strings *)

Module PyStr.

(** A Python [str] is represented by its UTF-8 encoding: a [string] whose
    characters are the bytes.  Equality and [in] on two [str] are equality and
    containment of the encodings; [lower] and [upper] work on the code
    points. *)

(** [c.lower()] for one ASCII character. *)
Definition lower_ascii (c : ascii) : ascii :=
  let n := nat_of_ascii c in
  if andb (Nat.leb 65 n) (Nat.leb n 90) then ascii_of_nat (n + 32) else c.

(** [c.upper()] for one ASCII character. *)
Definition upper_ascii (c : ascii) : ascii :=
  let n := nat_of_ascii c in
  if andb (Nat.leb 97 n) (Nat.leb n 122) then ascii_of_nat (n - 32) else c.

(** The six payload bits of a continuation byte. *)
Definition continuation (b : ascii) : N := (N_of_ascii b mod 64)%N.

(** The code points of a UTF-8 string.  A byte that starts no well-formed
    sequence is passed on as it is; such strings encode no [str]. *)
Fixpoint decode (s : string) : list N :=
  match s with
  | EmptyString => []
  | String b0 s0 =>
      let n0 := N_of_ascii b0 in
      if (n0 <? 128)%N then n0 :: decode s0
      else if (n0 <? 192)%N then n0 :: decode s0
      else if (n0 <? 224)%N then
        match s0 with
        | String b1 s1 => ((n0 - 192) * 64 + continuation b1)%N :: decode s1
        | EmptyString => [n0]
        end
      else if (n0 <? 240)%N then
        match s0 with
        | String b1 (String b2 s2) =>
            ((n0 - 224) * 4096 + continuation b1 * 64 + continuation b2)%N :: decode s2
        | _ => n0 :: decode s0
        end
      else
        match s0 with
        | String b1 (String b2 (String b3 s3)) =>
            ((n0 - 240) * 262144 + continuation b1 * 4096 + continuation b2 * 64
             + continuation b3)%N :: decode s3
        | _ => n0 :: decode s0
        end
  end.

Definition byte (n : N) : string := String (ascii_of_N n) EmptyString.

(** The UTF-8 bytes of one code point. *)
Definition encode_cp (c : N) : string :=
  if (c <? 128)%N then byte c
  else if (c <? 2048)%N then byte (192 + c / 64) ++ byte (128 + c mod 64)
  else if (c <? 65536)%N then
    byte (224 + c / 4096) ++ byte (128 + (c / 64) mod 64) ++ byte (128 + c mod 64)
  else
    byte (240 + c / 262144) ++ byte (128 + (c / 4096) mod 64)
    ++ byte (128 + (c / 64) mod 64) ++ byte (128 + c mod 64).

(** The UTF-8 string of a list of code points. *)
Fixpoint encode (l : list N) : string :=
  match l with
  | [] => EmptyString
  | c :: l' => encode_cp c ++ encode l'
  end.

(** Every code point above ASCII that [str.lower] changes, with the code points
    it becomes (Unicode 14.0.0).  U+03A3 is listed with its value outside the
    final position. *)
Definition lower_table : list (N * list N) :=
  [
    (192, [224]); (193, [225]); (194, [226]); (195, [227]); (196, [228]); (197, [229]);
    (198, [230]); (199, [231]); (200, [232]); (201, [233]); (202, [234]); (203, [235]);
    (204, [236]); (205, [237]); (206, [238]); (207, [239]); (208, [240]); (209, [241]);
    (210, [242]); (211, [243]); (212, [244]); (213, [245]); (214, [246]); (216, [248]);
    (217, [249]); (218, [250]); (219, [251]); (220, [252]); (221, [253]); (222, [254]);
    (256, [257]); (258, [259]); (260, [261]); (262, [263]); (264, [265]); (266, [267]);
    (268, [269]); (270, [271]); (272, [273]); (274, [275]); (276, [277]); (278, [279]);
    (280, [281]); (282, [283]); (284, [285]); (286, [287]); (288, [289]); (290, [291]);
    (292, [293]); (294, [295]); (296, [297]); (298, [299]); (300, [301]); (302, [303]);
    (304, [105; 775]); (306, [307]); (308, [309]); (310, [311]); (313, [314]); (315, [316]);
    (317, [318]); (319, [320]); (321, [322]); (323, [324]); (325, [326]); (327, [328]);
    (330, [331]); (332, [333]); (334, [335]); (336, [337]); (338, [339]); (340, [341]);
    (342, [343]); (344, [345]); (346, [347]); (348, [349]); (350, [351]); (352, [353]);
    (354, [355]); (356, [357]); (358, [359]); (360, [361]); (362, [363]); (364, [365]);
    (366, [367]); (368, [369]); (370, [371]); (372, [373]); (374, [375]); (376, [255]);
    (377, [378]); (379, [380]); (381, [382]); (385, [595]); (386, [387]); (388, [389]);
    (390, [596]); (391, [392]); (393, [598]); (394, [599]); (395, [396]); (398, [477]);
    (399, [601]); (400, [603]); (401, [402]); (403, [608]); (404, [611]); (406, [617]);
    (407, [616]); (408, [409]); (412, [623]); (413, [626]); (415, [629]); (416, [417]);
    (418, [419]); (420, [421]); (422, [640]); (423, [424]); (425, [643]); (428, [429]);
    (430, [648]); (431, [432]); (433, [650]); (434, [651]); (435, [436]); (437, [438]);
    (439, [658]); (440, [441]); (444, [445]); (452, [454]); (453, [454]); (455, [457]);
    (456, [457]); (458, [460]); (459, [460]); (461, [462]); (463, [464]); (465, [466]);
    (467, [468]); (469, [470]); (471, [472]); (473, [474]); (475, [476]); (478, [479]);
    (480, [481]); (482, [483]); (484, [485]); (486, [487]); (488, [489]); (490, [491]);
    (492, [493]); (494, [495]); (497, [499]); (498, [499]); (500, [501]); (502, [405]);
    (503, [447]); (504, [505]); (506, [507]); (508, [509]); (510, [511]); (512, [513]);
    (514, [515]); (516, [517]); (518, [519]); (520, [521]); (522, [523]); (524, [525]);
    (526, [527]); (528, [529]); (530, [531]); (532, [533]); (534, [535]); (536, [537]);
    (538, [539]); (540, [541]); (542, [543]); (544, [414]); (546, [547]); (548, [549]);
    (550, [551]); (552, [553]); (554, [555]); (556, [557]); (558, [559]); (560, [561]);
    (562, [563]); (570, [11365]); (571, [572]); (573, [410]); (574, [11366]); (577, [578]);
    (579, [384]); (580, [649]); (581, [652]); (582, [583]); (584, [585]); (586, [587]);
    (588, [589]); (590, [591]); (880, [881]); (882, [883]); (886, [887]); (895, [1011]);
    (902, [940]); (904, [941]); (905, [942]); (906, [943]); (908, [972]); (910, [973]);
    (911, [974]); (913, [945]); (914, [946]); (915, [947]); (916, [948]); (917, [949]);
    (918, [950]); (919, [951]); (920, [952]); (921, [953]); (922, [954]); (923, [955]);
    (924, [956]); (925, [957]); (926, [958]); (927, [959]); (928, [960]); (929, [961]);
    (931, [963]); (932, [964]); (933, [965]); (934, [966]); (935, [967]); (936, [968]);
    (937, [969]); (938, [970]); (939, [971]); (975, [983]); (984, [985]); (986, [987]);
    (988, [989]); (990, [991]); (992, [993]); (994, [995]); (996, [997]); (998, [999]);
    (1000, [1001]); (1002, [1003]); (1004, [1005]); (1006, [1007]); (1012, [952]); (1015, [1016]);
    (1017, [1010]); (1018, [1019]); (1021, [891]); (1022, [892]); (1023, [893]); (1024, [1104]);
    (1025, [1105]); (1026, [1106]); (1027, [1107]); (1028, [1108]); (1029, [1109]); (1030, [1110]);
    (1031, [1111]); (1032, [1112]); (1033, [1113]); (1034, [1114]); (1035, [1115]); (1036, [1116]);
    (1037, [1117]); (1038, [1118]); (1039, [1119]); (1040, [1072]); (1041, [1073]); (1042, [1074]);
    (1043, [1075]); (1044, [1076]); (1045, [1077]); (1046, [1078]); (1047, [1079]); (1048, [1080]);
    (1049, [1081]); (1050, [1082]); (1051, [1083]); (1052, [1084]); (1053, [1085]); (1054, [1086]);
    (1055, [1087]); (1056, [1088]); (1057, [1089]); (1058, [1090]); (1059, [1091]); (1060, [1092]);
    (1061, [1093]); (1062, [1094]); (1063, [1095]); (1064, [1096]); (1065, [1097]); (1066, [1098]);
    (1067, [1099]); (1068, [1100]); (1069, [1101]); (1070, [1102]); (1071, [1103]); (1120, [1121]);
    (1122, [1123]); (1124, [1125]); (1126, [1127]); (1128, [1129]); (1130, [1131]); (1132, [1133]);
    (1134, [1135]); (1136, [1137]); (1138, [1139]); (1140, [1141]); (1142, [1143]); (1144, [1145]);
    (1146, [1147]); (1148, [1149]); (1150, [1151]); (1152, [1153]); (1162, [1163]); (1164, [1165]);
    (1166, [1167]); (1168, [1169]); (1170, [1171]); (1172, [1173]); (1174, [1175]); (1176, [1177]);
    (1178, [1179]); (1180, [1181]); (1182, [1183]); (1184, [1185]); (1186, [1187]); (1188, [1189]);
    (1190, [1191]); (1192, [1193]); (1194, [1195]); (1196, [1197]); (1198, [1199]); (1200, [1201]);
    (1202, [1203]); (1204, [1205]); (1206, [1207]); (1208, [1209]); (1210, [1211]); (1212, [1213]);
    (1214, [1215]); (1216, [1231]); (1217, [1218]); (1219, [1220]); (1221, [1222]); (1223, [1224]);
    (1225, [1226]); (1227, [1228]); (1229, [1230]); (1232, [1233]); (1234, [1235]); (1236, [1237]);
    (1238, [1239]); (1240, [1241]); (1242, [1243]); (1244, [1245]); (1246, [1247]); (1248, [1249]);
    (1250, [1251]); (1252, [1253]); (1254, [1255]); (1256, [1257]); (1258, [1259]); (1260, [1261]);
    (1262, [1263]); (1264, [1265]); (1266, [1267]); (1268, [1269]); (1270, [1271]); (1272, [1273]);
    (1274, [1275]); (1276, [1277]); (1278, [1279]); (1280, [1281]); (1282, [1283]); (1284, [1285]);
    (1286, [1287]); (1288, [1289]); (1290, [1291]); (1292, [1293]); (1294, [1295]); (1296, [1297]);
    (1298, [1299]); (1300, [1301]); (1302, [1303]); (1304, [1305]); (1306, [1307]); (1308, [1309]);
    (1310, [1311]); (1312, [1313]); (1314, [1315]); (1316, [1317]); (1318, [1319]); (1320, [1321]);
    (1322, [1323]); (1324, [1325]); (1326, [1327]); (1329, [1377]); (1330, [1378]); (1331, [1379]);
    (1332, [1380]); (1333, [1381]); (1334, [1382]); (1335, [1383]); (1336, [1384]); (1337, [1385]);
    (1338, [1386]); (1339, [1387]); (1340, [1388]); (1341, [1389]); (1342, [1390]); (1343, [1391]);
    (1344, [1392]); (1345, [1393]); (1346, [1394]); (1347, [1395]); (1348, [1396]); (1349, [1397]);
    (1350, [1398]); (1351, [1399]); (1352, [1400]); (1353, [1401]); (1354, [1402]); (1355, [1403]);
    (1356, [1404]); (1357, [1405]); (1358, [1406]); (1359, [1407]); (1360, [1408]); (1361, [1409]);
    (1362, [1410]); (1363, [1411]); (1364, [1412]); (1365, [1413]); (1366, [1414]); (4256, [11520]);
    (4257, [11521]); (4258, [11522]); (4259, [11523]); (4260, [11524]); (4261, [11525]); (4262, [11526]);
    (4263, [11527]); (4264, [11528]); (4265, [11529]); (4266, [11530]); (4267, [11531]); (4268, [11532]);
    (4269, [11533]); (4270, [11534]); (4271, [11535]); (4272, [11536]); (4273, [11537]); (4274, [11538]);
    (4275, [11539]); (4276, [11540]); (4277, [11541]); (4278, [11542]); (4279, [11543]); (4280, [11544]);
    (4281, [11545]); (4282, [11546]); (4283, [11547]); (4284, [11548]); (4285, [11549]); (4286, [11550]);
    (4287, [11551]); (4288, [11552]); (4289, [11553]); (4290, [11554]); (4291, [11555]); (4292, [11556]);
    (4293, [11557]); (4295, [11559]); (4301, [11565]); (5024, [43888]); (5025, [43889]); (5026, [43890]);
    (5027, [43891]); (5028, [43892]); (5029, [43893]); (5030, [43894]); (5031, [43895]); (5032, [43896]);
    (5033, [43897]); (5034, [43898]); (5035, [43899]); (5036, [43900]); (5037, [43901]); (5038, [43902]);
    (5039, [43903]); (5040, [43904]); (5041, [43905]); (5042, [43906]); (5043, [43907]); (5044, [43908]);
    (5045, [43909]); (5046, [43910]); (5047, [43911]); (5048, [43912]); (5049, [43913]); (5050, [43914]);
    (5051, [43915]); (5052, [43916]); (5053, [43917]); (5054, [43918]); (5055, [43919]); (5056, [43920]);
    (5057, [43921]); (5058, [43922]); (5059, [43923]); (5060, [43924]); (5061, [43925]); (5062, [43926]);
    (5063, [43927]); (5064, [43928]); (5065, [43929]); (5066, [43930]); (5067, [43931]); (5068, [43932]);
    (5069, [43933]); (5070, [43934]); (5071, [43935]); (5072, [43936]); (5073, [43937]); (5074, [43938]);
    (5075, [43939]); (5076, [43940]); (5077, [43941]); (5078, [43942]); (5079, [43943]); (5080, [43944]);
    (5081, [43945]); (5082, [43946]); (5083, [43947]); (5084, [43948]); (5085, [43949]); (5086, [43950]);
    (5087, [43951]); (5088, [43952]); (5089, [43953]); (5090, [43954]); (5091, [43955]); (5092, [43956]);
    (5093, [43957]); (5094, [43958]); (5095, [43959]); (5096, [43960]); (5097, [43961]); (5098, [43962]);
    (5099, [43963]); (5100, [43964]); (5101, [43965]); (5102, [43966]); (5103, [43967]); (5104, [5112]);
    (5105, [5113]); (5106, [5114]); (5107, [5115]); (5108, [5116]); (5109, [5117]); (7312, [4304]);
    (7313, [4305]); (7314, [4306]); (7315, [4307]); (7316, [4308]); (7317, [4309]); (7318, [4310]);
    (7319, [4311]); (7320, [4312]); (7321, [4313]); (7322, [4314]); (7323, [4315]); (7324, [4316]);
    (7325, [4317]); (7326, [4318]); (7327, [4319]); (7328, [4320]); (7329, [4321]); (7330, [4322]);
    (7331, [4323]); (7332, [4324]); (7333, [4325]); (7334, [4326]); (7335, [4327]); (7336, [4328]);
    (7337, [4329]); (7338, [4330]); (7339, [4331]); (7340, [4332]); (7341, [4333]); (7342, [4334]);
    (7343, [4335]); (7344, [4336]); (7345, [4337]); (7346, [4338]); (7347, [4339]); (7348, [4340]);
    (7349, [4341]); (7350, [4342]); (7351, [4343]); (7352, [4344]); (7353, [4345]); (7354, [4346]);
    (7357, [4349]); (7358, [4350]); (7359, [4351]); (7680, [7681]); (7682, [7683]); (7684, [7685]);
    (7686, [7687]); (7688, [7689]); (7690, [7691]); (7692, [7693]); (7694, [7695]); (7696, [7697]);
    (7698, [7699]); (7700, [7701]); (7702, [7703]); (7704, [7705]); (7706, [7707]); (7708, [7709]);
    (7710, [7711]); (7712, [7713]); (7714, [7715]); (7716, [7717]); (7718, [7719]); (7720, [7721]);
    (7722, [7723]); (7724, [7725]); (7726, [7727]); (7728, [7729]); (7730, [7731]); (7732, [7733]);
    (7734, [7735]); (7736, [7737]); (7738, [7739]); (7740, [7741]); (7742, [7743]); (7744, [7745]);
    (7746, [7747]); (7748, [7749]); (7750, [7751]); (7752, [7753]); (7754, [7755]); (7756, [7757]);
    (7758, [7759]); (7760, [7761]); (7762, [7763]); (7764, [7765]); (7766, [7767]); (7768, [7769]);
    (7770, [7771]); (7772, [7773]); (7774, [7775]); (7776, [7777]); (7778, [7779]); (7780, [7781]);
    (7782, [7783]); (7784, [7785]); (7786, [7787]); (7788, [7789]); (7790, [7791]); (7792, [7793]);
    (7794, [7795]); (7796, [7797]); (7798, [7799]); (7800, [7801]); (7802, [7803]); (7804, [7805]);
    (7806, [7807]); (7808, [7809]); (7810, [7811]); (7812, [7813]); (7814, [7815]); (7816, [7817]);
    (7818, [7819]); (7820, [7821]); (7822, [7823]); (7824, [7825]); (7826, [7827]); (7828, [7829]);
    (7838, [223]); (7840, [7841]); (7842, [7843]); (7844, [7845]); (7846, [7847]); (7848, [7849]);
    (7850, [7851]); (7852, [7853]); (7854, [7855]); (7856, [7857]); (7858, [7859]); (7860, [7861]);
    (7862, [7863]); (7864, [7865]); (7866, [7867]); (7868, [7869]); (7870, [7871]); (7872, [7873]);
    (7874, [7875]); (7876, [7877]); (7878, [7879]); (7880, [7881]); (7882, [7883]); (7884, [7885]);
    (7886, [7887]); (7888, [7889]); (7890, [7891]); (7892, [7893]); (7894, [7895]); (7896, [7897]);
    (7898, [7899]); (7900, [7901]); (7902, [7903]); (7904, [7905]); (7906, [7907]); (7908, [7909]);
    (7910, [7911]); (7912, [7913]); (7914, [7915]); (7916, [7917]); (7918, [7919]); (7920, [7921]);
    (7922, [7923]); (7924, [7925]); (7926, [7927]); (7928, [7929]); (7930, [7931]); (7932, [7933]);
    (7934, [7935]); (7944, [7936]); (7945, [7937]); (7946, [7938]); (7947, [7939]); (7948, [7940]);
    (7949, [7941]); (7950, [7942]); (7951, [7943]); (7960, [7952]); (7961, [7953]); (7962, [7954]);
    (7963, [7955]); (7964, [7956]); (7965, [7957]); (7976, [7968]); (7977, [7969]); (7978, [7970]);
    (7979, [7971]); (7980, [7972]); (7981, [7973]); (7982, [7974]); (7983, [7975]); (7992, [7984]);
    (7993, [7985]); (7994, [7986]); (7995, [7987]); (7996, [7988]); (7997, [7989]); (7998, [7990]);
    (7999, [7991]); (8008, [8000]); (8009, [8001]); (8010, [8002]); (8011, [8003]); (8012, [8004]);
    (8013, [8005]); (8025, [8017]); (8027, [8019]); (8029, [8021]); (8031, [8023]); (8040, [8032]);
    (8041, [8033]); (8042, [8034]); (8043, [8035]); (8044, [8036]); (8045, [8037]); (8046, [8038]);
    (8047, [8039]); (8072, [8064]); (8073, [8065]); (8074, [8066]); (8075, [8067]); (8076, [8068]);
    (8077, [8069]); (8078, [8070]); (8079, [8071]); (8088, [8080]); (8089, [8081]); (8090, [8082]);
    (8091, [8083]); (8092, [8084]); (8093, [8085]); (8094, [8086]); (8095, [8087]); (8104, [8096]);
    (8105, [8097]); (8106, [8098]); (8107, [8099]); (8108, [8100]); (8109, [8101]); (8110, [8102]);
    (8111, [8103]); (8120, [8112]); (8121, [8113]); (8122, [8048]); (8123, [8049]); (8124, [8115]);
    (8136, [8050]); (8137, [8051]); (8138, [8052]); (8139, [8053]); (8140, [8131]); (8152, [8144]);
    (8153, [8145]); (8154, [8054]); (8155, [8055]); (8168, [8160]); (8169, [8161]); (8170, [8058]);
    (8171, [8059]); (8172, [8165]); (8184, [8056]); (8185, [8057]); (8186, [8060]); (8187, [8061]);
    (8188, [8179]); (8486, [969]); (8490, [107]); (8491, [229]); (8498, [8526]); (8544, [8560]);
    (8545, [8561]); (8546, [8562]); (8547, [8563]); (8548, [8564]); (8549, [8565]); (8550, [8566]);
    (8551, [8567]); (8552, [8568]); (8553, [8569]); (8554, [8570]); (8555, [8571]); (8556, [8572]);
    (8557, [8573]); (8558, [8574]); (8559, [8575]); (8579, [8580]); (9398, [9424]); (9399, [9425]);
    (9400, [9426]); (9401, [9427]); (9402, [9428]); (9403, [9429]); (9404, [9430]); (9405, [9431]);
    (9406, [9432]); (9407, [9433]); (9408, [9434]); (9409, [9435]); (9410, [9436]); (9411, [9437]);
    (9412, [9438]); (9413, [9439]); (9414, [9440]); (9415, [9441]); (9416, [9442]); (9417, [9443]);
    (9418, [9444]); (9419, [9445]); (9420, [9446]); (9421, [9447]); (9422, [9448]); (9423, [9449]);
    (11264, [11312]); (11265, [11313]); (11266, [11314]); (11267, [11315]); (11268, [11316]); (11269, [11317]);
    (11270, [11318]); (11271, [11319]); (11272, [11320]); (11273, [11321]); (11274, [11322]); (11275, [11323]);
    (11276, [11324]); (11277, [11325]); (11278, [11326]); (11279, [11327]); (11280, [11328]); (11281, [11329]);
    (11282, [11330]); (11283, [11331]); (11284, [11332]); (11285, [11333]); (11286, [11334]); (11287, [11335]);
    (11288, [11336]); (11289, [11337]); (11290, [11338]); (11291, [11339]); (11292, [11340]); (11293, [11341]);
    (11294, [11342]); (11295, [11343]); (11296, [11344]); (11297, [11345]); (11298, [11346]); (11299, [11347]);
    (11300, [11348]); (11301, [11349]); (11302, [11350]); (11303, [11351]); (11304, [11352]); (11305, [11353]);
    (11306, [11354]); (11307, [11355]); (11308, [11356]); (11309, [11357]); (11310, [11358]); (11311, [11359]);
    (11360, [11361]); (11362, [619]); (11363, [7549]); (11364, [637]); (11367, [11368]); (11369, [11370]);
    (11371, [11372]); (11373, [593]); (11374, [625]); (11375, [592]); (11376, [594]); (11378, [11379]);
    (11381, [11382]); (11390, [575]); (11391, [576]); (11392, [11393]); (11394, [11395]); (11396, [11397]);
    (11398, [11399]); (11400, [11401]); (11402, [11403]); (11404, [11405]); (11406, [11407]); (11408, [11409]);
    (11410, [11411]); (11412, [11413]); (11414, [11415]); (11416, [11417]); (11418, [11419]); (11420, [11421]);
    (11422, [11423]); (11424, [11425]); (11426, [11427]); (11428, [11429]); (11430, [11431]); (11432, [11433]);
    (11434, [11435]); (11436, [11437]); (11438, [11439]); (11440, [11441]); (11442, [11443]); (11444, [11445]);
    (11446, [11447]); (11448, [11449]); (11450, [11451]); (11452, [11453]); (11454, [11455]); (11456, [11457]);
    (11458, [11459]); (11460, [11461]); (11462, [11463]); (11464, [11465]); (11466, [11467]); (11468, [11469]);
    (11470, [11471]); (11472, [11473]); (11474, [11475]); (11476, [11477]); (11478, [11479]); (11480, [11481]);
    (11482, [11483]); (11484, [11485]); (11486, [11487]); (11488, [11489]); (11490, [11491]); (11499, [11500]);
    (11501, [11502]); (11506, [11507]); (42560, [42561]); (42562, [42563]); (42564, [42565]); (42566, [42567]);
    (42568, [42569]); (42570, [42571]); (42572, [42573]); (42574, [42575]); (42576, [42577]); (42578, [42579]);
    (42580, [42581]); (42582, [42583]); (42584, [42585]); (42586, [42587]); (42588, [42589]); (42590, [42591]);
    (42592, [42593]); (42594, [42595]); (42596, [42597]); (42598, [42599]); (42600, [42601]); (42602, [42603]);
    (42604, [42605]); (42624, [42625]); (42626, [42627]); (42628, [42629]); (42630, [42631]); (42632, [42633]);
    (42634, [42635]); (42636, [42637]); (42638, [42639]); (42640, [42641]); (42642, [42643]); (42644, [42645]);
    (42646, [42647]); (42648, [42649]); (42650, [42651]); (42786, [42787]); (42788, [42789]); (42790, [42791]);
    (42792, [42793]); (42794, [42795]); (42796, [42797]); (42798, [42799]); (42802, [42803]); (42804, [42805]);
    (42806, [42807]); (42808, [42809]); (42810, [42811]); (42812, [42813]); (42814, [42815]); (42816, [42817]);
    (42818, [42819]); (42820, [42821]); (42822, [42823]); (42824, [42825]); (42826, [42827]); (42828, [42829]);
    (42830, [42831]); (42832, [42833]); (42834, [42835]); (42836, [42837]); (42838, [42839]); (42840, [42841]);
    (42842, [42843]); (42844, [42845]); (42846, [42847]); (42848, [42849]); (42850, [42851]); (42852, [42853]);
    (42854, [42855]); (42856, [42857]); (42858, [42859]); (42860, [42861]); (42862, [42863]); (42873, [42874]);
    (42875, [42876]); (42877, [7545]); (42878, [42879]); (42880, [42881]); (42882, [42883]); (42884, [42885]);
    (42886, [42887]); (42891, [42892]); (42893, [613]); (42896, [42897]); (42898, [42899]); (42902, [42903]);
    (42904, [42905]); (42906, [42907]); (42908, [42909]); (42910, [42911]); (42912, [42913]); (42914, [42915]);
    (42916, [42917]); (42918, [42919]); (42920, [42921]); (42922, [614]); (42923, [604]); (42924, [609]);
    (42925, [620]); (42926, [618]); (42928, [670]); (42929, [647]); (42930, [669]); (42931, [43859]);
    (42932, [42933]); (42934, [42935]); (42936, [42937]); (42938, [42939]); (42940, [42941]); (42942, [42943]);
    (42944, [42945]); (42946, [42947]); (42948, [42900]); (42949, [642]); (42950, [7566]); (42951, [42952]);
    (42953, [42954]); (42960, [42961]); (42966, [42967]); (42968, [42969]); (42997, [42998]); (65313, [65345]);
    (65314, [65346]); (65315, [65347]); (65316, [65348]); (65317, [65349]); (65318, [65350]); (65319, [65351]);
    (65320, [65352]); (65321, [65353]); (65322, [65354]); (65323, [65355]); (65324, [65356]); (65325, [65357]);
    (65326, [65358]); (65327, [65359]); (65328, [65360]); (65329, [65361]); (65330, [65362]); (65331, [65363]);
    (65332, [65364]); (65333, [65365]); (65334, [65366]); (65335, [65367]); (65336, [65368]); (65337, [65369]);
    (65338, [65370]); (66560, [66600]); (66561, [66601]); (66562, [66602]); (66563, [66603]); (66564, [66604]);
    (66565, [66605]); (66566, [66606]); (66567, [66607]); (66568, [66608]); (66569, [66609]); (66570, [66610]);
    (66571, [66611]); (66572, [66612]); (66573, [66613]); (66574, [66614]); (66575, [66615]); (66576, [66616]);
    (66577, [66617]); (66578, [66618]); (66579, [66619]); (66580, [66620]); (66581, [66621]); (66582, [66622]);
    (66583, [66623]); (66584, [66624]); (66585, [66625]); (66586, [66626]); (66587, [66627]); (66588, [66628]);
    (66589, [66629]); (66590, [66630]); (66591, [66631]); (66592, [66632]); (66593, [66633]); (66594, [66634]);
    (66595, [66635]); (66596, [66636]); (66597, [66637]); (66598, [66638]); (66599, [66639]); (66736, [66776]);
    (66737, [66777]); (66738, [66778]); (66739, [66779]); (66740, [66780]); (66741, [66781]); (66742, [66782]);
    (66743, [66783]); (66744, [66784]); (66745, [66785]); (66746, [66786]); (66747, [66787]); (66748, [66788]);
    (66749, [66789]); (66750, [66790]); (66751, [66791]); (66752, [66792]); (66753, [66793]); (66754, [66794]);
    (66755, [66795]); (66756, [66796]); (66757, [66797]); (66758, [66798]); (66759, [66799]); (66760, [66800]);
    (66761, [66801]); (66762, [66802]); (66763, [66803]); (66764, [66804]); (66765, [66805]); (66766, [66806]);
    (66767, [66807]); (66768, [66808]); (66769, [66809]); (66770, [66810]); (66771, [66811]); (66928, [66967]);
    (66929, [66968]); (66930, [66969]); (66931, [66970]); (66932, [66971]); (66933, [66972]); (66934, [66973]);
    (66935, [66974]); (66936, [66975]); (66937, [66976]); (66938, [66977]); (66940, [66979]); (66941, [66980]);
    (66942, [66981]); (66943, [66982]); (66944, [66983]); (66945, [66984]); (66946, [66985]); (66947, [66986]);
    (66948, [66987]); (66949, [66988]); (66950, [66989]); (66951, [66990]); (66952, [66991]); (66953, [66992]);
    (66954, [66993]); (66956, [66995]); (66957, [66996]); (66958, [66997]); (66959, [66998]); (66960, [66999]);
    (66961, [67000]); (66962, [67001]); (66964, [67003]); (66965, [67004]); (68736, [68800]); (68737, [68801]);
    (68738, [68802]); (68739, [68803]); (68740, [68804]); (68741, [68805]); (68742, [68806]); (68743, [68807]);
    (68744, [68808]); (68745, [68809]); (68746, [68810]); (68747, [68811]); (68748, [68812]); (68749, [68813]);
    (68750, [68814]); (68751, [68815]); (68752, [68816]); (68753, [68817]); (68754, [68818]); (68755, [68819]);
    (68756, [68820]); (68757, [68821]); (68758, [68822]); (68759, [68823]); (68760, [68824]); (68761, [68825]);
    (68762, [68826]); (68763, [68827]); (68764, [68828]); (68765, [68829]); (68766, [68830]); (68767, [68831]);
    (68768, [68832]); (68769, [68833]); (68770, [68834]); (68771, [68835]); (68772, [68836]); (68773, [68837]);
    (68774, [68838]); (68775, [68839]); (68776, [68840]); (68777, [68841]); (68778, [68842]); (68779, [68843]);
    (68780, [68844]); (68781, [68845]); (68782, [68846]); (68783, [68847]); (68784, [68848]); (68785, [68849]);
    (68786, [68850]); (71840, [71872]); (71841, [71873]); (71842, [71874]); (71843, [71875]); (71844, [71876]);
    (71845, [71877]); (71846, [71878]); (71847, [71879]); (71848, [71880]); (71849, [71881]); (71850, [71882]);
    (71851, [71883]); (71852, [71884]); (71853, [71885]); (71854, [71886]); (71855, [71887]); (71856, [71888]);
    (71857, [71889]); (71858, [71890]); (71859, [71891]); (71860, [71892]); (71861, [71893]); (71862, [71894]);
    (71863, [71895]); (71864, [71896]); (71865, [71897]); (71866, [71898]); (71867, [71899]); (71868, [71900]);
    (71869, [71901]); (71870, [71902]); (71871, [71903]); (93760, [93792]); (93761, [93793]); (93762, [93794]);
    (93763, [93795]); (93764, [93796]); (93765, [93797]); (93766, [93798]); (93767, [93799]); (93768, [93800]);
    (93769, [93801]); (93770, [93802]); (93771, [93803]); (93772, [93804]); (93773, [93805]); (93774, [93806]);
    (93775, [93807]); (93776, [93808]); (93777, [93809]); (93778, [93810]); (93779, [93811]); (93780, [93812]);
    (93781, [93813]); (93782, [93814]); (93783, [93815]); (93784, [93816]); (93785, [93817]); (93786, [93818]);
    (93787, [93819]); (93788, [93820]); (93789, [93821]); (93790, [93822]); (93791, [93823]); (125184, [125218]);
    (125185, [125219]); (125186, [125220]); (125187, [125221]); (125188, [125222]); (125189, [125223]); (125190, [125224]);
    (125191, [125225]); (125192, [125226]); (125193, [125227]); (125194, [125228]); (125195, [125229]); (125196, [125230]);
    (125197, [125231]); (125198, [125232]); (125199, [125233]); (125200, [125234]); (125201, [125235]); (125202, [125236]);
    (125203, [125237]); (125204, [125238]); (125205, [125239]); (125206, [125240]); (125207, [125241]); (125208, [125242]);
    (125209, [125243]); (125210, [125244]); (125211, [125245]); (125212, [125246]); (125213, [125247]); (125214, [125248]);
    (125215, [125249]); (125216, [125250]); (125217, [125251])
  ]%N.

(** Every code point above ASCII that [str.upper] changes, with the code points
    it becomes (Unicode 14.0.0). *)
Definition upper_table : list (N * list N) :=
  [
    (181, [924]); (223, [83; 83]); (224, [192]); (225, [193]); (226, [194]); (227, [195]);
    (228, [196]); (229, [197]); (230, [198]); (231, [199]); (232, [200]); (233, [201]);
    (234, [202]); (235, [203]); (236, [204]); (237, [205]); (238, [206]); (239, [207]);
    (240, [208]); (241, [209]); (242, [210]); (243, [211]); (244, [212]); (245, [213]);
    (246, [214]); (248, [216]); (249, [217]); (250, [218]); (251, [219]); (252, [220]);
    (253, [221]); (254, [222]); (255, [376]); (257, [256]); (259, [258]); (261, [260]);
    (263, [262]); (265, [264]); (267, [266]); (269, [268]); (271, [270]); (273, [272]);
    (275, [274]); (277, [276]); (279, [278]); (281, [280]); (283, [282]); (285, [284]);
    (287, [286]); (289, [288]); (291, [290]); (293, [292]); (295, [294]); (297, [296]);
    (299, [298]); (301, [300]); (303, [302]); (305, [73]); (307, [306]); (309, [308]);
    (311, [310]); (314, [313]); (316, [315]); (318, [317]); (320, [319]); (322, [321]);
    (324, [323]); (326, [325]); (328, [327]); (329, [700; 78]); (331, [330]); (333, [332]);
    (335, [334]); (337, [336]); (339, [338]); (341, [340]); (343, [342]); (345, [344]);
    (347, [346]); (349, [348]); (351, [350]); (353, [352]); (355, [354]); (357, [356]);
    (359, [358]); (361, [360]); (363, [362]); (365, [364]); (367, [366]); (369, [368]);
    (371, [370]); (373, [372]); (375, [374]); (378, [377]); (380, [379]); (382, [381]);
    (383, [83]); (384, [579]); (387, [386]); (389, [388]); (392, [391]); (396, [395]);
    (402, [401]); (405, [502]); (409, [408]); (410, [573]); (414, [544]); (417, [416]);
    (419, [418]); (421, [420]); (424, [423]); (429, [428]); (432, [431]); (436, [435]);
    (438, [437]); (441, [440]); (445, [444]); (447, [503]); (453, [452]); (454, [452]);
    (456, [455]); (457, [455]); (459, [458]); (460, [458]); (462, [461]); (464, [463]);
    (466, [465]); (468, [467]); (470, [469]); (472, [471]); (474, [473]); (476, [475]);
    (477, [398]); (479, [478]); (481, [480]); (483, [482]); (485, [484]); (487, [486]);
    (489, [488]); (491, [490]); (493, [492]); (495, [494]); (496, [74; 780]); (498, [497]);
    (499, [497]); (501, [500]); (505, [504]); (507, [506]); (509, [508]); (511, [510]);
    (513, [512]); (515, [514]); (517, [516]); (519, [518]); (521, [520]); (523, [522]);
    (525, [524]); (527, [526]); (529, [528]); (531, [530]); (533, [532]); (535, [534]);
    (537, [536]); (539, [538]); (541, [540]); (543, [542]); (547, [546]); (549, [548]);
    (551, [550]); (553, [552]); (555, [554]); (557, [556]); (559, [558]); (561, [560]);
    (563, [562]); (572, [571]); (575, [11390]); (576, [11391]); (578, [577]); (583, [582]);
    (585, [584]); (587, [586]); (589, [588]); (591, [590]); (592, [11375]); (593, [11373]);
    (594, [11376]); (595, [385]); (596, [390]); (598, [393]); (599, [394]); (601, [399]);
    (603, [400]); (604, [42923]); (608, [403]); (609, [42924]); (611, [404]); (613, [42893]);
    (614, [42922]); (616, [407]); (617, [406]); (618, [42926]); (619, [11362]); (620, [42925]);
    (623, [412]); (625, [11374]); (626, [413]); (629, [415]); (637, [11364]); (640, [422]);
    (642, [42949]); (643, [425]); (647, [42929]); (648, [430]); (649, [580]); (650, [433]);
    (651, [434]); (652, [581]); (658, [439]); (669, [42930]); (670, [42928]); (837, [921]);
    (881, [880]); (883, [882]); (887, [886]); (891, [1021]); (892, [1022]); (893, [1023]);
    (912, [921; 776; 769]); (940, [902]); (941, [904]); (942, [905]); (943, [906]); (944, [933; 776; 769]);
    (945, [913]); (946, [914]); (947, [915]); (948, [916]); (949, [917]); (950, [918]);
    (951, [919]); (952, [920]); (953, [921]); (954, [922]); (955, [923]); (956, [924]);
    (957, [925]); (958, [926]); (959, [927]); (960, [928]); (961, [929]); (962, [931]);
    (963, [931]); (964, [932]); (965, [933]); (966, [934]); (967, [935]); (968, [936]);
    (969, [937]); (970, [938]); (971, [939]); (972, [908]); (973, [910]); (974, [911]);
    (976, [914]); (977, [920]); (981, [934]); (982, [928]); (983, [975]); (985, [984]);
    (987, [986]); (989, [988]); (991, [990]); (993, [992]); (995, [994]); (997, [996]);
    (999, [998]); (1001, [1000]); (1003, [1002]); (1005, [1004]); (1007, [1006]); (1008, [922]);
    (1009, [929]); (1010, [1017]); (1011, [895]); (1013, [917]); (1016, [1015]); (1019, [1018]);
    (1072, [1040]); (1073, [1041]); (1074, [1042]); (1075, [1043]); (1076, [1044]); (1077, [1045]);
    (1078, [1046]); (1079, [1047]); (1080, [1048]); (1081, [1049]); (1082, [1050]); (1083, [1051]);
    (1084, [1052]); (1085, [1053]); (1086, [1054]); (1087, [1055]); (1088, [1056]); (1089, [1057]);
    (1090, [1058]); (1091, [1059]); (1092, [1060]); (1093, [1061]); (1094, [1062]); (1095, [1063]);
    (1096, [1064]); (1097, [1065]); (1098, [1066]); (1099, [1067]); (1100, [1068]); (1101, [1069]);
    (1102, [1070]); (1103, [1071]); (1104, [1024]); (1105, [1025]); (1106, [1026]); (1107, [1027]);
    (1108, [1028]); (1109, [1029]); (1110, [1030]); (1111, [1031]); (1112, [1032]); (1113, [1033]);
    (1114, [1034]); (1115, [1035]); (1116, [1036]); (1117, [1037]); (1118, [1038]); (1119, [1039]);
    (1121, [1120]); (1123, [1122]); (1125, [1124]); (1127, [1126]); (1129, [1128]); (1131, [1130]);
    (1133, [1132]); (1135, [1134]); (1137, [1136]); (1139, [1138]); (1141, [1140]); (1143, [1142]);
    (1145, [1144]); (1147, [1146]); (1149, [1148]); (1151, [1150]); (1153, [1152]); (1163, [1162]);
    (1165, [1164]); (1167, [1166]); (1169, [1168]); (1171, [1170]); (1173, [1172]); (1175, [1174]);
    (1177, [1176]); (1179, [1178]); (1181, [1180]); (1183, [1182]); (1185, [1184]); (1187, [1186]);
    (1189, [1188]); (1191, [1190]); (1193, [1192]); (1195, [1194]); (1197, [1196]); (1199, [1198]);
    (1201, [1200]); (1203, [1202]); (1205, [1204]); (1207, [1206]); (1209, [1208]); (1211, [1210]);
    (1213, [1212]); (1215, [1214]); (1218, [1217]); (1220, [1219]); (1222, [1221]); (1224, [1223]);
    (1226, [1225]); (1228, [1227]); (1230, [1229]); (1231, [1216]); (1233, [1232]); (1235, [1234]);
    (1237, [1236]); (1239, [1238]); (1241, [1240]); (1243, [1242]); (1245, [1244]); (1247, [1246]);
    (1249, [1248]); (1251, [1250]); (1253, [1252]); (1255, [1254]); (1257, [1256]); (1259, [1258]);
    (1261, [1260]); (1263, [1262]); (1265, [1264]); (1267, [1266]); (1269, [1268]); (1271, [1270]);
    (1273, [1272]); (1275, [1274]); (1277, [1276]); (1279, [1278]); (1281, [1280]); (1283, [1282]);
    (1285, [1284]); (1287, [1286]); (1289, [1288]); (1291, [1290]); (1293, [1292]); (1295, [1294]);
    (1297, [1296]); (1299, [1298]); (1301, [1300]); (1303, [1302]); (1305, [1304]); (1307, [1306]);
    (1309, [1308]); (1311, [1310]); (1313, [1312]); (1315, [1314]); (1317, [1316]); (1319, [1318]);
    (1321, [1320]); (1323, [1322]); (1325, [1324]); (1327, [1326]); (1377, [1329]); (1378, [1330]);
    (1379, [1331]); (1380, [1332]); (1381, [1333]); (1382, [1334]); (1383, [1335]); (1384, [1336]);
    (1385, [1337]); (1386, [1338]); (1387, [1339]); (1388, [1340]); (1389, [1341]); (1390, [1342]);
    (1391, [1343]); (1392, [1344]); (1393, [1345]); (1394, [1346]); (1395, [1347]); (1396, [1348]);
    (1397, [1349]); (1398, [1350]); (1399, [1351]); (1400, [1352]); (1401, [1353]); (1402, [1354]);
    (1403, [1355]); (1404, [1356]); (1405, [1357]); (1406, [1358]); (1407, [1359]); (1408, [1360]);
    (1409, [1361]); (1410, [1362]); (1411, [1363]); (1412, [1364]); (1413, [1365]); (1414, [1366]);
    (1415, [1333; 1362]); (4304, [7312]); (4305, [7313]); (4306, [7314]); (4307, [7315]); (4308, [7316]);
    (4309, [7317]); (4310, [7318]); (4311, [7319]); (4312, [7320]); (4313, [7321]); (4314, [7322]);
    (4315, [7323]); (4316, [7324]); (4317, [7325]); (4318, [7326]); (4319, [7327]); (4320, [7328]);
    (4321, [7329]); (4322, [7330]); (4323, [7331]); (4324, [7332]); (4325, [7333]); (4326, [7334]);
    (4327, [7335]); (4328, [7336]); (4329, [7337]); (4330, [7338]); (4331, [7339]); (4332, [7340]);
    (4333, [7341]); (4334, [7342]); (4335, [7343]); (4336, [7344]); (4337, [7345]); (4338, [7346]);
    (4339, [7347]); (4340, [7348]); (4341, [7349]); (4342, [7350]); (4343, [7351]); (4344, [7352]);
    (4345, [7353]); (4346, [7354]); (4349, [7357]); (4350, [7358]); (4351, [7359]); (5112, [5104]);
    (5113, [5105]); (5114, [5106]); (5115, [5107]); (5116, [5108]); (5117, [5109]); (7296, [1042]);
    (7297, [1044]); (7298, [1054]); (7299, [1057]); (7300, [1058]); (7301, [1058]); (7302, [1066]);
    (7303, [1122]); (7304, [42570]); (7545, [42877]); (7549, [11363]); (7566, [42950]); (7681, [7680]);
    (7683, [7682]); (7685, [7684]); (7687, [7686]); (7689, [7688]); (7691, [7690]); (7693, [7692]);
    (7695, [7694]); (7697, [7696]); (7699, [7698]); (7701, [7700]); (7703, [7702]); (7705, [7704]);
    (7707, [7706]); (7709, [7708]); (7711, [7710]); (7713, [7712]); (7715, [7714]); (7717, [7716]);
    (7719, [7718]); (7721, [7720]); (7723, [7722]); (7725, [7724]); (7727, [7726]); (7729, [7728]);
    (7731, [7730]); (7733, [7732]); (7735, [7734]); (7737, [7736]); (7739, [7738]); (7741, [7740]);
    (7743, [7742]); (7745, [7744]); (7747, [7746]); (7749, [7748]); (7751, [7750]); (7753, [7752]);
    (7755, [7754]); (7757, [7756]); (7759, [7758]); (7761, [7760]); (7763, [7762]); (7765, [7764]);
    (7767, [7766]); (7769, [7768]); (7771, [7770]); (7773, [7772]); (7775, [7774]); (7777, [7776]);
    (7779, [7778]); (7781, [7780]); (7783, [7782]); (7785, [7784]); (7787, [7786]); (7789, [7788]);
    (7791, [7790]); (7793, [7792]); (7795, [7794]); (7797, [7796]); (7799, [7798]); (7801, [7800]);
    (7803, [7802]); (7805, [7804]); (7807, [7806]); (7809, [7808]); (7811, [7810]); (7813, [7812]);
    (7815, [7814]); (7817, [7816]); (7819, [7818]); (7821, [7820]); (7823, [7822]); (7825, [7824]);
    (7827, [7826]); (7829, [7828]); (7830, [72; 817]); (7831, [84; 776]); (7832, [87; 778]); (7833, [89; 778]);
    (7834, [65; 702]); (7835, [7776]); (7841, [7840]); (7843, [7842]); (7845, [7844]); (7847, [7846]);
    (7849, [7848]); (7851, [7850]); (7853, [7852]); (7855, [7854]); (7857, [7856]); (7859, [7858]);
    (7861, [7860]); (7863, [7862]); (7865, [7864]); (7867, [7866]); (7869, [7868]); (7871, [7870]);
    (7873, [7872]); (7875, [7874]); (7877, [7876]); (7879, [7878]); (7881, [7880]); (7883, [7882]);
    (7885, [7884]); (7887, [7886]); (7889, [7888]); (7891, [7890]); (7893, [7892]); (7895, [7894]);
    (7897, [7896]); (7899, [7898]); (7901, [7900]); (7903, [7902]); (7905, [7904]); (7907, [7906]);
    (7909, [7908]); (7911, [7910]); (7913, [7912]); (7915, [7914]); (7917, [7916]); (7919, [7918]);
    (7921, [7920]); (7923, [7922]); (7925, [7924]); (7927, [7926]); (7929, [7928]); (7931, [7930]);
    (7933, [7932]); (7935, [7934]); (7936, [7944]); (7937, [7945]); (7938, [7946]); (7939, [7947]);
    (7940, [7948]); (7941, [7949]); (7942, [7950]); (7943, [7951]); (7952, [7960]); (7953, [7961]);
    (7954, [7962]); (7955, [7963]); (7956, [7964]); (7957, [7965]); (7968, [7976]); (7969, [7977]);
    (7970, [7978]); (7971, [7979]); (7972, [7980]); (7973, [7981]); (7974, [7982]); (7975, [7983]);
    (7984, [7992]); (7985, [7993]); (7986, [7994]); (7987, [7995]); (7988, [7996]); (7989, [7997]);
    (7990, [7998]); (7991, [7999]); (8000, [8008]); (8001, [8009]); (8002, [8010]); (8003, [8011]);
    (8004, [8012]); (8005, [8013]); (8016, [933; 787]); (8017, [8025]); (8018, [933; 787; 768]); (8019, [8027]);
    (8020, [933; 787; 769]); (8021, [8029]); (8022, [933; 787; 834]); (8023, [8031]); (8032, [8040]); (8033, [8041]);
    (8034, [8042]); (8035, [8043]); (8036, [8044]); (8037, [8045]); (8038, [8046]); (8039, [8047]);
    (8048, [8122]); (8049, [8123]); (8050, [8136]); (8051, [8137]); (8052, [8138]); (8053, [8139]);
    (8054, [8154]); (8055, [8155]); (8056, [8184]); (8057, [8185]); (8058, [8170]); (8059, [8171]);
    (8060, [8186]); (8061, [8187]); (8064, [7944; 921]); (8065, [7945; 921]); (8066, [7946; 921]); (8067, [7947; 921]);
    (8068, [7948; 921]); (8069, [7949; 921]); (8070, [7950; 921]); (8071, [7951; 921]); (8072, [7944; 921]); (8073, [7945; 921]);
    (8074, [7946; 921]); (8075, [7947; 921]); (8076, [7948; 921]); (8077, [7949; 921]); (8078, [7950; 921]); (8079, [7951; 921]);
    (8080, [7976; 921]); (8081, [7977; 921]); (8082, [7978; 921]); (8083, [7979; 921]); (8084, [7980; 921]); (8085, [7981; 921]);
    (8086, [7982; 921]); (8087, [7983; 921]); (8088, [7976; 921]); (8089, [7977; 921]); (8090, [7978; 921]); (8091, [7979; 921]);
    (8092, [7980; 921]); (8093, [7981; 921]); (8094, [7982; 921]); (8095, [7983; 921]); (8096, [8040; 921]); (8097, [8041; 921]);
    (8098, [8042; 921]); (8099, [8043; 921]); (8100, [8044; 921]); (8101, [8045; 921]); (8102, [8046; 921]); (8103, [8047; 921]);
    (8104, [8040; 921]); (8105, [8041; 921]); (8106, [8042; 921]); (8107, [8043; 921]); (8108, [8044; 921]); (8109, [8045; 921]);
    (8110, [8046; 921]); (8111, [8047; 921]); (8112, [8120]); (8113, [8121]); (8114, [8122; 921]); (8115, [913; 921]);
    (8116, [902; 921]); (8118, [913; 834]); (8119, [913; 834; 921]); (8124, [913; 921]); (8126, [921]); (8130, [8138; 921]);
    (8131, [919; 921]); (8132, [905; 921]); (8134, [919; 834]); (8135, [919; 834; 921]); (8140, [919; 921]); (8144, [8152]);
    (8145, [8153]); (8146, [921; 776; 768]); (8147, [921; 776; 769]); (8150, [921; 834]); (8151, [921; 776; 834]); (8160, [8168]);
    (8161, [8169]); (8162, [933; 776; 768]); (8163, [933; 776; 769]); (8164, [929; 787]); (8165, [8172]); (8166, [933; 834]);
    (8167, [933; 776; 834]); (8178, [8186; 921]); (8179, [937; 921]); (8180, [911; 921]); (8182, [937; 834]); (8183, [937; 834; 921]);
    (8188, [937; 921]); (8526, [8498]); (8560, [8544]); (8561, [8545]); (8562, [8546]); (8563, [8547]);
    (8564, [8548]); (8565, [8549]); (8566, [8550]); (8567, [8551]); (8568, [8552]); (8569, [8553]);
    (8570, [8554]); (8571, [8555]); (8572, [8556]); (8573, [8557]); (8574, [8558]); (8575, [8559]);
    (8580, [8579]); (9424, [9398]); (9425, [9399]); (9426, [9400]); (9427, [9401]); (9428, [9402]);
    (9429, [9403]); (9430, [9404]); (9431, [9405]); (9432, [9406]); (9433, [9407]); (9434, [9408]);
    (9435, [9409]); (9436, [9410]); (9437, [9411]); (9438, [9412]); (9439, [9413]); (9440, [9414]);
    (9441, [9415]); (9442, [9416]); (9443, [9417]); (9444, [9418]); (9445, [9419]); (9446, [9420]);
    (9447, [9421]); (9448, [9422]); (9449, [9423]); (11312, [11264]); (11313, [11265]); (11314, [11266]);
    (11315, [11267]); (11316, [11268]); (11317, [11269]); (11318, [11270]); (11319, [11271]); (11320, [11272]);
    (11321, [11273]); (11322, [11274]); (11323, [11275]); (11324, [11276]); (11325, [11277]); (11326, [11278]);
    (11327, [11279]); (11328, [11280]); (11329, [11281]); (11330, [11282]); (11331, [11283]); (11332, [11284]);
    (11333, [11285]); (11334, [11286]); (11335, [11287]); (11336, [11288]); (11337, [11289]); (11338, [11290]);
    (11339, [11291]); (11340, [11292]); (11341, [11293]); (11342, [11294]); (11343, [11295]); (11344, [11296]);
    (11345, [11297]); (11346, [11298]); (11347, [11299]); (11348, [11300]); (11349, [11301]); (11350, [11302]);
    (11351, [11303]); (11352, [11304]); (11353, [11305]); (11354, [11306]); (11355, [11307]); (11356, [11308]);
    (11357, [11309]); (11358, [11310]); (11359, [11311]); (11361, [11360]); (11365, [570]); (11366, [574]);
    (11368, [11367]); (11370, [11369]); (11372, [11371]); (11379, [11378]); (11382, [11381]); (11393, [11392]);
    (11395, [11394]); (11397, [11396]); (11399, [11398]); (11401, [11400]); (11403, [11402]); (11405, [11404]);
    (11407, [11406]); (11409, [11408]); (11411, [11410]); (11413, [11412]); (11415, [11414]); (11417, [11416]);
    (11419, [11418]); (11421, [11420]); (11423, [11422]); (11425, [11424]); (11427, [11426]); (11429, [11428]);
    (11431, [11430]); (11433, [11432]); (11435, [11434]); (11437, [11436]); (11439, [11438]); (11441, [11440]);
    (11443, [11442]); (11445, [11444]); (11447, [11446]); (11449, [11448]); (11451, [11450]); (11453, [11452]);
    (11455, [11454]); (11457, [11456]); (11459, [11458]); (11461, [11460]); (11463, [11462]); (11465, [11464]);
    (11467, [11466]); (11469, [11468]); (11471, [11470]); (11473, [11472]); (11475, [11474]); (11477, [11476]);
    (11479, [11478]); (11481, [11480]); (11483, [11482]); (11485, [11484]); (11487, [11486]); (11489, [11488]);
    (11491, [11490]); (11500, [11499]); (11502, [11501]); (11507, [11506]); (11520, [4256]); (11521, [4257]);
    (11522, [4258]); (11523, [4259]); (11524, [4260]); (11525, [4261]); (11526, [4262]); (11527, [4263]);
    (11528, [4264]); (11529, [4265]); (11530, [4266]); (11531, [4267]); (11532, [4268]); (11533, [4269]);
    (11534, [4270]); (11535, [4271]); (11536, [4272]); (11537, [4273]); (11538, [4274]); (11539, [4275]);
    (11540, [4276]); (11541, [4277]); (11542, [4278]); (11543, [4279]); (11544, [4280]); (11545, [4281]);
    (11546, [4282]); (11547, [4283]); (11548, [4284]); (11549, [4285]); (11550, [4286]); (11551, [4287]);
    (11552, [4288]); (11553, [4289]); (11554, [4290]); (11555, [4291]); (11556, [4292]); (11557, [4293]);
    (11559, [4295]); (11565, [4301]); (42561, [42560]); (42563, [42562]); (42565, [42564]); (42567, [42566]);
    (42569, [42568]); (42571, [42570]); (42573, [42572]); (42575, [42574]); (42577, [42576]); (42579, [42578]);
    (42581, [42580]); (42583, [42582]); (42585, [42584]); (42587, [42586]); (42589, [42588]); (42591, [42590]);
    (42593, [42592]); (42595, [42594]); (42597, [42596]); (42599, [42598]); (42601, [42600]); (42603, [42602]);
    (42605, [42604]); (42625, [42624]); (42627, [42626]); (42629, [42628]); (42631, [42630]); (42633, [42632]);
    (42635, [42634]); (42637, [42636]); (42639, [42638]); (42641, [42640]); (42643, [42642]); (42645, [42644]);
    (42647, [42646]); (42649, [42648]); (42651, [42650]); (42787, [42786]); (42789, [42788]); (42791, [42790]);
    (42793, [42792]); (42795, [42794]); (42797, [42796]); (42799, [42798]); (42803, [42802]); (42805, [42804]);
    (42807, [42806]); (42809, [42808]); (42811, [42810]); (42813, [42812]); (42815, [42814]); (42817, [42816]);
    (42819, [42818]); (42821, [42820]); (42823, [42822]); (42825, [42824]); (42827, [42826]); (42829, [42828]);
    (42831, [42830]); (42833, [42832]); (42835, [42834]); (42837, [42836]); (42839, [42838]); (42841, [42840]);
    (42843, [42842]); (42845, [42844]); (42847, [42846]); (42849, [42848]); (42851, [42850]); (42853, [42852]);
    (42855, [42854]); (42857, [42856]); (42859, [42858]); (42861, [42860]); (42863, [42862]); (42874, [42873]);
    (42876, [42875]); (42879, [42878]); (42881, [42880]); (42883, [42882]); (42885, [42884]); (42887, [42886]);
    (42892, [42891]); (42897, [42896]); (42899, [42898]); (42900, [42948]); (42903, [42902]); (42905, [42904]);
    (42907, [42906]); (42909, [42908]); (42911, [42910]); (42913, [42912]); (42915, [42914]); (42917, [42916]);
    (42919, [42918]); (42921, [42920]); (42933, [42932]); (42935, [42934]); (42937, [42936]); (42939, [42938]);
    (42941, [42940]); (42943, [42942]); (42945, [42944]); (42947, [42946]); (42952, [42951]); (42954, [42953]);
    (42961, [42960]); (42967, [42966]); (42969, [42968]); (42998, [42997]); (43859, [42931]); (43888, [5024]);
    (43889, [5025]); (43890, [5026]); (43891, [5027]); (43892, [5028]); (43893, [5029]); (43894, [5030]);
    (43895, [5031]); (43896, [5032]); (43897, [5033]); (43898, [5034]); (43899, [5035]); (43900, [5036]);
    (43901, [5037]); (43902, [5038]); (43903, [5039]); (43904, [5040]); (43905, [5041]); (43906, [5042]);
    (43907, [5043]); (43908, [5044]); (43909, [5045]); (43910, [5046]); (43911, [5047]); (43912, [5048]);
    (43913, [5049]); (43914, [5050]); (43915, [5051]); (43916, [5052]); (43917, [5053]); (43918, [5054]);
    (43919, [5055]); (43920, [5056]); (43921, [5057]); (43922, [5058]); (43923, [5059]); (43924, [5060]);
    (43925, [5061]); (43926, [5062]); (43927, [5063]); (43928, [5064]); (43929, [5065]); (43930, [5066]);
    (43931, [5067]); (43932, [5068]); (43933, [5069]); (43934, [5070]); (43935, [5071]); (43936, [5072]);
    (43937, [5073]); (43938, [5074]); (43939, [5075]); (43940, [5076]); (43941, [5077]); (43942, [5078]);
    (43943, [5079]); (43944, [5080]); (43945, [5081]); (43946, [5082]); (43947, [5083]); (43948, [5084]);
    (43949, [5085]); (43950, [5086]); (43951, [5087]); (43952, [5088]); (43953, [5089]); (43954, [5090]);
    (43955, [5091]); (43956, [5092]); (43957, [5093]); (43958, [5094]); (43959, [5095]); (43960, [5096]);
    (43961, [5097]); (43962, [5098]); (43963, [5099]); (43964, [5100]); (43965, [5101]); (43966, [5102]);
    (43967, [5103]); (64256, [70; 70]); (64257, [70; 73]); (64258, [70; 76]); (64259, [70; 70; 73]); (64260, [70; 70; 76]);
    (64261, [83; 84]); (64262, [83; 84]); (64275, [1348; 1350]); (64276, [1348; 1333]); (64277, [1348; 1339]); (64278, [1358; 1350]);
    (64279, [1348; 1341]); (65345, [65313]); (65346, [65314]); (65347, [65315]); (65348, [65316]); (65349, [65317]);
    (65350, [65318]); (65351, [65319]); (65352, [65320]); (65353, [65321]); (65354, [65322]); (65355, [65323]);
    (65356, [65324]); (65357, [65325]); (65358, [65326]); (65359, [65327]); (65360, [65328]); (65361, [65329]);
    (65362, [65330]); (65363, [65331]); (65364, [65332]); (65365, [65333]); (65366, [65334]); (65367, [65335]);
    (65368, [65336]); (65369, [65337]); (65370, [65338]); (66600, [66560]); (66601, [66561]); (66602, [66562]);
    (66603, [66563]); (66604, [66564]); (66605, [66565]); (66606, [66566]); (66607, [66567]); (66608, [66568]);
    (66609, [66569]); (66610, [66570]); (66611, [66571]); (66612, [66572]); (66613, [66573]); (66614, [66574]);
    (66615, [66575]); (66616, [66576]); (66617, [66577]); (66618, [66578]); (66619, [66579]); (66620, [66580]);
    (66621, [66581]); (66622, [66582]); (66623, [66583]); (66624, [66584]); (66625, [66585]); (66626, [66586]);
    (66627, [66587]); (66628, [66588]); (66629, [66589]); (66630, [66590]); (66631, [66591]); (66632, [66592]);
    (66633, [66593]); (66634, [66594]); (66635, [66595]); (66636, [66596]); (66637, [66597]); (66638, [66598]);
    (66639, [66599]); (66776, [66736]); (66777, [66737]); (66778, [66738]); (66779, [66739]); (66780, [66740]);
    (66781, [66741]); (66782, [66742]); (66783, [66743]); (66784, [66744]); (66785, [66745]); (66786, [66746]);
    (66787, [66747]); (66788, [66748]); (66789, [66749]); (66790, [66750]); (66791, [66751]); (66792, [66752]);
    (66793, [66753]); (66794, [66754]); (66795, [66755]); (66796, [66756]); (66797, [66757]); (66798, [66758]);
    (66799, [66759]); (66800, [66760]); (66801, [66761]); (66802, [66762]); (66803, [66763]); (66804, [66764]);
    (66805, [66765]); (66806, [66766]); (66807, [66767]); (66808, [66768]); (66809, [66769]); (66810, [66770]);
    (66811, [66771]); (66967, [66928]); (66968, [66929]); (66969, [66930]); (66970, [66931]); (66971, [66932]);
    (66972, [66933]); (66973, [66934]); (66974, [66935]); (66975, [66936]); (66976, [66937]); (66977, [66938]);
    (66979, [66940]); (66980, [66941]); (66981, [66942]); (66982, [66943]); (66983, [66944]); (66984, [66945]);
    (66985, [66946]); (66986, [66947]); (66987, [66948]); (66988, [66949]); (66989, [66950]); (66990, [66951]);
    (66991, [66952]); (66992, [66953]); (66993, [66954]); (66995, [66956]); (66996, [66957]); (66997, [66958]);
    (66998, [66959]); (66999, [66960]); (67000, [66961]); (67001, [66962]); (67003, [66964]); (67004, [66965]);
    (68800, [68736]); (68801, [68737]); (68802, [68738]); (68803, [68739]); (68804, [68740]); (68805, [68741]);
    (68806, [68742]); (68807, [68743]); (68808, [68744]); (68809, [68745]); (68810, [68746]); (68811, [68747]);
    (68812, [68748]); (68813, [68749]); (68814, [68750]); (68815, [68751]); (68816, [68752]); (68817, [68753]);
    (68818, [68754]); (68819, [68755]); (68820, [68756]); (68821, [68757]); (68822, [68758]); (68823, [68759]);
    (68824, [68760]); (68825, [68761]); (68826, [68762]); (68827, [68763]); (68828, [68764]); (68829, [68765]);
    (68830, [68766]); (68831, [68767]); (68832, [68768]); (68833, [68769]); (68834, [68770]); (68835, [68771]);
    (68836, [68772]); (68837, [68773]); (68838, [68774]); (68839, [68775]); (68840, [68776]); (68841, [68777]);
    (68842, [68778]); (68843, [68779]); (68844, [68780]); (68845, [68781]); (68846, [68782]); (68847, [68783]);
    (68848, [68784]); (68849, [68785]); (68850, [68786]); (71872, [71840]); (71873, [71841]); (71874, [71842]);
    (71875, [71843]); (71876, [71844]); (71877, [71845]); (71878, [71846]); (71879, [71847]); (71880, [71848]);
    (71881, [71849]); (71882, [71850]); (71883, [71851]); (71884, [71852]); (71885, [71853]); (71886, [71854]);
    (71887, [71855]); (71888, [71856]); (71889, [71857]); (71890, [71858]); (71891, [71859]); (71892, [71860]);
    (71893, [71861]); (71894, [71862]); (71895, [71863]); (71896, [71864]); (71897, [71865]); (71898, [71866]);
    (71899, [71867]); (71900, [71868]); (71901, [71869]); (71902, [71870]); (71903, [71871]); (93792, [93760]);
    (93793, [93761]); (93794, [93762]); (93795, [93763]); (93796, [93764]); (93797, [93765]); (93798, [93766]);
    (93799, [93767]); (93800, [93768]); (93801, [93769]); (93802, [93770]); (93803, [93771]); (93804, [93772]);
    (93805, [93773]); (93806, [93774]); (93807, [93775]); (93808, [93776]); (93809, [93777]); (93810, [93778]);
    (93811, [93779]); (93812, [93780]); (93813, [93781]); (93814, [93782]); (93815, [93783]); (93816, [93784]);
    (93817, [93785]); (93818, [93786]); (93819, [93787]); (93820, [93788]); (93821, [93789]); (93822, [93790]);
    (93823, [93791]); (125218, [125184]); (125219, [125185]); (125220, [125186]); (125221, [125187]); (125222, [125188]);
    (125223, [125189]); (125224, [125190]); (125225, [125191]); (125226, [125192]); (125227, [125193]); (125228, [125194]);
    (125229, [125195]); (125230, [125196]); (125231, [125197]); (125232, [125198]); (125233, [125199]); (125234, [125200]);
    (125235, [125201]); (125236, [125202]); (125237, [125203]); (125238, [125204]); (125239, [125205]); (125240, [125206]);
    (125241, [125207]); (125242, [125208]); (125243, [125209]); (125244, [125210]); (125245, [125211]); (125246, [125212]);
    (125247, [125213]); (125248, [125214]); (125249, [125215]); (125250, [125216]); (125251, [125217])
  ]%N.

(** The code points that the final-sigma rule skips (case-ignorable), as
    inclusive ranges. *)
Definition case_ignorable_ranges : list (N * N) :=
  [
    (39, 39); (46, 46); (58, 58); (94, 94); (96, 96); (168, 168); (173, 173); (175, 175);
    (180, 180); (183, 184); (688, 879); (884, 885); (890, 890); (900, 901); (903, 903); (1155, 1161);
    (1369, 1369); (1375, 1375); (1425, 1469); (1471, 1471); (1473, 1474); (1476, 1477); (1479, 1479); (1524, 1524);
    (1536, 1541); (1552, 1562); (1564, 1564); (1600, 1600); (1611, 1631); (1648, 1648); (1750, 1757); (1759, 1768);
    (1770, 1773); (1807, 1807); (1809, 1809); (1840, 1866); (1958, 1968); (2027, 2037); (2042, 2042); (2045, 2045);
    (2070, 2093); (2137, 2139); (2184, 2184); (2192, 2193); (2200, 2207); (2249, 2306); (2362, 2362); (2364, 2364);
    (2369, 2376); (2381, 2381); (2385, 2391); (2402, 2403); (2417, 2417); (2433, 2433); (2492, 2492); (2497, 2500);
    (2509, 2509); (2530, 2531); (2558, 2558); (2561, 2562); (2620, 2620); (2625, 2626); (2631, 2632); (2635, 2637);
    (2641, 2641); (2672, 2673); (2677, 2677); (2689, 2690); (2748, 2748); (2753, 2757); (2759, 2760); (2765, 2765);
    (2786, 2787); (2810, 2815); (2817, 2817); (2876, 2876); (2879, 2879); (2881, 2884); (2893, 2893); (2901, 2902);
    (2914, 2915); (2946, 2946); (3008, 3008); (3021, 3021); (3072, 3072); (3076, 3076); (3132, 3132); (3134, 3136);
    (3142, 3144); (3146, 3149); (3157, 3158); (3170, 3171); (3201, 3201); (3260, 3260); (3263, 3263); (3270, 3270);
    (3276, 3277); (3298, 3299); (3328, 3329); (3387, 3388); (3393, 3396); (3405, 3405); (3426, 3427); (3457, 3457);
    (3530, 3530); (3538, 3540); (3542, 3542); (3633, 3633); (3636, 3642); (3654, 3662); (3761, 3761); (3764, 3772);
    (3782, 3782); (3784, 3789); (3864, 3865); (3893, 3893); (3895, 3895); (3897, 3897); (3953, 3966); (3968, 3972);
    (3974, 3975); (3981, 3991); (3993, 4028); (4038, 4038); (4141, 4144); (4146, 4151); (4153, 4154); (4157, 4158);
    (4184, 4185); (4190, 4192); (4209, 4212); (4226, 4226); (4229, 4230); (4237, 4237); (4253, 4253); (4348, 4348);
    (4957, 4959); (5906, 5908); (5938, 5939); (5970, 5971); (6002, 6003); (6068, 6069); (6071, 6077); (6086, 6086);
    (6089, 6099); (6103, 6103); (6109, 6109); (6155, 6159); (6211, 6211); (6277, 6278); (6313, 6313); (6432, 6434);
    (6439, 6440); (6450, 6450); (6457, 6459); (6679, 6680); (6683, 6683); (6742, 6742); (6744, 6750); (6752, 6752);
    (6754, 6754); (6757, 6764); (6771, 6780); (6783, 6783); (6823, 6823); (6832, 6862); (6912, 6915); (6964, 6964);
    (6966, 6970); (6972, 6972); (6978, 6978); (7019, 7027); (7040, 7041); (7074, 7077); (7080, 7081); (7083, 7085);
    (7142, 7142); (7144, 7145); (7149, 7149); (7151, 7153); (7212, 7219); (7222, 7223); (7288, 7293); (7376, 7378);
    (7380, 7392); (7394, 7400); (7405, 7405); (7412, 7412); (7416, 7417); (7468, 7530); (7544, 7544); (7579, 7679);
    (8125, 8125); (8127, 8129); (8141, 8143); (8157, 8159); (8173, 8175); (8189, 8190); (8203, 8207); (8216, 8217);
    (8228, 8228); (8231, 8231); (8234, 8238); (8288, 8292); (8294, 8303); (8305, 8305); (8319, 8319); (8336, 8348);
    (8400, 8432); (11388, 11389); (11503, 11505); (11631, 11631); (11647, 11647); (11744, 11775); (11823, 11823); (12293, 12293);
    (12330, 12333); (12337, 12341); (12347, 12347); (12441, 12446); (12540, 12542); (40981, 40981); (42232, 42237); (42508, 42508);
    (42607, 42610); (42612, 42621); (42623, 42623); (42652, 42655); (42736, 42737); (42752, 42785); (42864, 42864); (42888, 42890);
    (42994, 42996); (43000, 43001); (43010, 43010); (43014, 43014); (43019, 43019); (43045, 43046); (43052, 43052); (43204, 43205);
    (43232, 43249); (43263, 43263); (43302, 43309); (43335, 43345); (43392, 43394); (43443, 43443); (43446, 43449); (43452, 43453);
    (43471, 43471); (43493, 43494); (43561, 43566); (43569, 43570); (43573, 43574); (43587, 43587); (43596, 43596); (43632, 43632);
    (43644, 43644); (43696, 43696); (43698, 43700); (43703, 43704); (43710, 43711); (43713, 43713); (43741, 43741); (43756, 43757);
    (43763, 43764); (43766, 43766); (43867, 43871); (43881, 43883); (44005, 44005); (44008, 44008); (44013, 44013); (64286, 64286);
    (64434, 64450); (65024, 65039); (65043, 65043); (65056, 65071); (65106, 65106); (65109, 65109); (65279, 65279); (65287, 65287);
    (65294, 65294); (65306, 65306); (65342, 65342); (65344, 65344); (65392, 65392); (65438, 65439); (65507, 65507); (65529, 65531);
    (66045, 66045); (66272, 66272); (66422, 66426); (67456, 67461); (67463, 67504); (67506, 67514); (68097, 68099); (68101, 68102);
    (68108, 68111); (68152, 68154); (68159, 68159); (68325, 68326); (68900, 68903); (69291, 69292); (69446, 69456); (69506, 69509);
    (69633, 69633); (69688, 69702); (69744, 69744); (69747, 69748); (69759, 69761); (69811, 69814); (69817, 69818); (69821, 69821);
    (69826, 69826); (69837, 69837); (69888, 69890); (69927, 69931); (69933, 69940); (70003, 70003); (70016, 70017); (70070, 70078);
    (70089, 70092); (70095, 70095); (70191, 70193); (70196, 70196); (70198, 70199); (70206, 70206); (70367, 70367); (70371, 70378);
    (70400, 70401); (70459, 70460); (70464, 70464); (70502, 70508); (70512, 70516); (70712, 70719); (70722, 70724); (70726, 70726);
    (70750, 70750); (70835, 70840); (70842, 70842); (70847, 70848); (70850, 70851); (71090, 71093); (71100, 71101); (71103, 71104);
    (71132, 71133); (71219, 71226); (71229, 71229); (71231, 71232); (71339, 71339); (71341, 71341); (71344, 71349); (71351, 71351);
    (71453, 71455); (71458, 71461); (71463, 71467); (71727, 71735); (71737, 71738); (71995, 71996); (71998, 71998); (72003, 72003);
    (72148, 72151); (72154, 72155); (72160, 72160); (72193, 72202); (72243, 72248); (72251, 72254); (72263, 72263); (72273, 72278);
    (72281, 72283); (72330, 72342); (72344, 72345); (72752, 72758); (72760, 72765); (72767, 72767); (72850, 72871); (72874, 72880);
    (72882, 72883); (72885, 72886); (73009, 73014); (73018, 73018); (73020, 73021); (73023, 73029); (73031, 73031); (73104, 73105);
    (73109, 73109); (73111, 73111); (73459, 73460); (78896, 78904); (92912, 92916); (92976, 92982); (92992, 92995); (94031, 94031);
    (94095, 94111); (94176, 94177); (94179, 94180); (110576, 110579); (110581, 110587); (110589, 110590); (113821, 113822); (113824, 113827);
    (118528, 118573); (118576, 118598); (119143, 119145); (119155, 119170); (119173, 119179); (119210, 119213); (119362, 119364); (121344, 121398);
    (121403, 121452); (121461, 121461); (121476, 121476); (121499, 121503); (121505, 121519); (122880, 122886); (122888, 122904); (122907, 122913);
    (122915, 122916); (122918, 122922); (123184, 123197); (123566, 123566); (123628, 123631); (125136, 125142); (125252, 125259); (127995, 127999);
    (917505, 917505); (917536, 917631); (917760, 917999)
  ]%N.

(** The code points that the final-sigma rule takes for letters (cased, and not
    case-ignorable), as inclusive ranges. *)
Definition cased_ranges : list (N * N) :=
  [
    (65, 90); (97, 122); (170, 170); (181, 181); (186, 186); (192, 214); (216, 246); (248, 442);
    (444, 447); (452, 659); (661, 687); (880, 883); (886, 887); (891, 893); (895, 895); (902, 902);
    (904, 906); (908, 908); (910, 929); (931, 1013); (1015, 1153); (1162, 1327); (1329, 1366); (1376, 1416);
    (4256, 4293); (4295, 4295); (4301, 4301); (4304, 4346); (4349, 4351); (5024, 5109); (5112, 5117); (7296, 7304);
    (7312, 7354); (7357, 7359); (7424, 7467); (7531, 7543); (7545, 7578); (7680, 7957); (7960, 7965); (7968, 8005);
    (8008, 8013); (8016, 8023); (8025, 8025); (8027, 8027); (8029, 8029); (8031, 8061); (8064, 8116); (8118, 8124);
    (8126, 8126); (8130, 8132); (8134, 8140); (8144, 8147); (8150, 8155); (8160, 8172); (8178, 8180); (8182, 8188);
    (8450, 8450); (8455, 8455); (8458, 8467); (8469, 8469); (8473, 8477); (8484, 8484); (8486, 8486); (8488, 8488);
    (8490, 8493); (8495, 8500); (8505, 8505); (8508, 8511); (8517, 8521); (8526, 8526); (8544, 8575); (8579, 8580);
    (9398, 9449); (11264, 11387); (11390, 11492); (11499, 11502); (11506, 11507); (11520, 11557); (11559, 11559); (11565, 11565);
    (42560, 42605); (42624, 42651); (42786, 42863); (42865, 42887); (42891, 42894); (42896, 42954); (42960, 42961); (42963, 42963);
    (42965, 42969); (42997, 42998); (43002, 43002); (43824, 43866); (43872, 43880); (43888, 43967); (64256, 64262); (64275, 64279);
    (65313, 65338); (65345, 65370); (66560, 66639); (66736, 66771); (66776, 66811); (66928, 66938); (66940, 66954); (66956, 66962);
    (66964, 66965); (66967, 66977); (66979, 66993); (66995, 67001); (67003, 67004); (68736, 68786); (68800, 68850); (71840, 71903);
    (93760, 93823); (119808, 119892); (119894, 119964); (119966, 119967); (119970, 119970); (119973, 119974); (119977, 119980); (119982, 119993);
    (119995, 119995); (119997, 120003); (120005, 120069); (120071, 120074); (120077, 120084); (120086, 120092); (120094, 120121); (120123, 120126);
    (120128, 120132); (120134, 120134); (120138, 120144); (120146, 120485); (120488, 120512); (120514, 120538); (120540, 120570); (120572, 120596);
    (120598, 120628); (120630, 120654); (120656, 120686); (120688, 120712); (120714, 120744); (120746, 120770); (120772, 120779); (122624, 122633);
    (122635, 122654); (125184, 125251); (127280, 127305); (127312, 127337); (127344, 127369)
  ]%N.

Fixpoint lookup (table : list (N * list N)) (c : N) : option (list N) :=
  match table with
  | [] => None
  | (k, v) :: table' => if (k =? c)%N then Some v else lookup table' c
  end.

Fixpoint in_ranges (ranges : list (N * N)) (c : N) : bool :=
  match ranges with
  | [] => false
  | (lo, hi) :: ranges' => orb (andb (lo <=? c)%N (c <=? hi)%N) (in_ranges ranges' c)
  end.

Definition case_ignorable (c : N) : bool := in_ranges case_ignorable_ranges c.

Definition cased (c : N) : bool := in_ranges cased_ranges c.

(** What one code point becomes in [s.lower()], U+03A3 apart. *)
Definition lower_cp (c : N) : list N :=
  if (c <? 128)%N
  then [if andb (65 <=? c)%N (c <=? 90)%N then (c + 32)%N else c]
  else match lookup lower_table c with
       | Some l => l
       | None => [c]
       end.

(** What one code point becomes in [s.upper()]. *)
Definition upper_cp (c : N) : list N :=
  if (c <? 128)%N
  then [if andb (97 <=? c)%N (c <=? 122)%N then (c - 32)%N else c]
  else match lookup upper_table c with
       | Some l => l
       | None => [c]
       end.

(** The first code point of [l] that is not case-ignorable. *)
Fixpoint first_not_ignorable (l : list N) : option N :=
  match l with
  | [] => None
  | c :: l' => if case_ignorable c then first_not_ignorable l' else Some c
  end.

(** The final-sigma rule: U+03A3 becomes the final sigma when, case-ignorable
    code points skipped, a letter stands before it and none after it.
    [before] is in reverse order, nearest first. *)
Definition final_sigma (before after : list N) : bool :=
  match first_not_ignorable before with
  | Some p =>
      andb (cased p)
           match first_not_ignorable after with
           | Some n => negb (cased n)
           | None => true
           end
  | None => false
  end.

Fixpoint lower_cps (before l : list N) : list N :=
  match l with
  | [] => []
  | c :: rest =>
      ((if (c =? 931)%N
        then [if final_sigma before rest then 962%N else 963%N]
        else lower_cp c)
       ++ lower_cps (c :: before) rest)%list
  end.

(** [s.lower()] *)
Definition lower (s : string) : string := encode (lower_cps [] (decode s)).

(** [s.upper()] *)
Definition upper (s : string) : string := encode (flat_map upper_cp (decode s)).

(** [s.startswith(p)] *)
Fixpoint startswith (p s : string) : bool :=
  match p, s with
  | EmptyString, _ => true
  | String _ _, EmptyString => false
  | String a p', String b s' => andb (Ascii.eqb a b) (startswith p' s')
  end.

(** [sub in s]: [sub] occurs in [s] as a contiguous substring. *)
Fixpoint contains (sub s : string) : bool :=
  orb (startswith sub s)
      match s with
      | EmptyString => false
      | String _ s' => contains sub s'
      end.

(** The relation that [sub in s] decides. *)
Definition Substring (sub s : string) : Prop :=
  exists pre post, s = pre ++ sub ++ post.

(** Case-insensitive containment, as both filters test it:
    [f.lower() in k.lower()]. *)
Definition icontains (f k : string) : bool := contains (lower f) (lower k).

(** [s] has ASCII characters only. *)
Fixpoint is_ascii (s : string) : bool :=
  match s with
  | EmptyString => true
  | String c s' => andb (N_of_ascii c <? 128)%N (is_ascii s')
  end.

(** Two characters are the same, or the same ASCII letter in the two
    cases. *)
Definition same_letter (x y : ascii) : bool :=
  let a := nat_of_ascii x in
  let b := nat_of_ascii y in
  orb (Nat.eqb a b)
      (orb (andb (andb (Nat.leb 65 a) (Nat.leb a 90)) (Nat.eqb b (a + 32)))
           (andb (andb (Nat.leb 65 b) (Nat.leb b 90)) (Nat.eqb a (b + 32)))).

(** Two strings are the same but for the case of their ASCII letters. *)
Fixpoint same_ignoring_case (a b : string) : bool :=
  match a, b with
  | EmptyString, EmptyString => true
  | String x a', String y b' => andb (same_letter x y) (same_ignoring_case a' b')
  | _, _ => false
  end.

(** [f] occurs in [k] when the case of ASCII letters is ignored. *)
Definition IContains (f k : string) : Prop :=
  exists pre mid post, k = pre ++ mid ++ post /\ same_ignoring_case f mid = true.

(** No character of [s] is a lower-case ASCII letter. *)
Fixpoint no_lower_case (s : string) : bool :=
  match s with
  | EmptyString => true
  | String c s' =>
      andb (negb (andb (Nat.leb 97 (nat_of_ascii c)) (Nat.leb (nat_of_ascii c) 122)))
           (no_lower_case s')
  end.

(** The ASCII letters of [s] in lower case, byte by byte. *)
Fixpoint ascii_lower (s : string) : string :=
  match s with
  | EmptyString => EmptyString
  | String c s' => String (lower_ascii c) (ascii_lower s')
  end.

(** The ASCII letters of [s] in upper case, byte by byte. *)
Fixpoint ascii_upper (s : string) : string :=
  match s with
  | EmptyString => EmptyString
  | String c s' => String (upper_ascii c) (ascii_upper s')
  end.

End PyStr.

(* ===================================================================== *)
(** ** Python control flow, logging and the routing engine *)

(** The exception classes this module meets.  [WRCError] carries its
    message, which the handler logs. *)
Inductive PyExc : Type :=
| KeyError
| WRCError (msg : string)
| AttributeError
| ValueError
| OverflowError
| OtherError (name : string).

(** Result of calling a function of another module. *)
Inductive Outcome (A : Type) : Type :=
| Value (a : A)
| Raises (e : PyExc).
Arguments Value {A} a.
Arguments Raises {A} e.

(** How a block of statements ends. *)
Inductive Completion (A : Type) : Type :=
| Normal (a : A)
| Return
| Raise (e : PyExc).
Arguments Normal {A} a.
Arguments Return {A}.
Arguments Raise {A} e.

Inductive Level : Type := DEBUG | WARNING | ERROR.

(** The arguments of [WazeRouteCalculator(...)], in positional order. *)
Record WRCParams : Type := {
  start_address : string;
  end_address : string;
  wrc_region : string;
  wrc_vehicle_type : string;
  wrc_avoid_toll_roads : bool;
  wrc_avoid_subscription_roads : bool;
  wrc_avoid_ferries : bool
}.

(** The mapping route name -> (duration in minutes, distance in km), in
    the order the engine returned it.  Keys of a [dict] are distinct. *)
Definition Routes : Type := list (string * (float * float)).

(** The external library, as seen at one refresh: the constructor may
    raise, and so may [calc_all_routes_info]. *)
Record RoutingEngine : Type := {
  WazeRouteCalculator : WRCParams -> Outcome WRCParams;
  calc_all_routes_info : WRCParams -> bool -> Outcome Routes
}.

(** What a refresh does to the outside: logger records and calls of the
    routing engine, oldest first. *)
Inductive Event : Type :=
| Log (lvl : Level) (fmt : string) (args : list string)
| CallWazeRouteCalculator (p : WRCParams)
| CallCalcAllRoutesInfo (p : WRCParams) (real_time : bool).

Definition is_log (ev : Event) : bool :=
  match ev with Log _ _ _ => true | _ => false end.

Definition is_call (ev : Event) : bool :=
  match ev with Log _ _ _ => false | _ => true end.

(** A computation over an object of type [S] and the trace. *)
Definition M (S A : Type) : Type :=
  S -> list Event -> Completion A * S * list Event.

Definition ret {S A : Type} (a : A) : M S A :=
  fun s t => (Normal a, s, t).

Definition bind {S A B : Type} (m : M S A) (k : A -> M S B) : M S B :=
  fun s t =>
    match m s t with
    | (Normal a, s', t') => k a s' t'
    | (Return, s', t') => (Return, s', t')
    | (Raise e, s', t') => (Raise e, s', t')
    end.

Declare Scope py_scope.
Delimit Scope py_scope with py.
Notation "x <- m ;; k" := (bind m (fun x => k))
  (at level 100, m at next level, right associativity) : py_scope.
Notation "m ;; k" := (bind m (fun _ => k))
  (at level 100, right associativity) : py_scope.
Local Open Scope py_scope.

Definition get_self {S : Type} : M S S := fun s t => (Normal s, s, t).
Definition modify {S : Type} (f : S -> S) : M S unit :=
  fun s t => (Normal tt, f s, t).
Definition raise {S A : Type} (e : PyExc) : M S A := fun s t => (Raise e, s, t).
Definition return_ {S A : Type} : M S A := fun s t => (Return, s, t).
Definition emit {S : Type} (ev : Event) : M S unit :=
  fun s t => (Normal tt, s, t ++ [ev])%list.

(** [_LOGGER.<lvl>(fmt, *args)] *)
Definition log {S : Type} (lvl : Level) (fmt : string) (args : list string) : M S unit :=
  emit (Log lvl fmt args).

(** [d[key]] on a mapping whose entry may be missing. *)
Definition getitem {S A : Type} (entry : option A) : M S A :=
  match entry with
  | Some a => ret a
  | None => raise KeyError
  end.

(** Result of a foreign call, as a completion of the calling block. *)
Definition lift_outcome {S A : Type} (o : Outcome A) : M S A :=
  match o with
  | Value a => ret a
  | Raises e => raise e
  end.

(** [try: body except ...: handler]; [handler e = None] when no clause
    matches [e].  What [body] did to the object before raising stays. *)
Definition try_except {S A : Type} (body : M S A) (handler : PyExc -> option (M S A)) : M S A :=
  fun s t =>
    match body s t with
    | (Raise e, s', t') =>
        match handler e with
        | Some h => h s' t'
        | None => (Raise e, s', t')
        end
    | r => r
    end.

(** A method call [obj.m()] from a method of the owner of [obj]: a
    [return] ends the callee only. *)
Definition call_method {S T : Type} (proj : S -> T) (upd : T -> S -> S) (m : M T unit) : M S unit :=
  fun s t =>
    match m (proj s) t with
    | (Normal _, o, t') => (Normal tt, upd o s, t')
    | (Return, o, t') => (Normal tt, upd o s, t')
    | (Raise e, o, t') => (Raise e, upd o s, t')
    end.

(** [dict[key]] on an association list. *)
Fixpoint dict_lookup {V : Type} (d : list (string * V)) (key : string) : option V :=
  match d with
  | [] => None
  | (k, v) :: d' => if String.eqb k key then Some v else dict_lookup d' key
  end.

(** Modelled from the spec: [homeassistant.const.CONF_UNIT_SYSTEM_IMPERIAL],
    the value of the units option that selects miles ("units: imperial or
    other"). *)
Definition CONF_UNIT_SYSTEM_IMPERIAL : string := "imperial".

(** Modelled from the spec: [homeassistant.const.ATTR_ATTRIBUTION], the key
    of the "attribution string" among the published attributes. *)
Definition ATTR_ATTRIBUTION : string := "attribution".

(* ===================================================================== *)
(** ** Configuration *)

(** [config_entry.options].  The two filters are read with [.get], so
    [None] is an absent key or a stored [None]; the other keys are read
    with [options[key]], and [None] is an absent key. *)
Record Options : Type := {
  CONF_INCL_FILTER : option string;
  CONF_EXCL_FILTER : option string;
  CONF_REALTIME : option bool;
  CONF_VEHICLE_TYPE : option string;
  CONF_AVOID_TOLL_ROADS : option bool;
  CONF_AVOID_SUBSCRIPTION_ROADS : option bool;
  CONF_AVOID_FERRIES : option bool;
  CONF_UNITS : option string
}.

Record ConfigEntry : Type := {
  options : Options
}.

(* ===================================================================== *)
(** ** [class WazeTravelTimeData] *)

Module WazeTravelTimeData.

Record t : Type := {
  origin : option string;
  destination : option string;
  region : string;
  config_entry : ConfigEntry;
  duration : option float;
  distance : option float;
  route : option string
}.

(** [__init__(self, origin, destination, region, config_entry)] *)
Definition __init__ (origin_ destination_ : option string) (region_ : string)
    (config_entry_ : ConfigEntry) : t :=
  {| origin := origin_;
     destination := destination_;
     region := region_;
     config_entry := config_entry_;
     duration := None;
     distance := None;
     route := None |}.

Definition set_origin (v : option string) (self : t) : t :=
  {| origin := v; destination := destination self; region := region self;
     config_entry := config_entry self; duration := duration self;
     distance := distance self; route := route self |}.

Definition set_destination (v : option string) (self : t) : t :=
  {| origin := origin self; destination := v; region := region self;
     config_entry := config_entry self; duration := duration self;
     distance := distance self; route := route self |}.

Definition set_config_entry (v : ConfigEntry) (self : t) : t :=
  {| origin := origin self; destination := destination self; region := region self;
     config_entry := v; duration := duration self;
     distance := distance self; route := route self |}.

Definition set_duration (v : float) (self : t) : t :=
  {| origin := origin self; destination := destination self; region := region self;
     config_entry := config_entry self; duration := Some v;
     distance := distance self; route := route self |}.

Definition set_distance (v : float) (self : t) : t :=
  {| origin := origin self; destination := destination self; region := region self;
     config_entry := config_entry self; duration := duration self;
     distance := Some v; route := route self |}.

Definition set_route (v : string) (self : t) : t :=
  {| origin := origin self; destination := destination self; region := region self;
     config_entry := config_entry self; duration := duration self;
     distance := distance self; route := Some v |}.

(** The include comprehension:
    [{k: v for k, v in routes.items() if incl_filter.lower() in k.lower()}],
    skipped when [incl_filter is None]. *)
Definition apply_incl_filter (incl_filter : option string) (routes : Routes) : Routes :=
  match incl_filter with
  | Some f => filter (fun kv => PyStr.icontains f (fst kv)) routes
  | None => routes
  end.

(** The exclude comprehension:
    [{k: v for k, v in routes.items() if excl_filter.lower() not in k.lower()}],
    skipped when [excl_filter is None]. *)
Definition apply_excl_filter (excl_filter : option string) (routes : Routes) : Routes :=
  match excl_filter with
  | Some f => filter (fun kv => negb (PyStr.icontains f (fst kv))) routes
  | None => routes
  end.

(** Lines 239-250: the include filter, then the exclude filter on its
    result. *)
Definition filter_routes (incl_filter excl_filter : option string) (routes : Routes) : Routes :=
  apply_excl_filter excl_filter (apply_incl_filter incl_filter routes).

(** Line 219: the empty string when [vehicle_type.upper() == "CAR"], and
    [vehicle_type.upper()] otherwise. *)
Definition normalize_vehicle_type (vehicle_type : string) : string :=
  if String.eqb (PyStr.upper vehicle_type) "CAR" then EmptyString else PyStr.upper vehicle_type.

(** The [except] clauses of [update]. *)
Definition handlers (e : PyExc) : option (M t unit) :=
  match e with
  | WRCError exp =>
      Some (log WARNING "Error on retrieving data: %s" [exp] ;; return_)
  | KeyError =>
      Some (log ERROR "Error retrieving data from server" [] ;; return_)
  | _ => None
  end.

(** [update(self)] *)
Definition update (engine : RoutingEngine) : M t unit :=
  self <- get_self ;;
  match origin self, destination self with
  | Some origin_, Some destination_ =>
      let opts := options (config_entry self) in
      let incl_filter := CONF_INCL_FILTER opts in
      let excl_filter := CONF_EXCL_FILTER opts in
      realtime <- getitem (CONF_REALTIME opts) ;;
      vehicle_type <- getitem (CONF_VEHICLE_TYPE opts) ;;
      let vehicle_type := normalize_vehicle_type vehicle_type in
      avoid_toll_roads <- getitem (CONF_AVOID_TOLL_ROADS opts) ;;
      avoid_subscription_roads <- getitem (CONF_AVOID_SUBSCRIPTION_ROADS opts) ;;
      avoid_ferries <- getitem (CONF_AVOID_FERRIES opts) ;;
      units <- getitem (CONF_UNITS opts) ;;
      try_except
        (let args :=
           {| start_address := origin_;
              end_address := destination_;
              wrc_region := region self;
              wrc_vehicle_type := vehicle_type;
              wrc_avoid_toll_roads := avoid_toll_roads;
              wrc_avoid_subscription_roads := avoid_subscription_roads;
              wrc_avoid_ferries := avoid_ferries |} in
         emit (CallWazeRouteCalculator args) ;;
         params <- lift_outcome (WazeRouteCalculator engine args) ;;
         emit (CallCalcAllRoutesInfo params realtime) ;;
         routes <- lift_outcome (calc_all_routes_info engine params realtime) ;;
         let routes := apply_incl_filter incl_filter routes in
         let routes := apply_excl_filter excl_filter routes in
         route_ <- match routes with
                   | (k, _) :: _ => ret k
                   | [] => log WARNING "No routes found" [] ;; return_
                   end ;;
         item <- getitem (dict_lookup routes route_) ;;
         let '(duration_, distance_) := item in
         modify (set_duration duration_) ;;
         (if String.eqb units CONF_UNIT_SYSTEM_IMPERIAL
          then modify (set_distance (distance_ / 1.609)%float)
          else modify (set_distance distance_)) ;;
         modify (set_route route_))
        handlers
  | _, _ => ret tt
  end.

(** One call [data.update()] from outside: the object and the trace
    after it, and whether an exception came out. *)
Definition run_update (engine : RoutingEngine) (self : t) : t * list Event * option PyExc :=
  match update engine self [] with
  | (Normal _, self', tr) => (self', tr, None)
  | (Return, self', tr) => (self', tr, None)
  | (Raise e, self', tr) => (self', tr, Some e)
  end.

End WazeTravelTimeData.
(* ===================================================================== *)
(** ** Python numbers: the exact value of a float and [round] *)

Module PyNum.

(** The rational a finite float denotes; [None] for NaN and the
    infinities. *)
Definition float_value (x : float) : option Q :=
  match Prim2SF x with
  | S754_zero _ => Some (0 # 1)
  | S754_finite s m e =>
      let a := if s then Z.neg m else Z.pos m in
      Some (if (0 <=? e)%Z
            then inject_Z (a * 2 ^ e)
            else a # Z.to_pos (2 ^ (- e)))
  | S754_infinity _ => None
  | S754_nan => None
  end.

(** The integer nearest to [num/den] ([den > 0]), a tie going to the
    even one. *)
Definition round_half_even (num den : Z) : Z :=
  let q := (num / den)%Z in
  let r := (num mod den)%Z in
  if (2 * r <? den)%Z then q
  else if (den <? 2 * r)%Z then (q + 1)%Z
  else if Z.even q then q else (q + 1)%Z.

(** [round(x)] with one argument, for a float [x]: an [int], by
    round-half-to-even; [ValueError] on NaN, [OverflowError] on an
    infinity. *)
Definition round (x : float) : Outcome Z :=
  match Prim2SF x with
  | S754_nan => Raises ValueError
  | S754_infinity _ => Raises OverflowError
  | _ =>
      match float_value x with
      | Some q => Value (round_half_even (Qnum q) (Z.pos (Qden q)))
      | None => Raises ValueError
      end
  end.

(** [n] is an integer nearest to [q]. *)
Definition nearest_integer (q : Q) (n : Z) : Prop :=
  Qabs (inject_Z n - q) <= 1 # 2.

End PyNum.

(* ===================================================================== *)
(** ** The host: entity states and coordinate lookup *)

(** [homeassistant.core.State]: only [.state] is read here. *)
Record State : Type := {
  state : string
}.

(** What [update] asks of [self.hass]: [hass.states.get(entity_id)] and
    [find_coordinates(hass, entity_id)], both [None] when they find
    nothing. *)
Record HomeAssistant : Type := {
  states_get : string -> option State;
  find_coordinates : string -> option string
}.

(** A value stored in the attributes dictionary. *)
Inductive PyVal : Type :=
| VNone
| VStr (s : string)
| VFloat (x : float).

Definition of_str (o : option string) : PyVal :=
  match o with Some s => VStr s | None => VNone end.

Definition of_float (o : option float) : PyVal :=
  match o with Some x => VFloat x | None => VNone end.

(* ===================================================================== *)
(** ** [class WazeTravelTime] *)

Module WazeTravelTime.

(** The attributes [__init__] sets, but for [_state], which is set to
    [None] and never read. *)
Record t : Type := {
  _attr_unique_id : string;
  _waze_data : WazeTravelTimeData.t;
  _attr_name : string;
  _attr_icon : string;
  _origin_entity_id : option string;
  _destination_entity_id : option string
}.

Definition set_waze_data (d : WazeTravelTimeData.t) (self : t) : t :=
  {| _attr_unique_id := _attr_unique_id self; _waze_data := d;
     _attr_name := _attr_name self; _attr_icon := _attr_icon self;
     _origin_entity_id := _origin_entity_id self;
     _destination_entity_id := _destination_entity_id self |}.

(** [__init__(self, unique_id, name, origin, destination, waze_data)];
    [fullmatch] is [re.compile(ENTITY_ID_PATTERN).fullmatch], the test for
    an entity reference. *)
Definition __init__ (fullmatch : string -> bool)
    (unique_id name origin destination : string)
    (waze_data : WazeTravelTimeData.t) : t * list Event :=
  let '(origin_entity_id, waze_data, tr) :=
    if fullmatch origin
    then (Some origin, waze_data, [Log DEBUG "Found origin source entity %s" [origin]])
    else (None, WazeTravelTimeData.set_origin (Some origin) waze_data, []) in
  let '(destination_entity_id, waze_data, tr) :=
    if fullmatch destination
    then (Some destination, waze_data,
          (tr ++ [Log DEBUG "Found destination source entity %s" [destination]])%list)
    else (None, WazeTravelTimeData.set_destination (Some destination) waze_data, tr) in
  ({| _attr_unique_id := unique_id;
      _waze_data := waze_data;
      _attr_name := name;
      _attr_icon := "mdi:car";
      _origin_entity_id := origin_entity_id;
      _destination_entity_id := destination_entity_id |}, tr).

(** [native_value] *)
Definition native_value (self : t) : Outcome (option Z) :=
  match WazeTravelTimeData.duration (_waze_data self) with
  | Some d =>
      match PyNum.round d with
      | Value n => Value (Some n)
      | Raises e => Raises e
      end
  | None => Value None
  end.

(** [extra_state_attributes] *)
Definition extra_state_attributes (self : t) : option (list (string * PyVal)) :=
  match WazeTravelTimeData.duration (_waze_data self) with
  | None => None
  | Some _ =>
      Some [ (ATTR_ATTRIBUTION, VStr "Powered by Waze");
             ("duration", of_float (WazeTravelTimeData.duration (_waze_data self)));
             ("distance", of_float (WazeTravelTimeData.distance (_waze_data self)));
             ("route", of_str (WazeTravelTimeData.route (_waze_data self)));
             ("origin", of_str (WazeTravelTimeData.origin (_waze_data self)));
             ("destination", of_str (WazeTravelTimeData.destination (_waze_data self))) ]
  end.

(** [hass.states.get(entity_id).state]: the attribute access fails on
    [None]. *)
Definition get_state {S : Type} (hass : HomeAssistant) (entity_id : string) : M S string :=
  match states_get hass entity_id with
  | Some st => ret (state st)
  | None => raise AttributeError
  end.

Definition assign_origin (v : option string) : M t unit :=
  modify (fun self => set_waze_data (WazeTravelTimeData.set_origin v (_waze_data self)) self).

Definition assign_destination (v : option string) : M t unit :=
  modify (fun self => set_waze_data (WazeTravelTimeData.set_destination v (_waze_data self)) self).

(** [update(self)] *)
Definition update (hass : HomeAssistant) (engine : RoutingEngine) : M t unit :=
  self <- get_self ;;
  log DEBUG "Fetching Route for %s" [_attr_name self] ;;
  match _origin_entity_id self with
  | Some entity_id =>
      match find_coordinates hass entity_id with
      | Some _ => assign_origin (find_coordinates hass entity_id)
      | None => s <- get_state hass entity_id ;; assign_origin (Some s)
      end
  | None => ret tt
  end ;;
  match _destination_entity_id self with
  | Some entity_id =>
      match find_coordinates hass entity_id with
      | Some _ => assign_destination (find_coordinates hass entity_id)
      | None => s <- get_state hass entity_id ;; assign_destination (Some s)
      end
  | None => ret tt
  end ;;
  call_method _waze_data set_waze_data (WazeTravelTimeData.update engine).

Definition run_update (hass : HomeAssistant) (engine : RoutingEngine) (self : t)
    : t * list Event * option PyExc :=
  match update hass engine self [] with
  | (Normal _, self', tr) => (self', tr, None)
  | (Return, self', tr) => (self', tr, None)
  | (Raise e, self', tr) => (self', tr, Some e)
  end.

End WazeTravelTime.

(* ===================================================================== *)
(** ** Scenarios *)

Module Scenario.

(** [{"Route A": (10.0, 12.0), "Route B": (8.0, 9.0)}] *)
Definition routes : Routes :=
  [ ("Route A", (10.0%float, 12.0%float)); ("Route B", (8.0%float, 9.0%float)) ].

(** An engine that answers every request with [routes]. *)
Definition engine : RoutingEngine :=
  {| WazeRouteCalculator := fun p => Value p;
     calc_all_routes_info := fun _ _ => Value routes |}.

Definition opts (incl excl : option string) (units : string) : Options :=
  {| CONF_INCL_FILTER := incl;
     CONF_EXCL_FILTER := excl;
     CONF_REALTIME := Some true;
     CONF_VEHICLE_TYPE := Some "car";
     CONF_AVOID_TOLL_ROADS := Some false;
     CONF_AVOID_SUBSCRIPTION_ROADS := Some false;
     CONF_AVOID_FERRIES := Some false;
     CONF_UNITS := Some units |}.

(** A refresher that has not refreshed yet. *)
Definition fresh (incl excl : option string) (units : string) : WazeTravelTimeData.t :=
  WazeTravelTimeData.__init__ (Some "52.37,4.89") (Some "51.92,4.48") "EU"
    {| options := opts incl excl units |}.

Definition args : WRCParams :=
  {| start_address := "52.37,4.89";
     end_address := "51.92,4.48";
     wrc_region := "EU";
     wrc_vehicle_type := EmptyString;
     wrc_avoid_toll_roads := false;
     wrc_avoid_subscription_roads := false;
     wrc_avoid_ferries := false |}.

Definition calls : list Event :=
  [ CallWazeRouteCalculator args; CallCalcAllRoutesInfo args true ].

(** An engine whose request fails with the library's own error. *)
Definition failing_engine : RoutingEngine :=
  {| WazeRouteCalculator := fun p => Value p;
     calc_all_routes_info := fun _ _ => Raises (WRCError "empty response") |}.

(** An engine whose answer lacks an expected key. *)
Definition malformed_engine : RoutingEngine :=
  {| WazeRouteCalculator := fun p => Value p;
     calc_all_routes_info := fun _ _ => Raises KeyError |}.


End Scenario.

(* ===================================================================== *)
(** ** Vocabulary of the properties *)

(** What [WazeTravelTimeData.update] sends to the routing engine, and the
    units it read (lines 213-225); [None] when it does not get that far. *)
Record Request : Type := {
  req_args : WRCParams;
  req_real_time : bool;
  req_units : string
}.

Definition request (self : WazeTravelTimeData.t) : option Request :=
  let opts := options (WazeTravelTimeData.config_entry self) in
  match WazeTravelTimeData.origin self, WazeTravelTimeData.destination self,
        CONF_REALTIME opts, CONF_VEHICLE_TYPE opts, CONF_AVOID_TOLL_ROADS opts,
        CONF_AVOID_SUBSCRIPTION_ROADS opts, CONF_AVOID_FERRIES opts, CONF_UNITS opts with
  | Some o, Some d, Some rt, Some vt, Some toll, Some sub, Some fer, Some u =>
      Some {| req_args :=
                {| start_address := o;
                   end_address := d;
                   wrc_region := WazeTravelTimeData.region self;
                   wrc_vehicle_type := WazeTravelTimeData.normalize_vehicle_type vt;
                   wrc_avoid_toll_roads := toll;
                   wrc_avoid_subscription_roads := sub;
                   wrc_avoid_ferries := fer |};
              req_real_time := rt;
              req_units := u |}
  | _, _, _, _, _, _, _, _ => None
  end.

(** The routing call of lines 228-237: the calls made and what came
    back. *)
Definition routing_call (engine : RoutingEngine) (r : Request) : list Event * Outcome Routes :=
  match WazeRouteCalculator engine (req_args r) with
  | Raises e => ([CallWazeRouteCalculator (req_args r)], Raises e)
  | Value p =>
      ([CallWazeRouteCalculator (req_args r); CallCalcAllRoutesInfo p (req_real_time r)],
       calc_all_routes_info engine p (req_real_time r))
  end.

Definition incl_filter_of (self : WazeTravelTimeData.t) : option string :=
  CONF_INCL_FILTER (options (WazeTravelTimeData.config_entry self)).

Definition excl_filter_of (self : WazeTravelTimeData.t) : option string :=
  CONF_EXCL_FILTER (options (WazeTravelTimeData.config_entry self)).

(** The candidates left after both filters of [self]. *)
Definition candidates (self : WazeTravelTimeData.t) (routes : Routes) : Routes :=
  WazeTravelTimeData.filter_routes (incl_filter_of self) (excl_filter_of self) routes.

(** The distance stored for [distance_km] under [units]. *)
Definition stored_distance (units : string) (distance_km : float) : float :=
  if String.eqb units CONF_UNIT_SYSTEM_IMPERIAL
  then (distance_km / 1.609)%float
  else distance_km.

(** The object after the three assignments of lines 256-263. *)
Definition commit (route_ : string) (duration_ distance_ : float)
    (self : WazeTravelTimeData.t) : WazeTravelTimeData.t :=
  WazeTravelTimeData.set_route route_
    (WazeTravelTimeData.set_distance distance_
       (WazeTravelTimeData.set_duration duration_ self)).

(** The outcome of a refresh once the engine has answered [out]. *)
Definition finish (self : WazeTravelTimeData.t) (units : string)
    (calls : list Event) (out : Outcome Routes)
    : WazeTravelTimeData.t * list Event * option PyExc :=
  match out with
  | Raises (WRCError m) =>
      (self, (calls ++ [Log WARNING "Error on retrieving data: %s" [m]])%list, None)
  | Raises KeyError =>
      (self, (calls ++ [Log ERROR "Error retrieving data from server" []])%list, None)
  | Raises e => (self, calls, Some e)
  | Value rs =>
      match candidates self rs with
      | [] => (self, (calls ++ [Log WARNING "No routes found" []])%list, None)
      | (k, (dur, dist)) :: _ => (commit k dur (stored_distance units dist) self, calls, None)
      end
  end.

(** What [Scenario.fresh incl excl units] asks of the engine. *)
Definition scenario_request (units : string) : Request :=
  {| req_args := Scenario.args; req_real_time := true; req_units := units |}.

(** Both filters at once: an entry is kept when the include filter, if
    any, occurs in its name and the exclude filter, if any, does not. *)
Definition keeps (incl excl : option string) (kv : string * (float * float)) : bool :=
  andb (match incl with Some f => PyStr.icontains f (fst kv) | None => true end)
       (match excl with Some f => negb (PyStr.icontains f (fst kv)) | None => true end).

(** The three published fields agree. *)
Definition same_reading (a b : WazeTravelTimeData.t) : Prop :=
  WazeTravelTimeData.duration a = WazeTravelTimeData.duration b /\
  WazeTravelTimeData.distance a = WazeTravelTimeData.distance b /\
  WazeTravelTimeData.route a = WazeTravelTimeData.route b.

(** Either no field is set, or all three are. *)
Definition all_or_nothing (self : WazeTravelTimeData.t) : Prop :=
  (WazeTravelTimeData.duration self = None /\
   WazeTravelTimeData.distance self = None /\
   WazeTravelTimeData.route self = None) \/
  (WazeTravelTimeData.duration self <> None /\
   WazeTravelTimeData.distance self <> None /\
   WazeTravelTimeData.route self <> None).

(** The object after one [update()] from outside. *)
Definition after_update (engine : RoutingEngine) (self : WazeTravelTimeData.t) : WazeTravelTimeData.t :=
  fst (fst (WazeTravelTimeData.run_update engine self)).

(** The object after one [update()] per engine of the list. *)
Definition after_updates (engines : list RoutingEngine) (self : WazeTravelTimeData.t) : WazeTravelTimeData.t :=
  fold_left (fun s e => after_update e s) engines self.

(** The states of a refresher between calls: it is created with no
    reading; the sensor assigns the endpoints; the options may be edited;
    [update()] runs against whatever the engine answers then. *)
Inductive reachable : WazeTravelTimeData.t -> Prop :=
| reach_init o d r c :
    reachable (WazeTravelTimeData.__init__ o d r c)
| reach_origin v self :
    reachable self -> reachable (WazeTravelTimeData.set_origin v self)
| reach_destination v self :
    reachable self -> reachable (WazeTravelTimeData.set_destination v self)
| reach_config c self :
    reachable self -> reachable (WazeTravelTimeData.set_config_entry c self)
| reach_update engine self :
    reachable self -> reachable (after_update engine self).

(** A refresh that committed, as seen from outside: the routing engine
    was called, nothing was logged, and no exception came out. *)
Definition committed (r : WazeTravelTimeData.t * list Event * option PyExc) : Prop :=
  existsb is_call (snd (fst r)) = true /\
  existsb is_log (snd (fst r)) = false /\
  snd r = None.

(** A refresh that did nothing at all. *)
Definition silent_noop (self : WazeTravelTimeData.t)
    (r : WazeTravelTimeData.t * list Event * option PyExc) : Prop :=
  r = (self, [], None).

(** An endpoint of the sensor refers to an entity that has no state. *)
Definition entity_without_state (hass : HomeAssistant) (self : WazeTravelTime.t) : Prop :=
  (exists id, WazeTravelTime._origin_entity_id self = Some id /\ states_get hass id = None) \/
  (exists id, WazeTravelTime._destination_entity_id self = Some id /\ states_get hass id = None).

(** The reading of claim C7 that covers an entity without state: the
    sensor's refresh makes no routing call, keeps the reading and raises
    nothing. *)
Definition noop_on_missing_entity : Prop :=
  forall hass engine self,
    entity_without_state hass self ->
    let r := WazeTravelTime.run_update hass engine self in
    existsb is_call (snd (fst r)) = false /\
    same_reading (WazeTravelTime._waze_data (fst (fst r))) (WazeTravelTime._waze_data self) /\
    snd r = None.

(** A host in which nothing has a state and no coordinates are found. *)
Definition empty_hass : HomeAssistant :=
  {| states_get := fun _ => None;
     find_coordinates := fun _ => None |}.

(** A sensor from a phone tracker to a literal destination. *)
Definition tracker_sensor : WazeTravelTime.t :=
  fst (WazeTravelTime.__init__
         (fun s => String.eqb s "device_tracker.phone")
         "entry-1" "Waze Travel Time" "device_tracker.phone" "51.92,4.48"
         (WazeTravelTimeData.__init__ None None "EU"
            {| options := Scenario.opts None None "metric" |})).

(* ===================================================================== *)
(** ** [async_setup_entry]: the move of the options *)

Module Setup.

(** The keys of the entry's [data] and [options] that the module names. *)
Inductive Key : Type :=
| CONF_INCL_FILTER
| CONF_EXCL_FILTER
| CONF_REALTIME
| CONF_VEHICLE_TYPE
| CONF_AVOID_TOLL_ROADS
| CONF_AVOID_SUBSCRIPTION_ROADS
| CONF_AVOID_FERRIES
| CONF_UNITS
| CONF_DESTINATION
| CONF_ORIGIN
| CONF_REGION
| CONF_NAME.

Definition key_index (k : Key) : nat :=
  match k with
  | CONF_INCL_FILTER => 0
  | CONF_EXCL_FILTER => 1
  | CONF_REALTIME => 2
  | CONF_VEHICLE_TYPE => 3
  | CONF_AVOID_TOLL_ROADS => 4
  | CONF_AVOID_SUBSCRIPTION_ROADS => 5
  | CONF_AVOID_FERRIES => 6
  | CONF_UNITS => 7
  | CONF_DESTINATION => 8
  | CONF_ORIGIN => 9
  | CONF_REGION => 10
  | CONF_NAME => 11
  end.

(** [k1 == k2] on keys. *)
Definition key_eqb (k1 k2 : Key) : bool := Nat.eqb (key_index k1) (key_index k2).

(** A stored value: a string or a flag. *)
Inductive Val : Type :=
| Str (s : string)
| Bool (b : bool).

(** A [dict] from keys to values, in insertion order, keys distinct. *)
Definition dict : Type := list (Key * Val).

(** [d.get(key)] *)
Fixpoint dict_get (d : dict) (key : Key) : option Val :=
  match d with
  | [] => None
  | (k, v) :: d' => if key_eqb k key then Some v else dict_get d' key
  end.

(** [key in d] *)
Definition dict_mem (d : dict) (key : Key) : bool :=
  match dict_get d key with
  | Some _ => true
  | None => false
  end.

(** [d] after [d.pop(key)] *)
Fixpoint dict_remove (d : dict) (key : Key) : dict :=
  match d with
  | [] => []
  | (k, v) :: d' => if key_eqb k key then dict_remove d' key else (k, v) :: dict_remove d' key
  end.

(** [d] after [d[key] = v]: the entry is replaced in place, or added at
    the end. *)
Fixpoint dict_set (d : dict) (key : Key) (v : Val) : dict :=
  match d with
  | [] => [(key, v)]
  | (k, w) :: d' => if key_eqb k key then (k, v) :: d' else (k, w) :: dict_set d' key v
  end.

(** The constants [DEFAULT_...] of [.const] and [hass.config.units.name],
    which the source only names. *)
Record Defaults : Type := {
  DEFAULT_REALTIME : bool;
  DEFAULT_VEHICLE_TYPE : string;
  DEFAULT_AVOID_FERRIES : bool;
  DEFAULT_AVOID_SUBSCRIPTION_ROADS : bool;
  DEFAULT_AVOID_TOLL_ROADS : bool;
  DEFAULT_NAME : string;
  units_name : string
}.

(** Lines 58-65: the [defaults] dictionary. *)
Definition defaults (c : Defaults) : dict :=
  [ (CONF_REALTIME, Bool (DEFAULT_REALTIME c));
    (CONF_VEHICLE_TYPE, Str (DEFAULT_VEHICLE_TYPE c));
    (CONF_UNITS, Str (units_name c));
    (CONF_AVOID_FERRIES, Bool (DEFAULT_AVOID_FERRIES c));
    (CONF_AVOID_SUBSCRIPTION_ROADS, Bool (DEFAULT_AVOID_SUBSCRIPTION_ROADS c));
    (CONF_AVOID_TOLL_ROADS, Bool (DEFAULT_AVOID_TOLL_ROADS c)) ].

(** Lines 70-79: the keys the loop visits, in its order. *)
Definition option_keys : list Key :=
  [ CONF_INCL_FILTER;
    CONF_EXCL_FILTER;
    CONF_REALTIME;
    CONF_VEHICLE_TYPE;
    CONF_AVOID_TOLL_ROADS;
    CONF_AVOID_SUBSCRIPTION_ROADS;
    CONF_AVOID_FERRIES;
    CONF_UNITS ].

(** Lines 80-83: one turn of the loop on [(new_data, options)]. *)
Definition move_key (defaults_ : dict) (st : dict * dict) (key : Key) : dict * dict :=
  let '(new_data, options_) := st in
  match dict_get new_data key with
  | Some v =>
      (* key in new_data: options[key] = new_data.pop(key) *)
      (dict_remove new_data key, dict_set options_ key v)
  | None =>
      match dict_get defaults_ key with
      | Some v =>
          (* key in defaults: options[key] = defaults[key] *)
          (new_data, dict_set options_ key v)
      | None => (new_data, options_)
      end
  end.

(** Lines 68-83: [new_data] and [options] after the loop. *)
Definition move_options (defaults_ data_ : dict) : dict * dict :=
  fold_left (move_key defaults_) option_keys (data_, []).

(** The configuration entry as [async_setup_entry] reads it. *)
Record ConfigEntry : Type := {
  entry_id : string;
  data : dict;
  options : dict
}.

(** Lines 67-86: the [data] and [options] handed to
    [hass.config_entries.async_update_entry], or [None] when the entry
    has options and the call is not made. *)
Definition updated_entry (c : Defaults) (config_entry : ConfigEntry) : option (dict * dict) :=
  match options config_entry with
  | [] => Some (move_options (defaults c) (data config_entry))
  | _ :: _ => None
  end.

(** Lines 87-90: destination, origin, region and name as read from the
    entry's data; a missing key among the first three raises. *)
Definition read_data (c : Defaults) (data_ : dict) : Outcome (Val * Val * Val * Val) :=
  match dict_get data_ CONF_DESTINATION with
  | None => Raises KeyError
  | Some destination =>
      match dict_get data_ CONF_ORIGIN with
      | None => Raises KeyError
      | Some origin =>
          match dict_get data_ CONF_REGION with
          | None => Raises KeyError
          | Some region =>
              Value (destination, origin, region,
                     match dict_get data_ CONF_NAME with
                     | Some name => name
                     | None => Str (DEFAULT_NAME c)
                     end)
          end
      end
  end.

(** Defaults and an entry's data as the configuration flow of the
    integration writes them. *)
Definition example_defaults : Defaults :=
  {| DEFAULT_REALTIME := true;
     DEFAULT_VEHICLE_TYPE := "car";
     DEFAULT_AVOID_FERRIES := false;
     DEFAULT_AVOID_SUBSCRIPTION_ROADS := false;
     DEFAULT_AVOID_TOLL_ROADS := false;
     DEFAULT_NAME := "Waze Travel Time";
     units_name := "metric" |}.

Definition example_data : dict :=
  [ (CONF_ORIGIN, Str "device_tracker.phone");
    (CONF_DESTINATION, Str "51.92,4.48");
    (CONF_REGION, Str "EU");
    (CONF_INCL_FILTER, Str "A4");
    (CONF_VEHICLE_TYPE, Str "motorcycle");
    (CONF_AVOID_TOLL_ROADS, Bool true) ].

End Setup.

(* ===================================================================== *)
(** ** A route with a Greek name *)

(** The letter capital sigma, U+03A3. *)
Definition sigma : string := PyStr.encode [931%N].

(** The word omicron, delta, omicron, sigma in capitals. *)
Definition odos : string := PyStr.encode [927%N; 916%N; 927%N; 931%N].

(** An engine that answers with the one route of that name. *)
Definition greek_engine : RoutingEngine :=
  {| WazeRouteCalculator := fun p => Value p;
     calc_all_routes_info := fun _ _ => Value [(odos, (10.0%float, 12.0%float))] |}.

(* ===================================================================== *)
(** ** Vocabulary of the further properties *)

(** The endpoint the sensor's [update] assigns before it calls the
    refresher (lines 176-194): a literal endpoint stays as it is; for an
    entity reference the coordinates win, the raw state is the fallback,
    and without either the attribute access raises. *)
Definition resolve_endpoint (hass : HomeAssistant) (entity_id current : option string)
    : Outcome (option string) :=
  match entity_id with
  | None => Value current
  | Some id =>
      match find_coordinates hass id with
      | Some c => Value (Some c)
      | None =>
          match states_get hass id with
          | Some st => Value (Some (state st))
          | None => Raises AttributeError
          end
      end
  end.

(** The record [_LOGGER.debug] writes at the start of the sensor's
    [update]. *)
Definition fetching (self : WazeTravelTime.t) : Event :=
  Log DEBUG "Fetching Route for %s" [WazeTravelTime._attr_name self].

(** The refresher of [self] with both endpoints assigned. *)
Definition with_endpoints (o d : option string) (self : WazeTravelTime.t) : WazeTravelTimeData.t :=
  WazeTravelTimeData.set_destination d
    (WazeTravelTimeData.set_origin o (WazeTravelTime._waze_data self)).

(** Each endpoint of the sensor is an entity reference or is already
    stored in the refresher. *)
Definition endpoints_known (self : WazeTravelTime.t) : Prop :=
  (WazeTravelTime._origin_entity_id self <> None \/
   WazeTravelTimeData.origin (WazeTravelTime._waze_data self) <> None) /\
  (WazeTravelTime._destination_entity_id self <> None \/
   WazeTravelTimeData.destination (WazeTravelTime._waze_data self) <> None).

(** The sensor's own attributes, which only [__init__] writes. *)
Definition same_identity (a b : WazeTravelTime.t) : Prop :=
  WazeTravelTime._attr_unique_id a = WazeTravelTime._attr_unique_id b /\
  WazeTravelTime._attr_name a = WazeTravelTime._attr_name b /\
  WazeTravelTime._attr_icon a = WazeTravelTime._attr_icon b /\
  WazeTravelTime._origin_entity_id a = WazeTravelTime._origin_entity_id b /\
  WazeTravelTime._destination_entity_id a = WazeTravelTime._destination_entity_id b.

(** The attributes of the refresher that [update] only reads. *)
Definition same_inputs (a b : WazeTravelTimeData.t) : Prop :=
  WazeTravelTimeData.origin a = WazeTravelTimeData.origin b /\
  WazeTravelTimeData.destination a = WazeTravelTimeData.destination b /\
  WazeTravelTimeData.region a = WazeTravelTimeData.region b /\
  WazeTravelTimeData.config_entry a = WazeTravelTimeData.config_entry b.

(** A host in which the phone tracker has coordinates and the office
    sensor only a state. *)
Definition tracking_hass : HomeAssistant :=
  {| states_get := fun id =>
       if String.eqb id "sensor.office" then Some {| state := "Stationsplein 1" |}
       else if String.eqb id "device_tracker.phone" then Some {| state := "home" |}
       else None;
     find_coordinates := fun id =>
       if String.eqb id "device_tracker.phone" then Some "52.37,4.89" else None |}.

(** A sensor whose two endpoints are entity references. *)
Definition entity_sensor : WazeTravelTime.t :=
  fst (WazeTravelTime.__init__
         (fun s => orb (String.eqb s "device_tracker.phone") (String.eqb s "sensor.office"))
         "entry-2" "Commute" "device_tracker.phone" "sensor.office"
         (WazeTravelTimeData.__init__ None None "EU"
            {| options := Scenario.opts None None "metric" |})).

(** An engine whose transport fails with an exception of another
    library. *)
Definition broken_engine : RoutingEngine :=
  {| WazeRouteCalculator := fun p => Value p;
     calc_all_routes_info := fun _ _ => Raises (OtherError "ConnectionError") |}.

(** An engine whose constructor already fails. *)
Definition unreachable_engine : RoutingEngine :=
  {| WazeRouteCalculator := fun _ => Raises (WRCError "cannot get coords");
     calc_all_routes_info := fun _ _ => Value Scenario.routes |}.

(* ===================================================================== *)
(** ** Facts about strings *)

Lemma startswith_spec (p s : string) :
  PyStr.startswith p s = true <-> exists post, s = p ++ post.
Proof.
  revert s; induction p as [|a p IH]; intros s; simpl.
  - split; [intros _; now exists s | reflexivity].
  - destruct s as [|b s].
    + split; [discriminate | intros [post H]; discriminate].
    + rewrite andb_true_iff, Ascii.eqb_eq, IH. split.
      * intros [-> [post ->]]. now exists post.
      * intros [post H]. injection H as -> ->. split; [reflexivity | now exists post].
Qed.

Lemma contains_spec (sub s : string) :
  PyStr.contains sub s = true <-> PyStr.Substring sub s.
Proof.
  unfold PyStr.Substring.
  induction s as [|b s IH]; simpl; rewrite orb_true_iff, startswith_spec.
  - split.
    + intros [[post H] | H]; [| discriminate]. now exists EmptyString, post.
    + intros [pre [post H]]. left. destruct pre; simpl in H.
      * now exists post.
      * discriminate.
  - rewrite IH. split.
    + intros [[post H] | [pre [post H]]].
      * now exists EmptyString, post.
      * exists (String b pre), post. simpl. now rewrite H.
    + intros [pre [post H]]. destruct pre as [|c pre]; simpl in H.
      * left. now exists post.
      * right. injection H as _ ->. now exists pre, post.
Qed.

Lemma contains_empty (s : string) : PyStr.contains EmptyString s = true.
Proof. destruct s; reflexivity. Qed.

Lemma icontains_empty (k : string) : PyStr.icontains EmptyString k = true.
Proof. unfold PyStr.icontains. simpl. apply contains_empty. Qed.

(* ===================================================================== *)
(** ** Strings of ASCII characters *)

(** On an ASCII character [lower] does what [lower_ascii] does, whatever
    stands before it. *)
Lemma lower_step (b : ascii) (s : string) (before : list N) :
  (N_of_ascii b <? 128)%N = true ->
  PyStr.encode (PyStr.lower_cps before (PyStr.decode (String b s))) =
  String (PyStr.lower_ascii b)
    (PyStr.encode (PyStr.lower_cps (N_of_ascii b :: before) (PyStr.decode s))).
Proof.
  destruct b as [[] [] [] [] [] [] [] []]; intros H;
    try (vm_compute in H; discriminate H); reflexivity.
Qed.

Lemma upper_step (b : ascii) (s : string) :
  (N_of_ascii b <? 128)%N = true ->
  PyStr.encode (flat_map PyStr.upper_cp (PyStr.decode (String b s))) =
  String (PyStr.upper_ascii b) (PyStr.encode (flat_map PyStr.upper_cp (PyStr.decode s))).
Proof.
  destruct b as [[] [] [] [] [] [] [] []]; intros H;
    try (vm_compute in H; discriminate H); reflexivity.
Qed.

(** On an ASCII string [str.lower] is the byte-wise map of ['A'..'Z'] to
    ['a'..'z']. *)
Lemma lower_ascii_string (s : string) :
  PyStr.is_ascii s = true -> PyStr.lower s = PyStr.ascii_lower s.
Proof.
  unfold PyStr.lower. generalize (@nil N).
  induction s as [|b s IH]; intros before H; [reflexivity|].
  simpl in H. apply andb_true_iff in H as [Hb Hs].
  rewrite (lower_step b s before Hb). simpl. now rewrite (IH _ Hs).
Qed.

Lemma upper_ascii_string (s : string) :
  PyStr.is_ascii s = true -> PyStr.upper s = PyStr.ascii_upper s.
Proof.
  unfold PyStr.upper.
  induction s as [|b s IH]; intros H; [reflexivity|].
  simpl in H. apply andb_true_iff in H as [Hb Hs].
  rewrite (upper_step b s Hb). simpl. now rewrite (IH Hs).
Qed.

Lemma nat_of_ascii_inj (x y : ascii) : nat_of_ascii x = nat_of_ascii y -> x = y.
Proof.
  intros H. rewrite <- (ascii_nat_embedding x), <- (ascii_nat_embedding y). now rewrite H.
Qed.

Lemma nat_of_lower_ascii (x : ascii) :
  nat_of_ascii (PyStr.lower_ascii x) =
  if andb (Nat.leb 65 (nat_of_ascii x)) (Nat.leb (nat_of_ascii x) 90)
  then (nat_of_ascii x + 32)%nat else nat_of_ascii x.
Proof.
  unfold PyStr.lower_ascii.
  destruct (Nat.leb_spec 65 (nat_of_ascii x)), (Nat.leb_spec (nat_of_ascii x) 90); simpl;
    try reflexivity.
  apply nat_ascii_embedding. lia.
Qed.

Lemma nat_of_upper_ascii (x : ascii) :
  nat_of_ascii (PyStr.upper_ascii x) =
  if andb (Nat.leb 97 (nat_of_ascii x)) (Nat.leb (nat_of_ascii x) 122)
  then (nat_of_ascii x - 32)%nat else nat_of_ascii x.
Proof.
  unfold PyStr.upper_ascii.
  destruct (Nat.leb_spec 97 (nat_of_ascii x)), (Nat.leb_spec (nat_of_ascii x) 122); simpl;
    try reflexivity.
  apply nat_ascii_embedding. lia.
Qed.

(** Two characters have the same lower case exactly when they are the
    same letter. *)
Lemma lower_ascii_same_letter (x y : ascii) :
  PyStr.lower_ascii x = PyStr.lower_ascii y <-> PyStr.same_letter x y = true.
Proof.
  unfold PyStr.same_letter. split.
  - intros H. apply (f_equal nat_of_ascii) in H. rewrite !nat_of_lower_ascii in H.
    destruct (andb (Nat.leb 65 (nat_of_ascii x)) (Nat.leb (nat_of_ascii x) 90)) eqn:Ex;
      destruct (andb (Nat.leb 65 (nat_of_ascii y)) (Nat.leb (nat_of_ascii y) 90)) eqn:Ey;
      lia.
  - intros H. apply nat_of_ascii_inj. rewrite !nat_of_lower_ascii.
    destruct (andb (Nat.leb 65 (nat_of_ascii x)) (Nat.leb (nat_of_ascii x) 90)) eqn:Ex;
      destruct (andb (Nat.leb 65 (nat_of_ascii y)) (Nat.leb (nat_of_ascii y) 90)) eqn:Ey;
      lia.
Qed.

(** The same holds of the upper case. *)
Lemma upper_ascii_same_letter (x y : ascii) :
  PyStr.upper_ascii x = PyStr.upper_ascii y <-> PyStr.same_letter x y = true.
Proof.
  unfold PyStr.same_letter. split.
  - intros H. apply (f_equal nat_of_ascii) in H. rewrite !nat_of_upper_ascii in H.
    destruct (andb (Nat.leb 97 (nat_of_ascii x)) (Nat.leb (nat_of_ascii x) 122)) eqn:Ex;
      destruct (andb (Nat.leb 97 (nat_of_ascii y)) (Nat.leb (nat_of_ascii y) 122)) eqn:Ey;
      lia.
  - intros H. apply nat_of_ascii_inj. rewrite !nat_of_upper_ascii.
    destruct (andb (Nat.leb 97 (nat_of_ascii x)) (Nat.leb (nat_of_ascii x) 122)) eqn:Ex;
      destruct (andb (Nat.leb 97 (nat_of_ascii y)) (Nat.leb (nat_of_ascii y) 122)) eqn:Ey;
      lia.
Qed.

Lemma ascii_lower_same (a b : string) :
  PyStr.ascii_lower a = PyStr.ascii_lower b <-> PyStr.same_ignoring_case a b = true.
Proof.
  revert b. induction a as [|x a IH]; intros [|y b]; simpl;
    try (split; [discriminate | discriminate]).
  - split; reflexivity.
  - rewrite andb_true_iff, <- IH, <- lower_ascii_same_letter. split.
    + intros H. injection H as Hc Hs. now split.
    + intros [-> ->]. reflexivity.
Qed.

Lemma ascii_lower_app (a b : string) :
  PyStr.ascii_lower (a ++ b) = PyStr.ascii_lower a ++ PyStr.ascii_lower b.
Proof. induction a as [|x a IH]; simpl; [reflexivity | now rewrite IH]. Qed.

Lemma ascii_lower_split (k p q : string) :
  PyStr.ascii_lower k = p ++ q ->
  exists k1 k2, k = k1 ++ k2 /\ PyStr.ascii_lower k1 = p /\ PyStr.ascii_lower k2 = q.
Proof.
  revert k. induction p as [|c p IH]; intros k H; simpl in H.
  - exists EmptyString, k. auto.
  - destruct k as [|x k]; [discriminate|]. simpl in H. injection H as Hc Hk.
    destruct (IH k Hk) as (k1 & k2 & -> & H1 & H2).
    exists (String x k1), k2. simpl. now rewrite Hc, H1.
Qed.

(** Among ASCII strings, the test of the filters is containment with the
    case of the letters ignored. *)
Lemma icontains_ascii (f k : string) :
  PyStr.is_ascii f = true -> PyStr.is_ascii k = true ->
  PyStr.icontains f k = true <-> PyStr.IContains f k.
Proof.
  intros Hf Hk. unfold PyStr.icontains, PyStr.IContains.
  rewrite (lower_ascii_string f Hf), (lower_ascii_string k Hk), contains_spec.
  unfold PyStr.Substring. split.
  - intros (p & q & H). apply ascii_lower_split in H as (pre & rest & -> & Hp & H).
    apply ascii_lower_split in H as (mid & post & -> & Hm & Hq).
    exists pre, mid, post. split; [reflexivity|]. apply ascii_lower_same. now symmetry.
  - intros (pre & mid & post & -> & H). apply ascii_lower_same in H.
    exists (PyStr.ascii_lower pre), (PyStr.ascii_lower post).
    now rewrite !ascii_lower_app, H.
Qed.


(* ===================================================================== *)
(** ** What one [update()] does *)

Lemma dict_lookup_head {V : Type} (k : string) (v : V) (rest : list (string * V)) :
  dict_lookup ((k, v) :: rest) k = Some v.
Proof. simpl. now rewrite String.eqb_refl. Qed.

Lemma run_update_request (engine : RoutingEngine) (self : WazeTravelTimeData.t) (r : Request) :
  request self = Some r ->
  WazeTravelTimeData.run_update engine self =
  finish self (req_units r) (fst (routing_call engine r)) (snd (routing_call engine r)).
Proof.
  destruct self as [o d reg [opts] dur dist rt].
  destruct opts as [fi fe ort ovt otoll osub ofer ou].
  unfold request; simpl.
  destruct o as [o|]; [|discriminate].
  destruct d as [d|]; [|discriminate].
  destruct ort as [rtm|]; [|discriminate].
  destruct ovt as [vt|]; [|discriminate].
  destruct otoll as [toll|]; [|discriminate].
  destruct osub as [sub|]; [|discriminate].
  destruct ofer as [fer|]; [|discriminate].
  destruct ou as [u|]; [|discriminate].
  intros H; injection H as <-.
  unfold routing_call, WazeTravelTimeData.run_update, WazeTravelTimeData.update; simpl.
  unfold bind, get_self, getitem, ret, try_except, emit, lift_outcome; simpl.
  destruct (WazeRouteCalculator engine _) as [p|e]; simpl.
  - destruct (calc_all_routes_info engine p rtm) as [rs|e]; simpl.
    + unfold candidates, WazeTravelTimeData.filter_routes, incl_filter_of, excl_filter_of; simpl.
      destruct (WazeTravelTimeData.apply_excl_filter fe
                  (WazeTravelTimeData.apply_incl_filter fi rs)) as [|[k [du di]] rest] eqn:E.
      * reflexivity.
      * simpl. rewrite String.eqb_refl. unfold stored_distance.
        destruct (String.eqb u CONF_UNIT_SYSTEM_IMPERIAL); reflexivity.
    + destruct e; reflexivity.
  - destruct e; reflexivity.
Qed.

Lemma run_update_no_request (engine : RoutingEngine) (self : WazeTravelTimeData.t) :
  request self = None ->
  WazeTravelTimeData.run_update engine self =
  (self, [],
   match WazeTravelTimeData.origin self, WazeTravelTimeData.destination self with
   | Some _, Some _ => Some KeyError
   | _, _ => None
   end).
Proof.
  destruct self as [o d reg [opts] dur dist rt].
  destruct opts as [fi fe ort ovt otoll osub ofer ou].
  unfold request, WazeTravelTimeData.run_update, WazeTravelTimeData.update; simpl.
  destruct o as [o|]; [|reflexivity].
  destruct d as [d|]; [|reflexivity].
  destruct ort as [rtm|]; [|reflexivity].
  destruct ovt as [vt|]; [|reflexivity].
  destruct otoll as [toll|]; [|reflexivity].
  destruct osub as [sub|]; [|reflexivity].
  destruct ofer as [fer|]; [|reflexivity].
  destruct ou as [u|]; [discriminate|reflexivity].
Qed.

Lemma request_endpoints (self : WazeTravelTimeData.t) (r : Request) :
  request self = Some r ->
  WazeTravelTimeData.origin self = Some (start_address (req_args r)) /\
  WazeTravelTimeData.destination self = Some (end_address (req_args r)) /\
  CONF_UNITS (options (WazeTravelTimeData.config_entry self)) = Some (req_units r).
Proof.
  unfold request.
  destruct (WazeTravelTimeData.origin self); [|discriminate].
  destruct (WazeTravelTimeData.destination self); [|discriminate].
  destruct (CONF_REALTIME _); [|discriminate].
  destruct (CONF_VEHICLE_TYPE _); [|discriminate].
  destruct (CONF_AVOID_TOLL_ROADS _); [|discriminate].
  destruct (CONF_AVOID_SUBSCRIPTION_ROADS _); [|discriminate].
  destruct (CONF_AVOID_FERRIES _); [|discriminate].
  destruct (CONF_UNITS _); [|discriminate].
  intros H; injection H as <-. simpl. auto.
Qed.

(** The calls of the routing call are calls, never log records. *)
Lemma routing_call_trace (engine : RoutingEngine) (r : Request) :
  forallb is_call (fst (routing_call engine r)) = true /\
  existsb is_call (fst (routing_call engine r)) = true /\
  existsb is_log (fst (routing_call engine r)) = false.
Proof.
  unfold routing_call. destruct (WazeRouteCalculator engine (req_args r)); simpl; auto.
Qed.

Lemma existsb_is_log_snoc (tr : list Event) (lvl : Level) (fmt : string) (a : list string) :
  existsb is_log (tr ++ [Log lvl fmt a]) = true.
Proof. rewrite existsb_app. simpl. now rewrite orb_true_r. Qed.

(** A refresh is seen to commit exactly when the routing call answered
    and the filters left a candidate. *)
Lemma committed_iff (engine : RoutingEngine) (self : WazeTravelTimeData.t) :
  committed (WazeTravelTimeData.run_update engine self) <->
  exists r rs k v rest,
    request self = Some r /\
    snd (routing_call engine r) = Value rs /\
    candidates self rs = (k, v) :: rest.
Proof.
  split.
  - intros (Hc & Hl & Hx).
    destruct (request self) as [r|] eqn:Hr.
    + rewrite (run_update_request engine self r Hr) in Hc, Hl, Hx.
      destruct (snd (routing_call engine r)) as [rs|e] eqn:Ho; simpl in *.
      * destruct (candidates self rs) as [|[k v] rest] eqn:Hk.
        -- simpl in Hl. now rewrite existsb_is_log_snoc in Hl.
        -- now exists r, rs, k, v, rest.
      * destruct e; simpl in *; try discriminate; now rewrite existsb_is_log_snoc in Hl.
    + rewrite (run_update_no_request engine self Hr) in Hc. discriminate.
  - intros (r & rs & k & [dur dist] & rest & Hr & Ho & Hk).
    rewrite (run_update_request engine self r Hr), Ho. simpl. rewrite Hk.
    destruct (routing_call_trace engine r) as (_ & Hc & Hl). now repeat split.
Qed.

(** Every [update()] either leaves the object as it was, or is a commit
    of the first candidate. *)
Lemma run_update_cases (engine : RoutingEngine) (self : WazeTravelTimeData.t) :
  (after_update engine self = self /\
   ~ committed (WazeTravelTimeData.run_update engine self)) \/
  (exists r rs k dur dist rest,
      request self = Some r /\
      snd (routing_call engine r) = Value rs /\
      candidates self rs = (k, (dur, dist)) :: rest /\
      WazeTravelTimeData.run_update engine self =
      (commit k dur (stored_distance (req_units r) dist) self,
       fst (routing_call engine r), None)).
Proof.
  unfold after_update.
  destruct (request self) as [r|] eqn:Hr.
  - rewrite (run_update_request engine self r Hr).
    destruct (routing_call_trace engine r) as (_ & Hc & Hl).
    destruct (snd (routing_call engine r)) as [rs|e] eqn:Ho; simpl.
    + destruct (candidates self rs) as [|[k [dur dist]] rest] eqn:Hk.
      * left. split; [reflexivity|]. intros (_ & H & _). simpl in H.
        now rewrite existsb_is_log_snoc in H.
      * right. exists r, rs, k, dur, dist, rest. auto.
    + left. destruct e; simpl; (split; [reflexivity|]); intros (_ & H & H'); simpl in *;
        try discriminate; now rewrite existsb_is_log_snoc in H.
  - rewrite (run_update_no_request engine self Hr). left. split; [reflexivity|].
    intros (H & _). discriminate.
Qed.

(** Runs the statements of a block whose branches are decided. *)
Ltac run_py :=
  repeat (unfold bind, get_self, getitem, ret, raise, return_, try_except, emit, log,
            lift_outcome, modify, WazeTravelTimeData.handlers; simpl).

(** The trace that [update] finds is kept, and what it does is the
    same after any trace. *)
Lemma update_frame (engine : RoutingEngine) (self : WazeTravelTimeData.t) (t : list Event) :
  WazeTravelTimeData.update engine self t =
  (fst (fst (WazeTravelTimeData.update engine self [])),
   snd (fst (WazeTravelTimeData.update engine self [])),
   (t ++ snd (WazeTravelTimeData.update engine self []))%list).
Proof.
  destruct self as [o d reg [opts] dur dist rt].
  destruct opts as [fi fe ort ovt otoll osub ofer ou].
  unfold WazeTravelTimeData.update; simpl.
  destruct o as [o|]; [|simpl; now rewrite app_nil_r].
  destruct d as [d|]; [|simpl; now rewrite app_nil_r].
  destruct ort as [rtm|]; [|simpl; now rewrite app_nil_r].
  destruct ovt as [vt|]; [|simpl; now rewrite app_nil_r].
  destruct otoll as [toll|]; [|simpl; now rewrite app_nil_r].
  destruct osub as [sub|]; [|simpl; now rewrite app_nil_r].
  destruct ofer as [fer|]; [|simpl; now rewrite app_nil_r].
  destruct ou as [u|]; [|simpl; now rewrite app_nil_r].
  unfold bind, get_self, getitem, ret, try_except, emit, lift_outcome; simpl.
  destruct (WazeRouteCalculator engine _) as [p|e]; simpl.
  - destruct (calc_all_routes_info engine p rtm) as [rs|e]; simpl.
    + destruct (WazeTravelTimeData.apply_excl_filter fe
                  (WazeTravelTimeData.apply_incl_filter fi rs)) as [|[k [du di]] rest]; simpl.
      * run_py. now rewrite <- ?app_assoc.
      * rewrite String.eqb_refl.
        destruct (String.eqb u CONF_UNIT_SYSTEM_IMPERIAL); run_py; now rewrite <- ?app_assoc.
    + destruct e; run_py; now rewrite <- ?app_assoc.
  - destruct e; run_py; now rewrite <- ?app_assoc.
Qed.

Lemma after_update_as_update (engine : RoutingEngine) (self : WazeTravelTimeData.t) :
  after_update engine self = snd (fst (WazeTravelTimeData.update engine self [])).
Proof.
  unfold after_update, WazeTravelTimeData.run_update.
  destruct (WazeTravelTimeData.update engine self []) as [[[u| |e] s] tr]; reflexivity.
Qed.

Lemma commit_all_set (k : string) (dur dist : float) (self : WazeTravelTimeData.t) :
  WazeTravelTimeData.duration (commit k dur dist self) = Some dur /\
  WazeTravelTimeData.distance (commit k dur dist self) = Some dist /\
  WazeTravelTimeData.route (commit k dur dist self) = Some k.
Proof. repeat split. Qed.

(** One [update()] keeps the reading or replaces all of it. *)
Lemma update_reading (engine : RoutingEngine) (self : WazeTravelTimeData.t) :
  same_reading (after_update engine self) self \/
  exists k dur dist, after_update engine self = commit k dur dist self.
Proof.
  destruct (run_update_cases engine self) as [[H _] | (r & rs & k & dur & dist & rest & _ & _ & _ & H)].
  - left. rewrite H. repeat split.
  - right. exists k, dur, (stored_distance (req_units r) dist).
    unfold after_update. now rewrite H.
Qed.

Lemma all_or_nothing_update (engine : RoutingEngine) (self : WazeTravelTimeData.t) :
  all_or_nothing self -> all_or_nothing (after_update engine self).
Proof.
  intros Hinv. destruct (update_reading engine self) as [(Hd & Hk & Hr) | (k & dur & dist & H)].
  - unfold all_or_nothing. now rewrite Hd, Hk, Hr.
  - rewrite H. right. simpl. repeat split; discriminate.
Qed.

(** The sensor's [update] takes its refresher from a reachable state to a
    reachable state, whatever the host and the engine answer. *)
Lemma sensor_update_reachable (hass : HomeAssistant) (engine : RoutingEngine)
    (self : WazeTravelTime.t) :
  reachable (WazeTravelTime._waze_data self) ->
  reachable (WazeTravelTime._waze_data (fst (fst (WazeTravelTime.run_update hass engine self)))).
Proof.
  intros Hreach.
  assert (Hcall : forall s t, reachable (WazeTravelTime._waze_data s) ->
            reachable (WazeTravelTime._waze_data
              (snd (fst (call_method WazeTravelTime._waze_data WazeTravelTime.set_waze_data
                           (WazeTravelTimeData.update engine) s t))))).
  { intros s t Hs. unfold call_method. rewrite update_frame.
    pose proof (reach_update engine _ Hs) as Hu. rewrite after_update_as_update in Hu.
    destruct (WazeTravelTimeData.update engine (WazeTravelTime._waze_data s) [])
      as [[[u| |e] s'] tr]; simpl in *; exact Hu. }
  assert (Hrun : forall (m : M WazeTravelTime.t unit),
            (forall s t, reachable (WazeTravelTime._waze_data s) ->
               reachable (WazeTravelTime._waze_data (snd (fst (m s t))))) ->
            reachable (WazeTravelTime._waze_data
              (fst (fst (match m self [] with
                         | (Normal _, s', tr) => (s', tr, None)
                         | (Return, s', tr) => (s', tr, None)
                         | (Raise e, s', tr) => (s', tr, Some e)
                         end))))).
  { intros m Hm. specialize (Hm self [] Hreach).
    destruct (m self []) as [[[u| |e] s'] tr]; exact Hm. }
  unfold WazeTravelTime.run_update. apply Hrun. clear Hrun Hreach.
  intros s t Hs. unfold WazeTravelTime.update, bind, get_self, log, emit; simpl.
  assert (Hdest : forall s1 t1, reachable (WazeTravelTime._waze_data s1) ->
            reachable (WazeTravelTime._waze_data (snd (fst
              (match
                 match WazeTravelTime._destination_entity_id s with
                 | Some entity_id =>
                     match find_coordinates hass entity_id with
                     | Some _ => WazeTravelTime.assign_destination (find_coordinates hass entity_id)
                     | None =>
                         fun s0 t0 =>
                           match WazeTravelTime.get_state hass entity_id s0 t0 with
                           | (Normal a, s', t') => WazeTravelTime.assign_destination (Some a) s' t'
                           | (Return, s', t') => (Return, s', t')
                           | (Raise e, s', t') => (Raise e, s', t')
                           end
                     end
                 | None => ret tt
                 end s1 t1
               with
               | (Normal _, s', t') =>
                   call_method WazeTravelTime._waze_data WazeTravelTime.set_waze_data
                     (WazeTravelTimeData.update engine) s' t'
               | (Return, s', t') => (Return, s', t')
               | (Raise e, s', t') => (Raise e, s', t')
               end))))).
  { intros s1 t1 H1.
    destruct (WazeTravelTime._destination_entity_id s) as [id|]; simpl.
    - destruct (find_coordinates hass id) as [c|]; simpl.
      + apply Hcall. simpl. now apply reach_destination.
      + unfold WazeTravelTime.get_state. destruct (states_get hass id); simpl.
        * apply Hcall. simpl. now apply reach_destination.
        * exact H1.
    - now apply Hcall. }
  destruct (WazeTravelTime._origin_entity_id s) as [id|]; simpl.
  - destruct (find_coordinates hass id) as [c|]; simpl.
    + apply Hdest. simpl. now apply reach_origin.
    + unfold WazeTravelTime.get_state. destruct (states_get hass id); simpl.
      * apply Hdest. simpl. now apply reach_origin.
      * exact Hs.
  - now apply Hdest.
Qed.

(* ===================================================================== *)
(** ** Facts about the filters *)

Lemma filter_head {A : Type} (p : A -> bool) (l : list A) (x : A) (rest : list A) :
  filter p l = x :: rest ->
  p x = true /\ exists pre post, l = (pre ++ x :: post)%list /\ filter p pre = [].
Proof.
  induction l as [|a l IH]; simpl; [discriminate|].
  destruct (p a) eqn:Ha.
  - intros H; injection H as -> _. split; [exact Ha|]. now exists [], l.
  - intros H. destruct (IH H) as (Hx & pre & post & -> & Hpre). split; [exact Hx|].
    exists (a :: pre), post. simpl. now rewrite Ha.
Qed.

Lemma filter_true {A : Type} (l : list A) : filter (fun _ => true) l = l.
Proof. induction l as [|a l IH]; simpl; [reflexivity | now rewrite IH]. Qed.

Lemma filter_filter {A : Type} (p q : A -> bool) (l : list A) :
  filter q (filter p l) = filter (fun x => andb (p x) (q x)) l.
Proof.
  induction l as [|a l IH]; simpl; [reflexivity|].
  destruct (p a); simpl; [destruct (q a)|]; now rewrite IH.
Qed.

Lemma filter_routes_keeps (incl excl : option string) (rs : Routes) :
  WazeTravelTimeData.filter_routes incl excl rs = filter (keeps incl excl) rs.
Proof.
  unfold WazeTravelTimeData.filter_routes, WazeTravelTimeData.apply_excl_filter,
    WazeTravelTimeData.apply_incl_filter, keeps.
  destruct incl as [fi|], excl as [fe|].
  - apply filter_filter.
  - apply filter_ext. intros a. now rewrite andb_true_r.
  - reflexivity.
  - symmetry. apply filter_true.
Qed.

Lemma candidates_head (self : WazeTravelTimeData.t) (rs : Routes)
    (k : string) (v : float * float) (rest : Routes) :
  candidates self rs = (k, v) :: rest ->
  (forall f, incl_filter_of self = Some f -> PyStr.icontains f k = true) /\
  (forall f, excl_filter_of self = Some f -> PyStr.icontains f k = false) /\
  exists pre post, rs = (pre ++ (k, v) :: post)%list /\ candidates self pre = [].
Proof.
  unfold candidates. rewrite filter_routes_keeps. intros H.
  destruct (filter_head _ _ _ _ H) as (Hk & pre & post & Hrs & Hpre).
  unfold keeps in Hk. simpl in Hk. apply andb_true_iff in Hk as [Hi He].
  split; [|split].
  - intros f Hf. now rewrite Hf in Hi.
  - intros f Hf. rewrite Hf in He. now apply negb_true_iff in He.
  - exists pre, post. split; [exact Hrs|]. now rewrite filter_routes_keeps.
Qed.

(** The success path: the first candidate is committed, with its
    distance in the configured unit. *)
Lemma update_commits_first (engine : RoutingEngine) (self : WazeTravelTimeData.t)
    (r : Request) (rs : Routes) (k : string) (dur dist : float) (rest : Routes) :
  request self = Some r ->
  snd (routing_call engine r) = Value rs ->
  candidates self rs = (k, (dur, dist)) :: rest ->
  WazeTravelTimeData.run_update engine self =
  (commit k dur (stored_distance (req_units r) dist) self,
   fst (routing_call engine r), None).
Proof.
  intros Hr Ho Hk.
  rewrite (run_update_request engine self r Hr), Ho. simpl. now rewrite Hk.
Qed.

(** The failure path of the filters: nothing is left, a warning is
    logged and the object stays. *)
Lemma update_no_candidates (engine : RoutingEngine) (self : WazeTravelTimeData.t)
    (r : Request) (rs : Routes) :
  request self = Some r ->
  snd (routing_call engine r) = Value rs ->
  candidates self rs = [] ->
  WazeTravelTimeData.run_update engine self =
  (self, (fst (routing_call engine r) ++ [Log WARNING "No routes found" []])%list, None).
Proof.
  intros Hr Ho Hk.
  rewrite (run_update_request engine self r Hr), Ho. simpl. now rewrite Hk.
Qed.

(* ===================================================================== *)
(** ** The claims *)

(** C1. When the routing call raises the routing engine's error or a
    [KeyError], [update()] catches it, logs it (a warning for [WRCError],
    an error for [KeyError]) and returns; the object, and so duration,
    distance and route, is as before the call. *)
Theorem C1_routing_error_keeps_state
    (engine : RoutingEngine) (self : WazeTravelTimeData.t) (r : Request) :
  request self = Some r ->
  (forall msg,
      snd (routing_call engine r) = Raises (WRCError msg) ->
      WazeTravelTimeData.run_update engine self =
      (self,
       (fst (routing_call engine r) ++ [Log WARNING "Error on retrieving data: %s" [msg]])%list,
       None) /\
      same_reading (after_update engine self) self) /\
  (snd (routing_call engine r) = Raises KeyError ->
   WazeTravelTimeData.run_update engine self =
   (self,
    (fst (routing_call engine r) ++ [Log ERROR "Error retrieving data from server" []])%list,
    None) /\
   same_reading (after_update engine self) self).
Proof.
  intros Hr. unfold after_update. rewrite (run_update_request engine self r Hr).
  split; [intros msg H | intros H]; rewrite H; simpl; repeat split.
Qed.

Lemma C1_witness :
  WazeTravelTimeData.run_update Scenario.failing_engine (Scenario.fresh None None "metric") =
  (Scenario.fresh None None "metric",
   (Scenario.calls ++ [Log WARNING "Error on retrieving data: %s" ["empty response"]])%list,
   None) /\
  WazeTravelTimeData.run_update Scenario.malformed_engine (Scenario.fresh None None "metric") =
  (Scenario.fresh None None "metric",
   (Scenario.calls ++ [Log ERROR "Error retrieving data from server" []])%list,
   None).
Proof.
  split.
  - exact (proj1 (proj1 (C1_routing_error_keeps_state Scenario.failing_engine
                           (Scenario.fresh None None "metric") (scenario_request "metric")
                           eq_refl) "empty response" eq_refl)).
  - exact (proj1 (proj2 (C1_routing_error_keeps_state Scenario.malformed_engine
                           (Scenario.fresh None None "metric") (scenario_request "metric")
                           eq_refl) eq_refl)).
Defined.

(** C2. All or nothing: in every state a refresher can be in between
    [update()] calls, duration, distance and route are all [None] or all
    set; one [update()], however it ends, keeps all three or replaces all
    three; and the sensor's own [update] keeps its refresher within those
    states. *)
Theorem C2_all_or_nothing :
  (forall self, reachable self -> all_or_nothing self) /\
  (forall engine self,
      same_reading (after_update engine self) self \/
      exists k dur dist,
        after_update engine self = commit k dur dist self /\
        WazeTravelTimeData.duration (after_update engine self) = Some dur /\
        WazeTravelTimeData.distance (after_update engine self) = Some dist /\
        WazeTravelTimeData.route (after_update engine self) = Some k) /\
  (forall hass engine sensor,
      reachable (WazeTravelTime._waze_data sensor) ->
      all_or_nothing
        (WazeTravelTime._waze_data (fst (fst (WazeTravelTime.run_update hass engine sensor))))).
Proof.
  assert (Hinv : forall self, reachable self -> all_or_nothing self).
  { intros self H. induction H as [o d r c | v self _ IH | v self _ IH | c self _ IH
                                  | engine self _ IH].
    - left. repeat split.
    - exact IH.
    - exact IH.
    - exact IH.
    - now apply all_or_nothing_update. }
  split; [exact Hinv | split].
  - intros engine self. destruct (update_reading engine self) as [H | (k & dur & dist & H)].
    + now left.
    + right. exists k, dur, dist. rewrite H. repeat split.
  - intros hass engine sensor H. apply Hinv. now apply sensor_update_reachable.
Qed.

Lemma C2_witness :
  all_or_nothing
    (after_update Scenario.failing_engine
       (after_update Scenario.engine (Scenario.fresh None None "metric"))).
Proof.
  apply (proj1 C2_all_or_nothing).
  apply reach_update, reach_update, reach_init.
Defined.

(** C3, as the code has it.  Whenever [update()] commits a route, the
    committed name in lower case ([str.lower]) contains the include
    filter in lower case, if one is configured, and does not contain the
    exclude filter in lower case, if one is configured; when name and
    filter are ASCII this is containment with the case of the letters
    ignored.  The committed route is the first one left by the include
    filter applied to everything the engine returned and then the exclude
    filter applied to what the include filter kept. *)
Theorem C3_filter_postcondition (engine : RoutingEngine) (self : WazeTravelTimeData.t) :
  committed (WazeTravelTimeData.run_update engine self) ->
  exists r rs k v rest,
    request self = Some r /\
    snd (routing_call engine r) = Value rs /\
    WazeTravelTimeData.apply_excl_filter (excl_filter_of self)
      (WazeTravelTimeData.apply_incl_filter (incl_filter_of self) rs) = (k, v) :: rest /\
    WazeTravelTimeData.route (after_update engine self) = Some k /\
    (forall f, incl_filter_of self = Some f ->
               PyStr.Substring (PyStr.lower f) (PyStr.lower k)) /\
    (forall f, excl_filter_of self = Some f ->
               ~ PyStr.Substring (PyStr.lower f) (PyStr.lower k)) /\
    (PyStr.is_ascii k = true ->
     forall f, PyStr.is_ascii f = true ->
               (incl_filter_of self = Some f -> PyStr.IContains f k) /\
               (excl_filter_of self = Some f -> ~ PyStr.IContains f k)).
Proof.
  intros Hc.
  destruct (run_update_cases engine self)
    as [[_ Hn] | (r & rs & k & dur & dist & rest & Hr & Ho & Hk & Hrun)]; [contradiction|].
  exists r, rs, k, (dur, dist), rest.
  destruct (candidates_head self rs k (dur, dist) rest Hk) as (Hi & He & _).
  split; [exact Hr|]. split; [exact Ho|]. split; [exact Hk|].
  split; [unfold after_update; now rewrite Hrun|].
  split; [|split].
  - intros f Hf. apply contains_spec. exact (Hi f Hf).
  - intros f Hf Hsub. apply contains_spec in Hsub.
    specialize (He f Hf). unfold PyStr.icontains in He. congruence.
  - intros Hka f Hfa. split; intros Hf.
    + apply (icontains_ascii f k Hfa Hka). exact (Hi f Hf).
    + intros Hin. apply (icontains_ascii f k Hfa Hka) in Hin.
      specialize (He f Hf). congruence.
Qed.

Lemma C3_witness :
  exists k,
    WazeTravelTimeData.route
      (after_update Scenario.engine (Scenario.fresh (Some "ROUTE") (Some "a") "metric")) = Some k /\
    PyStr.Substring "route" (PyStr.lower k) /\
    ~ PyStr.Substring "a" (PyStr.lower k) /\
    (PyStr.is_ascii k = true -> PyStr.IContains "ROUTE" k /\ ~ PyStr.IContains "a" k).
Proof.
  destruct (C3_filter_postcondition Scenario.engine
              (Scenario.fresh (Some "ROUTE") (Some "a") "metric"))
    as (r & rs & k & v & rest & _ & _ & _ & Hk & Hi & He & Ha).
  - repeat split.
  - exists k. split; [exact Hk|]. split; [|split].
    + exact (Hi "ROUTE" eq_refl).
    + exact (He "a" eq_refl).
    + intros Hka. split.
      * exact (proj1 (Ha Hka "ROUTE" eq_refl) eq_refl).
      * exact (proj2 (Ha Hka "a" eq_refl) eq_refl).
Defined.

(** C3, as the spec states it, fails outside ASCII.  With the exclude
    filter capital sigma and the one route named [odos], [update()]
    commits that route, whose name contains the filter letter for
    letter: in lower case the name ends in the final sigma, which the
    lower case of the filter is not. *)
Lemma C3_counterexample :
  excl_filter_of (Scenario.fresh None (Some sigma) "metric") = Some sigma /\
  committed
    (WazeTravelTimeData.run_update greek_engine (Scenario.fresh None (Some sigma) "metric")) /\
  WazeTravelTimeData.route
    (after_update greek_engine (Scenario.fresh None (Some sigma) "metric")) = Some odos /\
  PyStr.Substring sigma odos /\
  PyStr.decode (PyStr.lower sigma) = [963%N] /\
  PyStr.decode (PyStr.lower odos) = [959%N; 948%N; 959%N; 962%N].
Proof.
  split; [reflexivity|]. split; [repeat split; vm_compute; reflexivity|].
  split; [vm_compute; reflexivity|]. split; [|split; vm_compute; reflexivity].
  exists (PyStr.encode [927%N; 916%N; 927%N]), EmptyString. vm_compute. reflexivity.
Qed.

(** C4. Selection: when the candidates left by the filters are not empty,
    [update()] selects the first of them in the order of the mapping,
    that is, the first entry of the mapping that passes the filters,
    whatever the durations and distances, and commits its duration and
    its distance (in the configured unit).  For
    [{"Route A": (10.0, 12.0), "Route B": (8.0, 9.0)}] without filters it
    commits "Route A", 10.0 and the metric distance 12.0; with the include
    filter "B" it commits "Route B" and 8.0. *)
Theorem C4_selects_first :
  (forall engine self r rs k dur dist rest,
      request self = Some r ->
      snd (routing_call engine r) = Value rs ->
      candidates self rs = (k, (dur, dist)) :: rest ->
      WazeTravelTimeData.run_update engine self =
      (commit k dur (stored_distance (req_units r) dist) self,
       fst (routing_call engine r), None) /\
      WazeTravelTimeData.route (after_update engine self) = Some k /\
      WazeTravelTimeData.duration (after_update engine self) = Some dur /\
      WazeTravelTimeData.distance (after_update engine self) =
      Some (stored_distance (req_units r) dist) /\
      exists pre post,
        rs = (pre ++ (k, (dur, dist)) :: post)%list /\ candidates self pre = []) /\
  WazeTravelTimeData.run_update Scenario.engine (Scenario.fresh None None "metric") =
  (commit "Route A" 10.0%float 12.0%float (Scenario.fresh None None "metric"),
   Scenario.calls, None) /\
  WazeTravelTimeData.run_update Scenario.engine (Scenario.fresh (Some "B") None "metric") =
  (commit "Route B" 8.0%float 9.0%float (Scenario.fresh (Some "B") None "metric"),
   Scenario.calls, None).
Proof.
  split; [|split; reflexivity].
  intros engine self r rs k dur dist rest Hr Ho Hk.
  unfold after_update. rewrite (update_commits_first engine self r rs k dur dist rest Hr Ho Hk).
  repeat split.
  destruct (candidates_head self rs k (dur, dist) rest Hk) as (_ & _ & H). exact H.
Qed.

Lemma C4_witness :
  WazeTravelTimeData.route
    (after_update Scenario.engine (Scenario.fresh None (Some "a") "metric")) = Some "Route B" /\
  WazeTravelTimeData.duration
    (after_update Scenario.engine (Scenario.fresh None (Some "a") "metric")) = Some 8.0%float.
Proof.
  destruct (proj1 C4_selects_first Scenario.engine
              (Scenario.fresh None (Some "a") "metric") (scenario_request "metric")
              Scenario.routes "Route B" 8.0%float 9.0%float [] eq_refl eq_refl eq_refl)
    as (_ & Hk & Hd & _).
  split; [exact Hk | exact Hd].
Defined.

(** C5, as the code has it.  With the exclude filter "a", only "Route A"
    is dropped: "Route B" in lower case is "route b", which has no "a".
    [update()] commits "Route B" with duration 8.0 and distance 9.0, and
    logs nothing. *)
Theorem C5_exclude_a_commits_route_b :
  PyStr.icontains "a" "Route A" = true /\
  PyStr.icontains "a" "Route B" = false /\
  candidates (Scenario.fresh None (Some "a") "metric") Scenario.routes =
  [("Route B", (8.0%float, 9.0%float))] /\
  WazeTravelTimeData.run_update Scenario.engine (Scenario.fresh None (Some "a") "metric") =
  (commit "Route B" 8.0%float 9.0%float (Scenario.fresh None (Some "a") "metric"),
   Scenario.calls, None).
Proof. repeat split. Qed.

(** C5, as the spec states it, fails: "Route B" does not contain "a", the
    filtered set is not empty, the state changes and no warning is
    logged. *)
Lemma C5_counterexample :
  PyStr.icontains "a" "Route B" <> true /\
  candidates (Scenario.fresh None (Some "a") "metric") Scenario.routes <> [] /\
  WazeTravelTimeData.route
    (after_update Scenario.engine (Scenario.fresh None (Some "a") "metric")) <>
  WazeTravelTimeData.route (Scenario.fresh None (Some "a") "metric") /\
  existsb is_log
    (snd (fst (WazeTravelTimeData.run_update Scenario.engine
                 (Scenario.fresh None (Some "a") "metric")))) = false.
Proof. repeat split; vm_compute; discriminate. Qed.

(** C6. Unit conversion: on every successful [update()], when the units
    option is imperial the stored distance is the selected route's
    kilometres divided by 1.609, and for any other unit system it is the
    kilometres as they are.  With imperial units and 12.0 km selected, it
    stores 12.0/1.609, which is 7.458 to three decimals. *)
Theorem C6_unit_conversion :
  (forall engine self r rs k dur dist rest,
      request self = Some r ->
      snd (routing_call engine r) = Value rs ->
      candidates self rs = (k, (dur, dist)) :: rest ->
      (CONF_UNITS (options (WazeTravelTimeData.config_entry self)) =
       Some CONF_UNIT_SYSTEM_IMPERIAL ->
       WazeTravelTimeData.distance (after_update engine self) = Some (dist / 1.609)%float) /\
      (CONF_UNITS (options (WazeTravelTimeData.config_entry self)) <>
       Some CONF_UNIT_SYSTEM_IMPERIAL ->
       WazeTravelTimeData.distance (after_update engine self) = Some dist)) /\
  WazeTravelTimeData.distance
    (after_update Scenario.engine (Scenario.fresh None None "imperial")) =
  Some (12.0 / 1.609)%float /\
  exists q,
    PyNum.float_value (12.0 / 1.609)%float = Some q /\
    Qabs (q - (7458 # 1000)) < 1 # 2000.
Proof.
  split; [|split].
  - intros engine self r rs k dur dist rest Hr Ho Hk.
    destruct (request_endpoints self r Hr) as (_ & _ & Hu).
    unfold after_update. rewrite (update_commits_first engine self r rs k dur dist rest Hr Ho Hk).
    simpl. rewrite Hu. unfold stored_distance. split; intros H.
    + injection H as ->. now rewrite String.eqb_refl.
    + destruct (String.eqb_spec (req_units r) CONF_UNIT_SYSTEM_IMPERIAL) as [E|E].
      * rewrite E in H. contradiction.
      * reflexivity.
  - reflexivity.
  - eexists. split; [vm_compute; reflexivity|]. vm_compute. reflexivity.
Qed.

Lemma C6_witness :
  WazeTravelTimeData.distance
    (after_update Scenario.engine (Scenario.fresh (Some "B") None "imperial")) =
  Some (9.0 / 1.609)%float /\
  WazeTravelTimeData.distance
    (after_update Scenario.engine (Scenario.fresh (Some "B") None "metric")) =
  Some 9.0%float.
Proof.
  split.
  - apply (proj1 (proj1 C6_unit_conversion Scenario.engine
                    (Scenario.fresh (Some "B") None "imperial") (scenario_request "imperial")
                    Scenario.routes "Route B" 8.0%float 9.0%float [] eq_refl eq_refl eq_refl)).
    reflexivity.
  - apply (proj2 (proj1 C6_unit_conversion Scenario.engine
                    (Scenario.fresh (Some "B") None "metric") (scenario_request "metric")
                    Scenario.routes "Route B" 8.0%float 9.0%float [] eq_refl eq_refl eq_refl)).
    vm_compute. discriminate.
Defined.

(** C7, as the code has it.  When the refresher's origin or destination
    is [None], [update()] is a silent no-op: it makes no routing call,
    logs nothing, leaves the object as it was and raises nothing. *)
Theorem C7_absent_endpoint_is_noop (engine : RoutingEngine) (self : WazeTravelTimeData.t) :
  WazeTravelTimeData.origin self = None \/ WazeTravelTimeData.destination self = None ->
  silent_noop self (WazeTravelTimeData.run_update engine self) /\
  same_reading (after_update engine self) self.
Proof.
  intros H.
  assert (Hr : request self = None).
  { unfold request. destruct H as [-> | ->]; [reflexivity|].
    destruct (WazeTravelTimeData.origin self); reflexivity. }
  unfold silent_noop, after_update. rewrite (run_update_no_request engine self Hr).
  destruct H as [-> | ->]; [|destruct (WazeTravelTimeData.origin self)]; repeat split.
Qed.

Lemma C7_witness :
  silent_noop
    (WazeTravelTimeData.__init__ None (Some "51.92,4.48") "EU"
       {| options := Scenario.opts None None "metric" |})
    (WazeTravelTimeData.run_update Scenario.engine
       (WazeTravelTimeData.__init__ None (Some "51.92,4.48") "EU"
          {| options := Scenario.opts None None "metric" |})).
Proof.
  apply (C7_absent_endpoint_is_noop Scenario.engine
           (WazeTravelTimeData.__init__ None (Some "51.92,4.48") "EU"
              {| options := Scenario.opts None None "metric" |})).
  left. reflexivity.
Defined.

(** C7, as the spec states it, fails for an entity without state: the
    sensor's [update] reads [.state] of [None] and raises
    [AttributeError]. *)
Lemma C7_counterexample :
  entity_without_state empty_hass tracker_sensor /\
  snd (WazeTravelTime.run_update empty_hass Scenario.engine tracker_sensor) =
  Some AttributeError /\
  ~ noop_on_missing_entity.
Proof.
  assert (He : entity_without_state empty_hass tracker_sensor).
  { left. exists "device_tracker.phone". split; reflexivity. }
  split; [exact He | split; [reflexivity|]].
  intros H. destruct (H empty_hass Scenario.engine tracker_sensor He) as (_ & _ & Hn).
  vm_compute in Hn. discriminate.
Qed.

(** C8. Empty after filtering: when the engine returned candidates and
    the configured filters leave none of them, [update()] logs a warning
    and returns with the object, and so duration, distance and route, as
    before. *)
Theorem C8_empty_after_filter
    (engine : RoutingEngine) (self : WazeTravelTimeData.t) (r : Request) (rs : Routes) :
  request self = Some r ->
  snd (routing_call engine r) = Value rs ->
  rs <> [] ->
  candidates self rs = [] ->
  WazeTravelTimeData.run_update engine self =
  (self, (fst (routing_call engine r) ++ [Log WARNING "No routes found" []])%list, None) /\
  same_reading (after_update engine self) self.
Proof.
  intros Hr Ho _ Hk. unfold after_update.
  rewrite (update_no_candidates engine self r rs Hr Ho Hk). repeat split.
Qed.

Lemma C8_witness :
  WazeTravelTimeData.run_update Scenario.engine (Scenario.fresh (Some "C") None "metric") =
  (Scenario.fresh (Some "C") None "metric",
   (Scenario.calls ++ [Log WARNING "No routes found" []])%list, None).
Proof.
  apply (C8_empty_after_filter Scenario.engine (Scenario.fresh (Some "C") None "metric")
           (scenario_request "metric") Scenario.routes eq_refl eq_refl).
  - discriminate.
  - reflexivity.
Defined.

(** C10. An exclude filter that is the empty string occurs in every
    route name, so whatever mapping the engine returns nothing is left:
    [update()] logs the warning and commits nothing, at this refresh and
    at every later one; an include filter that is the empty string keeps
    every route. *)
Theorem C10_empty_string_filters :
  (forall rs, WazeTravelTimeData.apply_excl_filter (Some EmptyString) rs = []) /\
  (forall rs, WazeTravelTimeData.apply_incl_filter (Some EmptyString) rs = rs) /\
  (forall engine self r rs,
      excl_filter_of self = Some EmptyString ->
      request self = Some r ->
      snd (routing_call engine r) = Value rs ->
      WazeTravelTimeData.run_update engine self =
      (self, (fst (routing_call engine r) ++ [Log WARNING "No routes found" []])%list, None)) /\
  (forall engines self,
      excl_filter_of self = Some EmptyString ->
      after_updates engines self = self).
Proof.
  assert (Hex : forall rs, WazeTravelTimeData.apply_excl_filter (Some EmptyString) rs = []).
  { intros rs. unfold WazeTravelTimeData.apply_excl_filter.
    induction rs as [|kv rs IH]; simpl; [reflexivity|].
    now rewrite icontains_empty. }
  assert (Hin : forall rs, WazeTravelTimeData.apply_incl_filter (Some EmptyString) rs = rs).
  { intros rs. unfold WazeTravelTimeData.apply_incl_filter.
    induction rs as [|kv rs IH]; simpl; [reflexivity|].
    rewrite icontains_empty. now rewrite IH. }
  assert (Hk : forall self rs, excl_filter_of self = Some EmptyString -> candidates self rs = []).
  { intros self rs He. unfold candidates, WazeTravelTimeData.filter_routes.
    rewrite He. apply Hex. }
  split; [exact Hex | split; [exact Hin | split]].
  - intros engine self r rs He Hr Ho.
    apply (update_no_candidates engine self r rs Hr Ho (Hk self rs He)).
  - intros engines self He. unfold after_updates.
    induction engines as [|e engines IH]; simpl; [reflexivity|].
    assert (Hs : after_update e self = self).
    { destruct (run_update_cases e self)
        as [[H _] | (r & rs & k & dur & dist & rest & _ & _ & Hc & _)]; [exact H|].
      rewrite (Hk self rs He) in Hc. discriminate. }
    rewrite Hs. exact IH.
Qed.

Lemma C10_witness :
  WazeTravelTimeData.run_update Scenario.engine (Scenario.fresh None (Some EmptyString) "metric") =
  (Scenario.fresh None (Some EmptyString) "metric",
   (Scenario.calls ++ [Log WARNING "No routes found" []])%list, None) /\
  after_updates [Scenario.engine; Scenario.failing_engine; Scenario.engine]
    (Scenario.fresh None (Some EmptyString) "metric") = Scenario.fresh None (Some EmptyString) "metric".
Proof.
  split.
  - exact (proj1 (proj2 (proj2 C10_empty_string_filters)) Scenario.engine
             (Scenario.fresh None (Some EmptyString) "metric") (scenario_request "metric")
             Scenario.routes eq_refl eq_refl eq_refl).
  - exact (proj2 (proj2 (proj2 C10_empty_string_filters))
             [Scenario.engine; Scenario.failing_engine; Scenario.engine]
             (Scenario.fresh None (Some EmptyString) "metric") eq_refl).
Defined.

(* ===================================================================== *)
(** ** [round] gives a nearest integer *)

Lemma round_half_even_bounds (num den : Z) :
  (0 < den)%Z ->
  (2 * Z.abs (PyNum.round_half_even num den * den - num) <= den)%Z.
Proof.
  intros Hden. unfold PyNum.round_half_even.
  pose proof (Z.div_mod num den ltac:(lia)) as Hdm.
  pose proof (Z.mod_pos_bound num den Hden) as Hr.
  set (q := (num / den)%Z) in *. set (r := (num mod den)%Z) in *.
  destruct (Z.ltb_spec (2 * r) den) as [H1|H1].
  - nia.
  - destruct (Z.ltb_spec den (2 * r)) as [H2|H2].
    + nia.
    + destruct (Z.even q); nia.
Qed.

Lemma round_half_even_nearest (q : Q) :
  PyNum.nearest_integer q (PyNum.round_half_even (Qnum q) (Z.pos (Qden q))).
Proof.
  destruct q as [num den]. unfold PyNum.nearest_integer. simpl.
  pose proof (round_half_even_bounds num (Z.pos den) ltac:(lia)) as Hb.
  set (n := PyNum.round_half_even num (Z.pos den)) in *.
  unfold Qle; simpl. lia.
Qed.

(** On a float that denotes a number, [round] returns, and returns an
    integer nearest to it. *)
Lemma round_nearest (x : float) (q : Q) :
  PyNum.float_value x = Some q ->
  exists n, PyNum.round x = Value n /\ PyNum.nearest_integer q n.
Proof.
  intros Hq. exists (PyNum.round_half_even (Qnum q) (Z.pos (Qden q))).
  split; [|apply round_half_even_nearest].
  unfold PyNum.round. rewrite Hq.
  unfold PyNum.float_value in Hq.
  destruct (Prim2SF x); try discriminate; reflexivity.
Qed.

(** On NaN and on the infinities [round] raises, and so does the read
    of [native_value]. *)
Lemma native_value_not_a_number (self : WazeTravelTime.t) (d : float) :
  WazeTravelTimeData.duration (WazeTravelTime._waze_data self) = Some d ->
  PyNum.float_value d = None ->
  exists e, WazeTravelTime.native_value self = Raises e.
Proof.
  intros Hd Hq. unfold WazeTravelTime.native_value, PyNum.round. rewrite Hd, Hq.
  destruct (Prim2SF d); eexists; reflexivity.
Qed.

(** C9. Published state: with no duration stored (no successful refresh
    yet) the native value is [None]; with a duration stored it is that
    duration rounded to a nearest integer; the attributes dictionary is
    [None] exactly when the duration is [None], and otherwise carries the
    attribution, the stored duration, distance and route, and the
    endpoints. *)
Theorem C9_published_state (self : WazeTravelTime.t) :
  (WazeTravelTimeData.duration (WazeTravelTime._waze_data self) = None ->
   WazeTravelTime.native_value self = Value None) /\
  (forall d q,
      WazeTravelTimeData.duration (WazeTravelTime._waze_data self) = Some d ->
      PyNum.float_value d = Some q ->
      exists n,
        WazeTravelTime.native_value self = Value (Some n) /\
        PyNum.nearest_integer q n) /\
  (WazeTravelTime.extra_state_attributes self = None <->
   WazeTravelTimeData.duration (WazeTravelTime._waze_data self) = None) /\
  (forall d,
      WazeTravelTimeData.duration (WazeTravelTime._waze_data self) = Some d ->
      WazeTravelTime.extra_state_attributes self =
      Some [ (ATTR_ATTRIBUTION, VStr "Powered by Waze");
             ("duration", VFloat d);
             ("distance", of_float (WazeTravelTimeData.distance (WazeTravelTime._waze_data self)));
             ("route", of_str (WazeTravelTimeData.route (WazeTravelTime._waze_data self)));
             ("origin", of_str (WazeTravelTimeData.origin (WazeTravelTime._waze_data self)));
             ("destination",
              of_str (WazeTravelTimeData.destination (WazeTravelTime._waze_data self))) ]).
Proof.
  unfold WazeTravelTime.native_value, WazeTravelTime.extra_state_attributes.
  split; [|split; [|split]].
  - intros ->. reflexivity.
  - intros d q -> Hq. destruct (round_nearest d q Hq) as (n & Hn & Hnear).
    exists n. now rewrite Hn.
  - destruct (WazeTravelTimeData.duration (WazeTravelTime._waze_data self));
      split; intros H; try reflexivity; discriminate.
  - intros d ->. reflexivity.
Qed.

Lemma C9_witness :
  exists n,
    WazeTravelTime.native_value
      (WazeTravelTime.set_waze_data
         (commit "Route B" 8.5%float 9.0%float (Scenario.fresh None None "metric"))
         tracker_sensor) = Value (Some n) /\
    PyNum.nearest_integer (4785074604081152 # 562949953421312) n.
Proof.
  exact (proj1 (proj2 (C9_published_state
           (WazeTravelTime.set_waze_data
              (commit "Route B" 8.5%float 9.0%float (Scenario.fresh None None "metric"))
              tracker_sensor)))
           8.5%float (4785074604081152 # 562949953421312) eq_refl eq_refl).
Defined.

(* ===================================================================== *)
(** ** Further properties of [WazeTravelTimeData.update] *)

Lemma request_commit (k : string) (dur dist : float) (self : WazeTravelTimeData.t) :
  request (commit k dur dist self) = request self.
Proof. reflexivity. Qed.

Lemma candidates_commit (k : string) (dur dist : float) (self : WazeTravelTimeData.t) (rs : Routes) :
  candidates (commit k dur dist self) rs = candidates self rs.
Proof. reflexivity. Qed.

Lemma commit_commit (k k' : string) (dur dist dur' dist' : float) (self : WazeTravelTimeData.t) :
  commit k dur dist (commit k' dur' dist' self) = commit k dur dist self.
Proof. reflexivity. Qed.

(** The shape of every result of [finish]: the object is kept or
    committed, and the exception is the engine's unless a handler took
    it. *)
Lemma run_update_exception (engine : RoutingEngine) (self : WazeTravelTimeData.t) (e : PyExc) :
  snd (WazeTravelTimeData.run_update engine self) = Some e ->
  (request self = None /\ e = KeyError /\
   WazeTravelTimeData.run_update engine self = (self, [], Some KeyError)) \/
  (exists r,
      request self = Some r /\
      snd (routing_call engine r) = Raises e /\
      e <> KeyError /\ (forall m, e <> WRCError m) /\
      WazeTravelTimeData.run_update engine self = (self, fst (routing_call engine r), Some e)).
Proof.
  destruct (request self) as [r|] eqn:Hr.
  - rewrite (run_update_request engine self r Hr).
    destruct (snd (routing_call engine r)) as [rs|e'] eqn:Ho; simpl.
    + destruct (candidates self rs) as [|[k [dur dist]] rest]; discriminate.
    + intros H. right. exists r.
      destruct e'; simpl in H; try discriminate; injection H as <-;
        (split; [reflexivity|]); (split; [exact Ho|]); (split; [discriminate|]);
        (split; [intros m; discriminate | reflexivity]).
  - rewrite (run_update_no_request engine self Hr). simpl.
    destruct (WazeTravelTimeData.origin self); [|discriminate].
    destruct (WazeTravelTimeData.destination self); [|discriminate].
    intros H; injection H as <-. left. auto.
Qed.

(** X1. With both endpoints set, an option that [update] reads with
    [options[key]] and that is missing makes it raise [KeyError]: the
    lookups stand before the [try], so the handler does not take it;
    the engine is not called, nothing is logged, the object stays. *)
Theorem update_missing_option_raises
    (engine : RoutingEngine) (self : WazeTravelTimeData.t) (o d : string) :
  WazeTravelTimeData.origin self = Some o ->
  WazeTravelTimeData.destination self = Some d ->
  CONF_REALTIME (options (WazeTravelTimeData.config_entry self)) = None \/
  CONF_VEHICLE_TYPE (options (WazeTravelTimeData.config_entry self)) = None \/
  CONF_AVOID_TOLL_ROADS (options (WazeTravelTimeData.config_entry self)) = None \/
  CONF_AVOID_SUBSCRIPTION_ROADS (options (WazeTravelTimeData.config_entry self)) = None \/
  CONF_AVOID_FERRIES (options (WazeTravelTimeData.config_entry self)) = None \/
  CONF_UNITS (options (WazeTravelTimeData.config_entry self)) = None ->
  WazeTravelTimeData.run_update engine self = (self, [], Some KeyError).
Proof.
  intros Ho Hd Hmiss.
  assert (Hr : request self = None).
  { unfold request. rewrite Ho, Hd.
    destruct (CONF_REALTIME _); [|reflexivity].
    destruct (CONF_VEHICLE_TYPE _); [|reflexivity].
    destruct (CONF_AVOID_TOLL_ROADS _); [|reflexivity].
    destruct (CONF_AVOID_SUBSCRIPTION_ROADS _); [|reflexivity].
    destruct (CONF_AVOID_FERRIES _); [|reflexivity].
    destruct (CONF_UNITS _); [|reflexivity].
    destruct Hmiss as [H|[H|[H|[H|[H|H]]]]]; discriminate. }
  rewrite (run_update_no_request engine self Hr), Ho, Hd. reflexivity.
Qed.

Lemma update_missing_option_raises_witness :
  WazeTravelTimeData.run_update Scenario.engine
    (WazeTravelTimeData.__init__ (Some "52.37,4.89") (Some "51.92,4.48") "EU"
       {| options :=
            {| CONF_INCL_FILTER := Some "A4"; CONF_EXCL_FILTER := None;
               CONF_REALTIME := Some true; CONF_VEHICLE_TYPE := Some "car";
               CONF_AVOID_TOLL_ROADS := Some false;
               CONF_AVOID_SUBSCRIPTION_ROADS := Some false;
               CONF_AVOID_FERRIES := Some false; CONF_UNITS := None |} |}) =
  (WazeTravelTimeData.__init__ (Some "52.37,4.89") (Some "51.92,4.48") "EU"
       {| options :=
            {| CONF_INCL_FILTER := Some "A4"; CONF_EXCL_FILTER := None;
               CONF_REALTIME := Some true; CONF_VEHICLE_TYPE := Some "car";
               CONF_AVOID_TOLL_ROADS := Some false;
               CONF_AVOID_SUBSCRIPTION_ROADS := Some false;
               CONF_AVOID_FERRIES := Some false; CONF_UNITS := None |} |},
   [], Some KeyError).
Proof.
  apply (update_missing_option_raises Scenario.engine _ "52.37,4.89" "51.92,4.48");
    [reflexivity | reflexivity |].
  do 5 right. reflexivity.
Defined.

(** X2. An exception of the routing call that is neither [WRCError] nor
    [KeyError] is not caught: it comes out of [update()], after the
    calls made so far, with nothing logged and the object as it was. *)
Theorem update_other_exception_propagates
    (engine : RoutingEngine) (self : WazeTravelTimeData.t) (r : Request) (e : PyExc) :
  request self = Some r ->
  snd (routing_call engine r) = Raises e ->
  e <> KeyError ->
  (forall msg, e <> WRCError msg) ->
  WazeTravelTimeData.run_update engine self = (self, fst (routing_call engine r), Some e) /\
  existsb is_log (fst (routing_call engine r)) = false.
Proof.
  intros Hr Ho Hk Hw. rewrite (run_update_request engine self r Hr), Ho.
  destruct (routing_call_trace engine r) as (_ & _ & Hl).
  split; [|exact Hl].
  destruct e; simpl; try reflexivity.
  - contradiction.
  - now destruct (Hw msg).
Qed.

Lemma update_other_exception_propagates_witness :
  WazeTravelTimeData.run_update broken_engine (Scenario.fresh None None "metric") =
  (Scenario.fresh None None "metric", Scenario.calls, Some (OtherError "ConnectionError")).
Proof.
  apply (update_other_exception_propagates broken_engine (Scenario.fresh None None "metric")
           (scenario_request "metric") (OtherError "ConnectionError") eq_refl eq_refl).
  - discriminate.
  - intros msg. discriminate.
Defined.

(** X3. What comes out of [update()]: never a [WRCError]; a [KeyError]
    only for a missing option, before any call; anything else is the
    engine's own exception.  In each case the object is as it was. *)
Theorem update_raises_only (engine : RoutingEngine) (self : WazeTravelTimeData.t) (e : PyExc) :
  snd (WazeTravelTimeData.run_update engine self) = Some e ->
  (forall msg, e <> WRCError msg) /\
  (e = KeyError -> request self = None /\ snd (fst (WazeTravelTimeData.run_update engine self)) = []) /\
  (e <> KeyError -> exists r, request self = Some r /\ snd (routing_call engine r) = Raises e) /\
  after_update engine self = self.
Proof.
  intros H. unfold after_update.
  destruct (run_update_exception engine self e H)
    as [(Hr & -> & Hrun) | (r & Hr & Ho & Hk & Hw & Hrun)]; rewrite Hrun; simpl.
  - repeat split; try discriminate; try assumption. intros Hne. now destruct Hne.
  - repeat split; try assumption; try contradiction.
    intros _. now exists r.
Qed.

Lemma update_raises_only_witness :
  after_update broken_engine (Scenario.fresh None None "metric") =
  Scenario.fresh None None "metric".
Proof.
  apply (update_raises_only broken_engine (Scenario.fresh None None "metric")
           (OtherError "ConnectionError") eq_refl).
Defined.

Lemma filter_is_call_calls (engine : RoutingEngine) (r : Request) :
  filter is_call (fst (routing_call engine r)) = fst (routing_call engine r).
Proof.
  unfold routing_call. destruct (WazeRouteCalculator engine (req_args r)); reflexivity.
Qed.

Lemma filter_is_call_snoc_log (tr : list Event) (lvl : Level) (fmt : string) (a : list string) :
  filter is_call (tr ++ [Log lvl fmt a]) = filter is_call tr.
Proof. rewrite filter_app. simpl. apply app_nil_r. Qed.

(** X4. What [update()] sends to the engine: one constructor call with
    the stored origin, destination and region, the normalised vehicle
    type and the three avoidance options, and then, only if the
    constructor returned, one [calc_all_routes_info] on its result with
    [real_time] the realtime option.  A constructor that raises is never
    followed by a request for routes. *)
Theorem update_engine_calls
    (engine : RoutingEngine) (self : WazeTravelTimeData.t)
    (o d vt u : string) (rt toll sub fer : bool) :
  WazeTravelTimeData.origin self = Some o ->
  WazeTravelTimeData.destination self = Some d ->
  CONF_REALTIME (options (WazeTravelTimeData.config_entry self)) = Some rt ->
  CONF_VEHICLE_TYPE (options (WazeTravelTimeData.config_entry self)) = Some vt ->
  CONF_AVOID_TOLL_ROADS (options (WazeTravelTimeData.config_entry self)) = Some toll ->
  CONF_AVOID_SUBSCRIPTION_ROADS (options (WazeTravelTimeData.config_entry self)) = Some sub ->
  CONF_AVOID_FERRIES (options (WazeTravelTimeData.config_entry self)) = Some fer ->
  CONF_UNITS (options (WazeTravelTimeData.config_entry self)) = Some u ->
  let args :=
    {| start_address := o;
       end_address := d;
       wrc_region := WazeTravelTimeData.region self;
       wrc_vehicle_type := WazeTravelTimeData.normalize_vehicle_type vt;
       wrc_avoid_toll_roads := toll;
       wrc_avoid_subscription_roads := sub;
       wrc_avoid_ferries := fer |} in
  filter is_call (snd (fst (WazeTravelTimeData.run_update engine self))) =
  match WazeRouteCalculator engine args with
  | Value p => [CallWazeRouteCalculator args; CallCalcAllRoutesInfo p rt]
  | Raises _ => [CallWazeRouteCalculator args]
  end.
Proof.
  intros Ho Hd Hrt Hvt Htoll Hsub Hfer Hu args.
  assert (Hr : request self =
               Some {| req_args := args; req_real_time := rt; req_units := u |}).
  { unfold request. now rewrite Ho, Hd, Hrt, Hvt, Htoll, Hsub, Hfer, Hu. }
  rewrite (run_update_request engine self _ Hr).
  assert (Hcalls : fst (routing_call engine
                          {| req_args := args; req_real_time := rt; req_units := u |}) =
                   match WazeRouteCalculator engine args with
                   | Value p => [CallWazeRouteCalculator args; CallCalcAllRoutesInfo p rt]
                   | Raises _ => [CallWazeRouteCalculator args]
                   end).
  { unfold routing_call. simpl. destruct (WazeRouteCalculator engine args); reflexivity. }
  rewrite <- Hcalls.
  set (rq := {| req_args := args; req_real_time := rt; req_units := u |}).
  destruct (snd (routing_call engine rq)) as [rs|e]; simpl.
  - destruct (candidates self rs) as [|[k [dur dist]] rest]; simpl.
    + rewrite filter_is_call_snoc_log. apply filter_is_call_calls.
    + apply filter_is_call_calls.
  - destruct e; simpl; rewrite ?filter_is_call_snoc_log; apply filter_is_call_calls.
Qed.

Lemma update_engine_calls_witness :
  filter is_call
    (snd (fst (WazeTravelTimeData.run_update unreachable_engine
                 (Scenario.fresh None None "metric")))) =
  [CallWazeRouteCalculator Scenario.args].
Proof.
  exact (update_engine_calls unreachable_engine (Scenario.fresh None None "metric")
           "52.37,4.89" "51.92,4.48" "car" "metric" true false false false
           eq_refl eq_refl eq_refl eq_refl eq_refl eq_refl eq_refl eq_refl).
Defined.

Lemma after_update_inputs (engine : RoutingEngine) (self : WazeTravelTimeData.t) :
  same_inputs (after_update engine self) self.
Proof.
  destruct (update_reading engine self) as [_ | (k & dur & dist & H)].
  - destruct (run_update_cases engine self)
      as [[H _] | (r & rs & k & dur & dist & rest & _ & _ & _ & H)].
    + rewrite H. repeat split.
    + unfold after_update. rewrite H. repeat split.
  - rewrite H. repeat split.
Qed.

(** X5. [update()] only reads its inputs: whatever the engine does and
    however the call ends, origin, destination, region and the
    configuration entry of the object are what they were. *)
Theorem update_keeps_inputs (engine : RoutingEngine) (self : WazeTravelTimeData.t) :
  WazeTravelTimeData.origin (after_update engine self) = WazeTravelTimeData.origin self /\
  WazeTravelTimeData.destination (after_update engine self) =
  WazeTravelTimeData.destination self /\
  WazeTravelTimeData.region (after_update engine self) = WazeTravelTimeData.region self /\
  WazeTravelTimeData.config_entry (after_update engine self) =
  WazeTravelTimeData.config_entry self.
Proof.
  destruct (run_update_cases engine self)
    as [[H _] | (r & rs & k & dur & dist & rest & _ & _ & _ & H)].
  - rewrite H. repeat split.
  - unfold after_update. rewrite H. repeat split.
Qed.

Lemma run_update_same_inputs (engine : RoutingEngine) (a b : WazeTravelTimeData.t) :
  same_inputs a b ->
  snd (fst (WazeTravelTimeData.run_update engine a)) =
  snd (fst (WazeTravelTimeData.run_update engine b)) /\
  snd (WazeTravelTimeData.run_update engine a) = snd (WazeTravelTimeData.run_update engine b) /\
  (after_update engine a = a /\ after_update engine b = b \/
   exists k dur dist,
     after_update engine a = commit k dur dist a /\
     after_update engine b = commit k dur dist b).
Proof.
  intros (Ho & Hd & Hreg & Hc).
  assert (Hreq : request a = request b).
  { unfold request. now rewrite Ho, Hd, Hreg, Hc. }
  assert (Hcand : forall rs, candidates a rs = candidates b rs).
  { intros rs. unfold candidates, incl_filter_of, excl_filter_of. now rewrite Hc. }
  unfold after_update.
  destruct (request b) as [r|] eqn:Hr.
  - rewrite (run_update_request engine a r Hreq), (run_update_request engine b r Hr).
    destruct (snd (routing_call engine r)) as [rs|e]; simpl.
    + rewrite Hcand. destruct (candidates b rs) as [|[k [dur dist]] rest]; simpl.
      * repeat split. now left.
      * repeat split. right. now exists k, dur, (stored_distance (req_units r) dist).
    + destruct e; simpl; repeat split; now left.
  - rewrite (run_update_no_request engine a Hreq), (run_update_no_request engine b Hr).
    simpl. rewrite Ho, Hd. repeat split. now left.
Qed.

(** X6. Refreshing twice against the same answers is refreshing once:
    the second [update()] leaves the object of the first as it is, makes
    the same calls, logs the same records and ends the same way. *)
Theorem update_idempotent (engine : RoutingEngine) (self : WazeTravelTimeData.t) :
  WazeTravelTimeData.run_update engine (after_update engine self) =
  (after_update engine self,
   snd (fst (WazeTravelTimeData.run_update engine self)),
   snd (WazeTravelTimeData.run_update engine self)).
Proof.
  destruct (run_update_same_inputs engine (after_update engine self) self
              (after_update_inputs engine self)) as (Ht & Hx & Hs).
  rewrite <- Ht, <- Hx.
  assert (Hfix : after_update engine (after_update engine self) = after_update engine self).
  { destruct Hs as [[H _] | (k & dur & dist & H1 & H2)]; [exact H|].
    rewrite H1, H2. apply commit_commit. }
  unfold after_update in Hfix at 1.
  destruct (WazeTravelTimeData.run_update engine (after_update engine self)) as [[s t] x].
  simpl in *. now rewrite Hfix.
Qed.

Lemma reading_set_update (engine : RoutingEngine) (self : WazeTravelTimeData.t) :
  WazeTravelTimeData.duration self <> None ->
  WazeTravelTimeData.duration (after_update engine self) <> None.
Proof.
  intros H. destruct (update_reading engine self) as [(Hd & _) | (k & dur & dist & Hc)].
  - now rewrite Hd.
  - rewrite Hc. discriminate.
Qed.

(** X7. A reading is never taken back: once a duration is stored, it
    stays stored through every later [update()], whatever the engines
    answer, so the sensor does not return to the unknown state. *)
Theorem reading_never_reset
    (engines : list RoutingEngine) (self : WazeTravelTimeData.t) (sensor : WazeTravelTime.t) :
  WazeTravelTimeData.duration self <> None ->
  WazeTravelTimeData.duration (after_updates engines self) <> None /\
  WazeTravelTime.extra_state_attributes
    (WazeTravelTime.set_waze_data (after_updates engines self) sensor) <> None.
Proof.
  intros H.
  assert (Hd : WazeTravelTimeData.duration (after_updates engines self) <> None).
  { revert self H. unfold after_updates.
    induction engines as [|e engines IH]; intros self H; simpl; [exact H|].
    apply IH. now apply reading_set_update. }
  split; [exact Hd|].
  unfold WazeTravelTime.extra_state_attributes. simpl.
  destruct (WazeTravelTimeData.duration (after_updates engines self)); [discriminate | contradiction].
Qed.

Lemma reading_never_reset_witness :
  WazeTravelTimeData.duration
    (after_updates [Scenario.failing_engine; broken_engine; unreachable_engine]
       (after_update Scenario.engine (Scenario.fresh None None "metric"))) <> None.
Proof.
  apply (reading_never_reset [Scenario.failing_engine; broken_engine; unreachable_engine]
           (after_update Scenario.engine (Scenario.fresh None None "metric")) tracker_sensor).
  discriminate.
Defined.

(* ===================================================================== *)
(** ** Further properties of the filters *)

Lemma filter_comm {A : Type} (p q : A -> bool) (l : list A) :
  filter q (filter p l) = filter p (filter q l).
Proof.
  rewrite !filter_filter. apply filter_ext. intros a. apply andb_comm.
Qed.

(** X8. The two filters commute: excluding first and including
    afterwards leaves the same routes, in the same order, as the order
    the code uses. *)
Theorem filters_commute (incl excl : option string) (rs : Routes) :
  WazeTravelTimeData.apply_excl_filter excl (WazeTravelTimeData.apply_incl_filter incl rs) =
  WazeTravelTimeData.apply_incl_filter incl (WazeTravelTimeData.apply_excl_filter excl rs).
Proof.
  destruct incl as [fi|], excl as [fe|]; simpl; try reflexivity.
  apply filter_comm.
Qed.

Lemma NoDup_keys_filter {V : Type} (p : string * V -> bool) (l : list (string * V)) :
  NoDup (map fst l) -> NoDup (map fst (filter p l)).
Proof.
  induction l as [|[k v] l IH]; simpl; intros H; [constructor|].
  inversion H as [|? ? Hk Hl]; subst.
  destruct (p (k, v)); simpl; [|now apply IH].
  constructor; [|now apply IH].
  intros Hin. apply Hk. apply in_map_iff in Hin as ([k' v'] & Hf & Hin). simpl in Hf. subst k'.
  apply filter_In in Hin as [Hin _]. apply in_map_iff. now exists (k, v').
Qed.

(** X9. Filtering only drops entries: a route is left exactly when the
    engine returned it and its name passes both filters, and distinct
    names stay distinct, so the filtered mapping is again a mapping. *)
Theorem candidates_membership (self : WazeTravelTimeData.t) (rs : Routes) :
  (forall kv,
      In kv (candidates self rs) <->
      In kv rs /\ keeps (incl_filter_of self) (excl_filter_of self) kv = true) /\
  (NoDup (map fst rs) -> NoDup (map fst (candidates self rs))).
Proof.
  unfold candidates. rewrite filter_routes_keeps. split.
  - intros kv. apply filter_In.
  - apply NoDup_keys_filter.
Qed.

Lemma candidates_membership_witness :
  NoDup (map fst (candidates (Scenario.fresh (Some "route") (Some "a") "metric") Scenario.routes)).
Proof.
  apply (proj2 (candidates_membership (Scenario.fresh (Some "route") (Some "a") "metric")
                  Scenario.routes)).
  repeat constructor; simpl; intuition discriminate.
Defined.

Lemma dict_lookup_In_NoDup {V : Type} (d : list (string * V)) (k : string) (v : V) :
  NoDup (map fst d) -> In (k, v) d -> dict_lookup d k = Some v.
Proof.
  induction d as [|[k' v'] d IH]; simpl; intros Hnd Hin; [contradiction|].
  inversion Hnd as [|? ? Hk Hd]; subst.
  destruct Hin as [Heq | Hin].
  - injection Heq as -> ->. now rewrite String.eqb_refl.
  - destruct (String.eqb_spec k' k) as [->|Hne].
    + exfalso. apply Hk. apply in_map_iff. now exists (k, v).
    + now apply IH.
Qed.

(** X10. What is committed is what the engine said about that route:
    when the names returned are distinct, as the keys of a mapping are,
    the stored duration is the duration the returned mapping holds
    under the committed name, and the stored distance is that entry's
    distance in the configured unit. *)
Theorem committed_values_from_engine
    (engine : RoutingEngine) (self : WazeTravelTimeData.t) (r : Request) (rs : Routes) :
  request self = Some r ->
  snd (routing_call engine r) = Value rs ->
  NoDup (map fst rs) ->
  committed (WazeTravelTimeData.run_update engine self) ->
  exists k dur dist,
    WazeTravelTimeData.route (after_update engine self) = Some k /\
    dict_lookup rs k = Some (dur, dist) /\
    WazeTravelTimeData.duration (after_update engine self) = Some dur /\
    WazeTravelTimeData.distance (after_update engine self) =
    Some (stored_distance (req_units r) dist).
Proof.
  intros Hr Ho Hnd Hc.
  apply committed_iff in Hc as (r' & rs' & k & [dur dist] & rest & Hr' & Ho' & Hk).
  rewrite Hr in Hr'. injection Hr' as <-. rewrite Ho in Ho'. injection Ho' as <-.
  exists k, dur, dist. unfold after_update.
  rewrite (update_commits_first engine self r rs k dur dist rest Hr Ho Hk). simpl.
  repeat split.
  apply dict_lookup_In_NoDup; [exact Hnd|].
  destruct (candidates_head self rs k (dur, dist) rest Hk) as (_ & _ & pre & post & -> & _).
  apply in_or_app. right. now left.
Qed.

Lemma committed_values_from_engine_witness :
  exists k dur dist,
    WazeTravelTimeData.route
      (after_update Scenario.engine (Scenario.fresh (Some "b") None "imperial")) = Some k /\
    dict_lookup Scenario.routes k = Some (dur, dist) /\
    WazeTravelTimeData.duration
      (after_update Scenario.engine (Scenario.fresh (Some "b") None "imperial")) = Some dur /\
    WazeTravelTimeData.distance
      (after_update Scenario.engine (Scenario.fresh (Some "b") None "imperial")) =
    Some (stored_distance "imperial" dist).
Proof.
  apply (committed_values_from_engine Scenario.engine
           (Scenario.fresh (Some "b") None "imperial") (scenario_request "imperial")
           Scenario.routes eq_refl eq_refl).
  - repeat constructor; simpl; intuition discriminate.
  - repeat split.
Defined.

Lemma same_ignoring_case_lower (a b : string) :
  PyStr.is_ascii a = true -> PyStr.is_ascii b = true ->
  PyStr.same_ignoring_case a b = true -> PyStr.lower a = PyStr.lower b.
Proof.
  intros Ha Hb H. rewrite (lower_ascii_string a Ha), (lower_ascii_string b Hb).
  now apply ascii_lower_same.
Qed.

(** X11. Among ASCII strings the filters ignore case on both sides: two
    filters that differ only in the case of their letters keep the same
    routes, and two names that differ only so are kept or dropped
    alike. *)
Theorem filters_ignore_case :
  (forall f f' k,
      PyStr.is_ascii f = true -> PyStr.is_ascii f' = true ->
      PyStr.same_ignoring_case f f' = true ->
      PyStr.icontains f k = PyStr.icontains f' k) /\
  (forall f k k',
      PyStr.is_ascii k = true -> PyStr.is_ascii k' = true ->
      PyStr.same_ignoring_case k k' = true ->
      PyStr.icontains f k = PyStr.icontains f k') /\
  (forall f f' rs,
      PyStr.is_ascii f = true -> PyStr.is_ascii f' = true ->
      PyStr.same_ignoring_case f f' = true ->
      WazeTravelTimeData.apply_incl_filter (Some f) rs =
      WazeTravelTimeData.apply_incl_filter (Some f') rs /\
      WazeTravelTimeData.apply_excl_filter (Some f) rs =
      WazeTravelTimeData.apply_excl_filter (Some f') rs).
Proof.
  assert (Hf : forall f f' k,
             PyStr.is_ascii f = true -> PyStr.is_ascii f' = true ->
             PyStr.same_ignoring_case f f' = true ->
             PyStr.icontains f k = PyStr.icontains f' k).
  { intros f f' k Ha Hb H. unfold PyStr.icontains.
    now rewrite (same_ignoring_case_lower f f' Ha Hb H). }
  split; [exact Hf | split].
  - intros f k k' Ha Hb H. unfold PyStr.icontains.
    now rewrite (same_ignoring_case_lower k k' Ha Hb H).
  - intros f f' rs Ha Hb H. simpl. split; apply filter_ext; intros kv.
    + apply Hf; assumption.
    + f_equal. apply Hf; assumption.
Qed.

Lemma filters_ignore_case_witness :
  WazeTravelTimeData.apply_incl_filter (Some "route b") Scenario.routes =
  WazeTravelTimeData.apply_incl_filter (Some "ROUTE B") Scenario.routes /\
  WazeTravelTimeData.apply_excl_filter (Some "route b") Scenario.routes =
  WazeTravelTimeData.apply_excl_filter (Some "ROUTE B") Scenario.routes.
Proof.
  apply (proj2 (proj2 filters_ignore_case) "route b" "ROUTE B" Scenario.routes);
    reflexivity.
Defined.

Lemma string_app_assoc (a b c : string) : ((a ++ b) ++ c = a ++ (b ++ c))%string.
Proof. induction a as [|x a IH]; simpl; [reflexivity | now rewrite IH]. Qed.

Lemma Substring_trans (a b c : string) :
  PyStr.Substring a b -> PyStr.Substring b c -> PyStr.Substring a c.
Proof.
  intros (p & q & ->) (p' & q' & ->). exists (p' ++ p), (q ++ q').
  now rewrite !string_app_assoc.
Qed.

(** X12. An exclude filter whose lower case occurs in the lower case of
    the include filter contradicts it: every name the include filter
    keeps is then excluded, no candidate is ever left, and no [update()]
    commits, so the object stays as it is under every engine. *)
Theorem contradictory_filters_never_commit
    (self : WazeTravelTimeData.t) (fi fe : string) :
  incl_filter_of self = Some fi ->
  excl_filter_of self = Some fe ->
  PyStr.Substring (PyStr.lower fe) (PyStr.lower fi) ->
  (forall rs, candidates self rs = []) /\
  (forall engine, after_update engine self = self).
Proof.
  intros Hi He Hsub.
  assert (Hk : forall rs, candidates self rs = []).
  { intros rs. destruct (candidates self rs) as [|[k v] rest] eqn:Hc; [reflexivity|].
    destruct (candidates_head self rs k v rest Hc) as (Hin & Hex & _).
    specialize (Hin fi Hi). specialize (Hex fe He).
    unfold PyStr.icontains in Hin, Hex. apply contains_spec in Hin.
    assert (Hc' : PyStr.contains (PyStr.lower fe) (PyStr.lower k) = true).
    { apply contains_spec. exact (Substring_trans _ _ _ Hsub Hin). }
    congruence. }
  split; [exact Hk|].
  intros engine.
  destruct (run_update_cases engine self)
    as [[H _] | (r & rs & k & dur & dist & rest & _ & _ & Hc & _)]; [exact H|].
  rewrite Hk in Hc. discriminate.
Qed.

Lemma contradictory_filters_never_commit_witness :
  after_update Scenario.engine (Scenario.fresh (Some "Route A") (Some "route") "metric") =
  Scenario.fresh (Some "Route A") (Some "route") "metric".
Proof.
  apply (proj2 (contradictory_filters_never_commit
                  (Scenario.fresh (Some "Route A") (Some "route") "metric")
                  "Route A" "route" eq_refl eq_refl
                  (ex_intro _ EmptyString (ex_intro _ " a" eq_refl)))).
Defined.

Lemma upper_upper_ascii (c : ascii) :
  PyStr.upper_ascii (PyStr.upper_ascii c) = PyStr.upper_ascii c.
Proof. destruct c as [[] [] [] [] [] [] [] []]; reflexivity. Qed.

Lemma ascii_upper_same (a b : string) :
  PyStr.ascii_upper a = PyStr.ascii_upper b <-> PyStr.same_ignoring_case a b = true.
Proof.
  revert b. induction a as [|x a IH]; intros [|y b]; simpl;
    try (split; [discriminate | discriminate]).
  - split; reflexivity.
  - rewrite andb_true_iff, <- IH, <- upper_ascii_same_letter. split.
    + intros H. injection H as Hc Hs. now split.
    + intros [-> ->]. reflexivity.
Qed.

Lemma ascii_upper_idempotent (s : string) :
  PyStr.ascii_upper (PyStr.ascii_upper s) = PyStr.ascii_upper s.
Proof.
  induction s as [|c s IH]; simpl; [reflexivity|]. now rewrite upper_upper_ascii, IH.
Qed.

Lemma ascii_upper_is_ascii (s : string) :
  PyStr.is_ascii s = true -> PyStr.is_ascii (PyStr.ascii_upper s) = true.
Proof.
  induction s as [|c s IH]; simpl; [reflexivity|].
  intros H. apply andb_true_iff in H as [Hc Hs]. rewrite (IH Hs), andb_true_r.
  revert Hc. destruct c as [[] [] [] [] [] [] [] []]; intros Hc;
    try (vm_compute in Hc; discriminate Hc); reflexivity.
Qed.

Lemma ascii_upper_no_lower_case (s : string) :
  PyStr.no_lower_case (PyStr.ascii_upper s) = true.
Proof.
  induction s as [|c s IH]; simpl; [reflexivity|]. rewrite IH, andb_true_r.
  destruct c as [[] [] [] [] [] [] [] []]; reflexivity.
Qed.

(** X13. The vehicle type sent to the engine, for an ASCII option: "car"
    in any spelling is sent as the empty string; anything else is sent
    as the same letters in capitals, with no lower-case letter left.
    So the engine never receives "CAR", and a type that was already
    normalised is sent as it is. *)
Theorem vehicle_type_normalised (vehicle_type : string) :
  PyStr.is_ascii vehicle_type = true ->
  (PyStr.same_ignoring_case vehicle_type "car" = true ->
   WazeTravelTimeData.normalize_vehicle_type vehicle_type = EmptyString) /\
  (PyStr.same_ignoring_case vehicle_type "car" = false ->
   PyStr.same_ignoring_case (WazeTravelTimeData.normalize_vehicle_type vehicle_type)
     vehicle_type = true /\
   PyStr.no_lower_case (WazeTravelTimeData.normalize_vehicle_type vehicle_type) = true) /\
  WazeTravelTimeData.normalize_vehicle_type vehicle_type <> "CAR" /\
  WazeTravelTimeData.normalize_vehicle_type
    (WazeTravelTimeData.normalize_vehicle_type vehicle_type) =
  WazeTravelTimeData.normalize_vehicle_type vehicle_type.
Proof.
  intros Ha. unfold WazeTravelTimeData.normalize_vehicle_type.
  rewrite (upper_ascii_string vehicle_type Ha).
  assert (Hcar : PyStr.ascii_upper vehicle_type = "CAR" <->
                 PyStr.same_ignoring_case vehicle_type "car" = true).
  { exact (ascii_upper_same vehicle_type "car"). }
  destruct (String.eqb_spec (PyStr.ascii_upper vehicle_type) "CAR") as [E|E].
  - apply Hcar in E. split; [reflexivity|]. split; [intros H; congruence|].
    split; [discriminate | reflexivity].
  - split; [intros H; apply Hcar in H; contradiction|].
    split; [|split; [exact E|]].
    + intros _. split; [|apply ascii_upper_no_lower_case].
      apply ascii_upper_same. apply ascii_upper_idempotent.
    + rewrite (upper_ascii_string _ (ascii_upper_is_ascii _ Ha)), ascii_upper_idempotent.
      destruct (String.eqb_spec (PyStr.ascii_upper vehicle_type) "CAR") as [E'|_];
        [contradiction | reflexivity].
Qed.

Lemma vehicle_type_normalised_witness :
  PyStr.same_ignoring_case (WazeTravelTimeData.normalize_vehicle_type "Taxi") "Taxi" = true /\
  PyStr.no_lower_case (WazeTravelTimeData.normalize_vehicle_type "Taxi") = true.
Proof.
  apply (proj1 (proj2 (vehicle_type_normalised "Taxi" eq_refl))). reflexivity.
Defined.

(* ===================================================================== *)
(** ** Further properties of the sensor *)

Lemma call_update_frame (engine : RoutingEngine) (s : WazeTravelTime.t) (t : list Event) :
  call_method WazeTravelTime._waze_data WazeTravelTime.set_waze_data
    (WazeTravelTimeData.update engine) s t =
  (match snd (WazeTravelTimeData.run_update engine (WazeTravelTime._waze_data s)) with
   | None => Normal tt
   | Some e => Raise e
   end,
   WazeTravelTime.set_waze_data (after_update engine (WazeTravelTime._waze_data s)) s,
   (t ++ snd (fst (WazeTravelTimeData.run_update engine (WazeTravelTime._waze_data s))))%list).
Proof.
  unfold call_method, after_update, WazeTravelTimeData.run_update. rewrite update_frame.
  destruct (WazeTravelTimeData.update engine (WazeTravelTime._waze_data s) [])
    as [[[u| |e] s'] tr]; reflexivity.
Qed.

(** The sensor's [update] is the resolution of the two endpoints
    followed by the refresher's [update]. *)
Lemma sensor_run_update (hass : HomeAssistant) (engine : RoutingEngine) (self : WazeTravelTime.t) :
  WazeTravelTime.run_update hass engine self =
  match resolve_endpoint hass (WazeTravelTime._origin_entity_id self)
          (WazeTravelTimeData.origin (WazeTravelTime._waze_data self)) with
  | Raises e => (self, [fetching self], Some e)
  | Value o =>
      match resolve_endpoint hass (WazeTravelTime._destination_entity_id self)
              (WazeTravelTimeData.destination (WazeTravelTime._waze_data self)) with
      | Raises e =>
          (WazeTravelTime.set_waze_data
             (WazeTravelTimeData.set_origin o (WazeTravelTime._waze_data self)) self,
           [fetching self], Some e)
      | Value d =>
          (WazeTravelTime.set_waze_data (after_update engine (with_endpoints o d self)) self,
           fetching self :: snd (fst (WazeTravelTimeData.run_update engine (with_endpoints o d self))),
           snd (WazeTravelTimeData.run_update engine (with_endpoints o d self)))
      end
  end.
Proof.
  destruct self as [uid data name icon oid did].
  destruct data as [o d reg cfg dur dist rt].
  unfold WazeTravelTime.run_update, WazeTravelTime.update, resolve_endpoint, fetching,
    with_endpoints, WazeTravelTime.get_state, WazeTravelTime.assign_origin,
    WazeTravelTime.assign_destination.
  unfold bind, get_self, log, emit, modify, ret, raise. simpl.
  destruct oid as [oid|]; simpl.
  - destruct (find_coordinates hass oid) as [oc|]; simpl.
    + destruct did as [did|]; simpl.
      * destruct (find_coordinates hass did) as [dc|]; simpl.
        -- rewrite call_update_frame. simpl.
           destruct (snd (WazeTravelTimeData.run_update engine _)); reflexivity.
        -- destruct (states_get hass did) as [st|]; simpl; [|reflexivity].
           rewrite call_update_frame. simpl.
           destruct (snd (WazeTravelTimeData.run_update engine _)); reflexivity.
      * rewrite call_update_frame. simpl.
        destruct (snd (WazeTravelTimeData.run_update engine _)); reflexivity.
    + destruct (states_get hass oid) as [ost|]; simpl; [|reflexivity].
      destruct did as [did|]; simpl.
      * destruct (find_coordinates hass did) as [dc|]; simpl.
        -- rewrite call_update_frame. simpl.
           destruct (snd (WazeTravelTimeData.run_update engine _)); reflexivity.
        -- destruct (states_get hass did) as [st|]; simpl; [|reflexivity].
           rewrite call_update_frame. simpl.
           destruct (snd (WazeTravelTimeData.run_update engine _)); reflexivity.
      * rewrite call_update_frame. simpl.
        destruct (snd (WazeTravelTimeData.run_update engine _)); reflexivity.
  - destruct did as [did|]; simpl.
    + destruct (find_coordinates hass did) as [dc|]; simpl.
      * rewrite call_update_frame. simpl.
        destruct (snd (WazeTravelTimeData.run_update engine _)); reflexivity.
      * destruct (states_get hass did) as [st|]; simpl; [|reflexivity].
        rewrite call_update_frame. simpl.
        destruct (snd (WazeTravelTimeData.run_update engine _)); reflexivity.
    + rewrite call_update_frame. simpl.
      destruct (snd (WazeTravelTimeData.run_update engine _)); reflexivity.
Qed.

(** X14. The sensor's refresh is the refresher's refresh on the resolved
    endpoints: when both endpoints resolve, the sensor's [update] assigns
    them, logs its debug record and then does exactly what
    [WazeTravelTimeData.update] does on that object: the same calls and
    log records follow, and the same exception, if any, comes out. *)
Theorem sensor_update_composes
    (hass : HomeAssistant) (engine : RoutingEngine) (self : WazeTravelTime.t)
    (o d : option string) :
  resolve_endpoint hass (WazeTravelTime._origin_entity_id self)
    (WazeTravelTimeData.origin (WazeTravelTime._waze_data self)) = Value o ->
  resolve_endpoint hass (WazeTravelTime._destination_entity_id self)
    (WazeTravelTimeData.destination (WazeTravelTime._waze_data self)) = Value d ->
  WazeTravelTime.run_update hass engine self =
  (WazeTravelTime.set_waze_data (after_update engine (with_endpoints o d self)) self,
   fetching self :: snd (fst (WazeTravelTimeData.run_update engine (with_endpoints o d self))),
   snd (WazeTravelTimeData.run_update engine (with_endpoints o d self))).
Proof.
  intros Ho Hd. rewrite sensor_run_update, Ho, Hd. reflexivity.
Qed.

Lemma sensor_update_composes_witness :
  WazeTravelTime.run_update tracking_hass Scenario.engine entity_sensor =
  (WazeTravelTime.set_waze_data
     (commit "Route A" 10.0%float 12.0%float
        (with_endpoints (Some "52.37,4.89") (Some "Stationsplein 1") entity_sensor))
     entity_sensor,
   [ Log DEBUG "Fetching Route for %s" ["Commute"];
     CallWazeRouteCalculator
       {| start_address := "52.37,4.89"; end_address := "Stationsplein 1";
          wrc_region := "EU"; wrc_vehicle_type := EmptyString;
          wrc_avoid_toll_roads := false; wrc_avoid_subscription_roads := false;
          wrc_avoid_ferries := false |};
     CallCalcAllRoutesInfo
       {| start_address := "52.37,4.89"; end_address := "Stationsplein 1";
          wrc_region := "EU"; wrc_vehicle_type := EmptyString;
          wrc_avoid_toll_roads := false; wrc_avoid_subscription_roads := false;
          wrc_avoid_ferries := false |} true ],
   None).
Proof.
  exact (sensor_update_composes tracking_hass Scenario.engine entity_sensor
           (Some "52.37,4.89") (Some "Stationsplein 1") eq_refl eq_refl).
Defined.

(** X15. An entity reference that has neither coordinates nor a state
    ends the sensor's [update] with [AttributeError] before the
    refresher runs: the routing engine is not called and the reading
    stays.  For the origin the sensor is left as it was; for the
    destination the origin resolved just before is already assigned. *)
Theorem sensor_update_missing_entity
    (hass : HomeAssistant) (engine : RoutingEngine) (self : WazeTravelTime.t) (id : string) :
  find_coordinates hass id = None ->
  states_get hass id = None ->
  (WazeTravelTime._origin_entity_id self = Some id ->
   WazeTravelTime.run_update hass engine self = (self, [fetching self], Some AttributeError)) /\
  (WazeTravelTime._destination_entity_id self = Some id ->
   forall o,
     resolve_endpoint hass (WazeTravelTime._origin_entity_id self)
       (WazeTravelTimeData.origin (WazeTravelTime._waze_data self)) = Value o ->
     WazeTravelTime.run_update hass engine self =
     (WazeTravelTime.set_waze_data
        (WazeTravelTimeData.set_origin o (WazeTravelTime._waze_data self)) self,
      [fetching self], Some AttributeError)).
Proof.
  intros Hc Hs. split.
  - intros Hid. rewrite sensor_run_update, Hid. simpl. now rewrite Hc, Hs.
  - intros Hid o Ho. rewrite sensor_run_update, Ho, Hid. simpl. now rewrite Hc, Hs.
Qed.

Lemma sensor_update_missing_entity_witness :
  WazeTravelTime.run_update empty_hass Scenario.engine tracker_sensor =
  (tracker_sensor, [Log DEBUG "Fetching Route for %s" ["Waze Travel Time"]], Some AttributeError).
Proof.
  exact (proj1 (sensor_update_missing_entity empty_hass Scenario.engine tracker_sensor
                  "device_tracker.phone" eq_refl eq_refl) eq_refl).
Defined.

(** X16. The sensor's [update] writes nothing but the refresher: the
    unique id, the name, the icon and the two entity references are what
    [__init__] made them, and the refresher keeps its region and its
    configuration entry, whatever the host and the engine answer. *)
Theorem sensor_update_keeps_identity
    (hass : HomeAssistant) (engine : RoutingEngine) (self : WazeTravelTime.t) :
  same_identity (fst (fst (WazeTravelTime.run_update hass engine self))) self /\
  WazeTravelTimeData.region
    (WazeTravelTime._waze_data (fst (fst (WazeTravelTime.run_update hass engine self)))) =
  WazeTravelTimeData.region (WazeTravelTime._waze_data self) /\
  WazeTravelTimeData.config_entry
    (WazeTravelTime._waze_data (fst (fst (WazeTravelTime.run_update hass engine self)))) =
  WazeTravelTimeData.config_entry (WazeTravelTime._waze_data self).
Proof.
  rewrite sensor_run_update.
  destruct (resolve_endpoint hass (WazeTravelTime._origin_entity_id self) _) as [o|e].
  - destruct (resolve_endpoint hass (WazeTravelTime._destination_entity_id self) _) as [d|e].
    + simpl. destruct (after_update_inputs engine (with_endpoints o d self)) as (_ & _ & Hr & Hc).
      rewrite Hr, Hc. repeat split.
    + repeat split.
  - repeat split.
Qed.

Lemma run_update_called (engine : RoutingEngine) (self : WazeTravelTimeData.t) (r : Request) :
  request self = Some r ->
  existsb is_call (snd (fst (WazeTravelTimeData.run_update engine self))) = true.
Proof.
  intros Hr. rewrite (run_update_request engine self r Hr).
  destruct (routing_call_trace engine r) as (_ & Hc & _).
  destruct (snd (routing_call engine r)) as [rs|e]; simpl.
  - destruct (candidates self rs) as [|[k [dur dist]] rest]; simpl;
      rewrite ?existsb_app, Hc; reflexivity.
  - destruct e; simpl; rewrite ?existsb_app, Hc; reflexivity.
Qed.

Lemma resolve_endpoint_known (hass : HomeAssistant) (entity_id current o : option string) :
  entity_id <> None \/ current <> None ->
  resolve_endpoint hass entity_id current = Value o ->
  o <> None.
Proof.
  unfold resolve_endpoint. intros Hk H.
  destruct entity_id as [id|].
  - destruct (find_coordinates hass id).
    + injection H as <-. discriminate.
    + destruct (states_get hass id); [injection H as <-|]; discriminate.
  - injection H as <-. destruct Hk as [Hk|Hk]; [now destruct Hk | exact Hk].
Qed.

(** X17. A sensor made by [__init__] never skips a refresh silently.
    [__init__] leaves every endpoint either as an entity reference or
    stored in the refresher; [update] keeps it so; and from such a
    state every [update] that ends without an exception has both
    endpoints stored and has called the routing engine. *)
Theorem sensor_never_skips :
  (forall fullmatch unique_id name origin destination waze_data,
      endpoints_known
        (fst (WazeTravelTime.__init__ fullmatch unique_id name origin destination waze_data))) /\
  (forall hass engine self,
      endpoints_known self ->
      endpoints_known (fst (fst (WazeTravelTime.run_update hass engine self)))) /\
  (forall hass engine self,
      endpoints_known self ->
      snd (WazeTravelTime.run_update hass engine self) = None ->
      WazeTravelTimeData.origin
        (WazeTravelTime._waze_data (fst (fst (WazeTravelTime.run_update hass engine self)))) <>
      None /\
      WazeTravelTimeData.destination
        (WazeTravelTime._waze_data (fst (fst (WazeTravelTime.run_update hass engine self)))) <>
      None /\
      existsb is_call (snd (fst (WazeTravelTime.run_update hass engine self))) = true).
Proof.
  split; [|split].
  - intros fullmatch uid name origin destination waze_data.
    unfold WazeTravelTime.__init__, endpoints_known.
    destruct (fullmatch origin), (fullmatch destination); simpl;
      split; solve [left; discriminate | right; discriminate].
  - intros hass engine self [Ho Hd]. rewrite sensor_run_update.
    destruct (resolve_endpoint hass (WazeTravelTime._origin_entity_id self) _) as [o|e] eqn:Eo.
    + pose proof (resolve_endpoint_known _ _ _ _ Ho Eo) as Hko.
      destruct (resolve_endpoint hass (WazeTravelTime._destination_entity_id self) _)
        as [d|e] eqn:Ed.
      * pose proof (resolve_endpoint_known _ _ _ _ Hd Ed) as Hkd.
        destruct (after_update_inputs engine (with_endpoints o d self)) as (Hio & Hid & _).
        unfold endpoints_known. simpl. rewrite Hio, Hid. simpl. split; right; assumption.
      * unfold endpoints_known. simpl. split; [right; exact Hko | exact Hd].
    + split; assumption.
  - intros hass engine self [Ho Hd]. rewrite sensor_run_update.
    destruct (resolve_endpoint hass (WazeTravelTime._origin_entity_id self) _) as [o|e] eqn:Eo;
      [|discriminate].
    pose proof (resolve_endpoint_known _ _ _ _ Ho Eo) as Hko.
    destruct (resolve_endpoint hass (WazeTravelTime._destination_entity_id self) _)
      as [d|e] eqn:Ed; [|discriminate].
    pose proof (resolve_endpoint_known _ _ _ _ Hd Ed) as Hkd.
    simpl. intros Hx.
    destruct (after_update_inputs engine (with_endpoints o d self)) as (Hio & Hid & _).
    rewrite Hio, Hid. simpl. split; [exact Hko | split; [exact Hkd|]].
    destruct (request (with_endpoints o d self)) as [r|] eqn:Hr.
    + apply (run_update_called engine _ r Hr).
    + rewrite (run_update_no_request engine _ Hr) in Hx. simpl in Hx.
      destruct o; [|now destruct Hko]. destruct d; [|now destruct Hkd]. discriminate.
Qed.

Lemma sensor_never_skips_witness :
  existsb is_call
    (snd (fst (WazeTravelTime.run_update tracking_hass Scenario.failing_engine entity_sensor))) =
  true.
Proof.
  apply (proj2 (proj2 sensor_never_skips) tracking_hass Scenario.failing_engine entity_sensor).
  - apply (proj1 sensor_never_skips).
  - reflexivity.
Defined.

(** X18. What is published after a refresh that committed: the
    attributes carry the committed duration, distance and route
    together with the origin and the destination as they were resolved
    for this very refresh. *)
Theorem attributes_after_commit
    (hass : HomeAssistant) (engine : RoutingEngine) (self : WazeTravelTime.t)
    (o d : option string) :
  resolve_endpoint hass (WazeTravelTime._origin_entity_id self)
    (WazeTravelTimeData.origin (WazeTravelTime._waze_data self)) = Value o ->
  resolve_endpoint hass (WazeTravelTime._destination_entity_id self)
    (WazeTravelTimeData.destination (WazeTravelTime._waze_data self)) = Value d ->
  committed (WazeTravelTimeData.run_update engine (with_endpoints o d self)) ->
  exists r rs k dur dist rest,
    request (with_endpoints o d self) = Some r /\
    snd (routing_call engine r) = Value rs /\
    candidates (with_endpoints o d self) rs = (k, (dur, dist)) :: rest /\
    WazeTravelTime.extra_state_attributes
      (fst (fst (WazeTravelTime.run_update hass engine self))) =
    Some [ (ATTR_ATTRIBUTION, VStr "Powered by Waze");
           ("duration", VFloat dur);
           ("distance", VFloat (stored_distance (req_units r) dist));
           ("route", VStr k);
           ("origin", of_str o);
           ("destination", of_str d) ].
Proof.
  intros Ho Hd Hc.
  apply committed_iff in Hc as (r & rs & k & [dur dist] & rest & Hr & Hrs & Hk).
  exists r, rs, k, dur, dist, rest. repeat split; try assumption.
  rewrite sensor_run_update, Ho, Hd. simpl. unfold after_update.
  rewrite (update_commits_first engine _ r rs k dur dist rest Hr Hrs Hk). reflexivity.
Qed.

Lemma attributes_after_commit_witness :
  exists r rs k dur dist rest,
    request (with_endpoints (Some "52.37,4.89") (Some "Stationsplein 1") entity_sensor) =
    Some r /\
    snd (routing_call Scenario.engine r) = Value rs /\
    candidates (with_endpoints (Some "52.37,4.89") (Some "Stationsplein 1") entity_sensor) rs =
    (k, (dur, dist)) :: rest /\
    WazeTravelTime.extra_state_attributes
      (fst (fst (WazeTravelTime.run_update tracking_hass Scenario.engine entity_sensor))) =
    Some [ (ATTR_ATTRIBUTION, VStr "Powered by Waze");
           ("duration", VFloat dur);
           ("distance", VFloat (stored_distance (req_units r) dist));
           ("route", VStr k);
           ("origin", VStr "52.37,4.89");
           ("destination", VStr "Stationsplein 1") ].
Proof.
  apply (attributes_after_commit tracking_hass Scenario.engine entity_sensor
           (Some "52.37,4.89") (Some "Stationsplein 1") eq_refl eq_refl).
  repeat split.
Defined.

(* ===================================================================== *)
(** ** The move of the options in [async_setup_entry] *)

Lemma key_eqb_eq (k1 k2 : Setup.Key) : Setup.key_eqb k1 k2 = true <-> k1 = k2.
Proof.
  split.
  - destruct k1, k2; simpl; intros H; try reflexivity; discriminate H.
  - intros ->. unfold Setup.key_eqb. apply Nat.eqb_refl.
Qed.

Lemma key_eqb_refl (k : Setup.Key) : Setup.key_eqb k k = true.
Proof. now apply key_eqb_eq. Qed.

Lemma key_eqb_sym (k1 k2 : Setup.Key) : Setup.key_eqb k1 k2 = Setup.key_eqb k2 k1.
Proof. unfold Setup.key_eqb. apply Nat.eqb_sym. Qed.

Lemma key_eqb_neq (k1 k2 : Setup.Key) : Setup.key_eqb k1 k2 = false <-> k1 <> k2.
Proof.
  rewrite <- key_eqb_eq. destruct (Setup.key_eqb k1 k2); split; intros H;
    try reflexivity; try discriminate. now destruct H.
Qed.

(** Lookup after [pop]. *)
Lemma dict_get_remove (d : Setup.dict) (key k : Setup.Key) :
  Setup.dict_get (Setup.dict_remove d key) k =
  if Setup.key_eqb key k then None else Setup.dict_get d k.
Proof.
  induction d as [|[k0 v0] d IH]; simpl.
  - now destruct (Setup.key_eqb key k).
  - destruct (Setup.key_eqb k0 key) eqn:E0.
    + apply key_eqb_eq in E0. subst k0. rewrite IH.
      destruct (Setup.key_eqb key k); reflexivity.
    + simpl. rewrite IH. destruct (Setup.key_eqb k0 k) eqn:E1; [|reflexivity].
      apply key_eqb_eq in E1. subst k0. rewrite key_eqb_sym, E0. reflexivity.
Qed.

(** Lookup after an assignment. *)
Lemma dict_get_set (d : Setup.dict) (key k : Setup.Key) (v : Setup.Val) :
  Setup.dict_get (Setup.dict_set d key v) k =
  if Setup.key_eqb key k then Some v else Setup.dict_get d k.
Proof.
  induction d as [|[k0 v0] d IH]; simpl.
  - reflexivity.
  - destruct (Setup.key_eqb k0 key) eqn:E0; simpl.
    + apply key_eqb_eq in E0. subst k0. destruct (Setup.key_eqb key k); reflexivity.
    + rewrite IH. destruct (Setup.key_eqb k0 k) eqn:E1; [|reflexivity].
      apply key_eqb_eq in E1. subst k0. rewrite key_eqb_sym, E0. reflexivity.
Qed.

(** The loop over any list of distinct keys, by lookup. *)
Lemma move_keys_lookup (dfl : Setup.dict) (ks : list Setup.Key) :
  NoDup ks ->
  forall (nd opts : Setup.dict) (k : Setup.Key),
    Setup.dict_get (fst (fold_left (Setup.move_key dfl) ks (nd, opts))) k =
    (if existsb (Setup.key_eqb k) ks then None else Setup.dict_get nd k) /\
    Setup.dict_get (snd (fold_left (Setup.move_key dfl) ks (nd, opts))) k =
    (if existsb (Setup.key_eqb k) ks
     then match Setup.dict_get nd k with
          | Some v => Some v
          | None =>
              match Setup.dict_get dfl k with
              | Some v => Some v
              | None => Setup.dict_get opts k
              end
          end
     else Setup.dict_get opts k).
Proof.
  induction ks as [|key ks IH]; intros Hnd nd opts k; simpl; [split; reflexivity|].
  inversion Hnd as [|? ? Hnotin Hnd']; subst.
  assert (Hks : Setup.key_eqb k key = true -> existsb (Setup.key_eqb k) ks = false).
  { intros E. apply key_eqb_eq in E. subst k.
    destruct (existsb (Setup.key_eqb key) ks) eqn:Ex; [|reflexivity].
    apply existsb_exists in Ex as (k' & Hin & E). apply key_eqb_eq in E. now subst k'. }
  destruct (Setup.dict_get nd key) as [v|] eqn:Hget.
  - destruct (IH Hnd' (Setup.dict_remove nd key) (Setup.dict_set opts key v) k) as [H1 H2].
    rewrite H1, H2, dict_get_remove, dict_get_set, (key_eqb_sym key k).
    destruct (Setup.key_eqb k key) eqn:E; simpl.
    + rewrite (Hks eq_refl). apply key_eqb_eq in E. subst k. rewrite Hget. split; reflexivity.
    + split; reflexivity.
  - destruct (Setup.dict_get dfl key) as [v|] eqn:Hdfl.
    + destruct (IH Hnd' nd (Setup.dict_set opts key v) k) as [H1 H2].
      rewrite H1, H2, dict_get_set, (key_eqb_sym key k).
      destruct (Setup.key_eqb k key) eqn:E; simpl.
      * rewrite (Hks eq_refl). apply key_eqb_eq in E. subst k. rewrite Hget, Hdfl.
        split; reflexivity.
      * split; reflexivity.
    + destruct (IH Hnd' nd opts k) as [H1 H2]. rewrite H1, H2.
      destruct (Setup.key_eqb k key) eqn:E; simpl.
      * rewrite (Hks eq_refl). apply key_eqb_eq in E. subst k. rewrite Hget, Hdfl.
        split; reflexivity.
      * split; reflexivity.
Qed.

Lemma option_keys_NoDup : NoDup Setup.option_keys.
Proof.
  unfold Setup.option_keys. repeat constructor; simpl; intuition discriminate.
Qed.

Lemma move_options_lookup (dfl data : Setup.dict) (k : Setup.Key) :
  Setup.dict_get (fst (Setup.move_options dfl data)) k =
  (if existsb (Setup.key_eqb k) Setup.option_keys then None else Setup.dict_get data k) /\
  Setup.dict_get (snd (Setup.move_options dfl data)) k =
  (if existsb (Setup.key_eqb k) Setup.option_keys
   then match Setup.dict_get data k with
        | Some v => Some v
        | None => Setup.dict_get dfl k
        end
   else None).
Proof.
  destruct (move_keys_lookup dfl Setup.option_keys option_keys_NoDup data [] k) as [H1 H2].
  split; [exact H1|]. etransitivity; [exact H2|].
  destruct (existsb (Setup.key_eqb k) Setup.option_keys); [|reflexivity].
  destruct (Setup.dict_get data k); [reflexivity|].
  destruct (Setup.dict_get dfl k); reflexivity.
Qed.

(** X19. The move of the options, key by key.  Each of the eight option
    keys leaves the entry's data; in the new options it holds the value
    the data had, and only if the data had none, the default, if there
    is one.  Every other key stays in the data with its value and does
    not enter the options. *)
Theorem move_options_by_key (dfl data : Setup.dict) (k : Setup.Key) :
  Setup.dict_get (fst (Setup.move_options dfl data)) k =
  (if existsb (Setup.key_eqb k) Setup.option_keys then None else Setup.dict_get data k) /\
  Setup.dict_get (snd (Setup.move_options dfl data)) k =
  (if existsb (Setup.key_eqb k) Setup.option_keys
   then match Setup.dict_get data k with
        | Some v => Some v
        | None => Setup.dict_get dfl k
        end
   else None).
Proof.
  destruct (move_keys_lookup dfl Setup.option_keys option_keys_NoDup data [] k) as [H1 H2].
  split; [exact H1|]. etransitivity; [exact H2|].
  destruct (existsb (Setup.key_eqb k) Setup.option_keys); [|reflexivity].
  destruct (Setup.dict_get data k); [reflexivity|].
  destruct (Setup.dict_get dfl k); reflexivity.
Qed.

(** X20. After the move every option that [update] reads with
    [options[key]] is there: for an entry without options the new
    options hold realtime, vehicle type, the three avoidance flags and
    the units, from the data or else from the defaults, while each
    filter is there exactly when the data had it. *)
Theorem moved_options_complete (c : Setup.Defaults) (config_entry : Setup.ConfigEntry) :
  Setup.options config_entry = [] ->
  exists new_data options_,
    Setup.updated_entry c config_entry = Some (new_data, options_) /\
    (forall k,
        In k [ Setup.CONF_REALTIME; Setup.CONF_VEHICLE_TYPE; Setup.CONF_AVOID_TOLL_ROADS;
               Setup.CONF_AVOID_SUBSCRIPTION_ROADS; Setup.CONF_AVOID_FERRIES;
               Setup.CONF_UNITS ] ->
        Setup.dict_mem options_ k = true) /\
    Setup.dict_get options_ Setup.CONF_INCL_FILTER =
    Setup.dict_get (Setup.data config_entry) Setup.CONF_INCL_FILTER /\
    Setup.dict_get options_ Setup.CONF_EXCL_FILTER =
    Setup.dict_get (Setup.data config_entry) Setup.CONF_EXCL_FILTER.
Proof.
  intros Hopts.
  exists (fst (Setup.move_options (Setup.defaults c) (Setup.data config_entry))),
         (snd (Setup.move_options (Setup.defaults c) (Setup.data config_entry))).
  split; [|split; [|split]].
  - unfold Setup.updated_entry. rewrite Hopts. now rewrite <- surjective_pairing.
  - intros k Hk. unfold Setup.dict_mem.
    rewrite (proj2 (move_options_lookup (Setup.defaults c) (Setup.data config_entry) k)).
    simpl in Hk.
    destruct Hk as [<-|[<-|[<-|[<-|[<-|[<-|[]]]]]]]; simpl;
      destruct (Setup.dict_get (Setup.data config_entry) _); reflexivity.
  - rewrite (proj2 (move_options_lookup (Setup.defaults c) (Setup.data config_entry) _)).
    simpl. now destruct (Setup.dict_get (Setup.data config_entry) _).
  - rewrite (proj2 (move_options_lookup (Setup.defaults c) (Setup.data config_entry) _)).
    simpl. now destruct (Setup.dict_get (Setup.data config_entry) _).
Qed.

Lemma moved_options_complete_witness :
  exists new_data options_,
    Setup.updated_entry Setup.example_defaults
      {| Setup.entry_id := "entry-1"; Setup.data := Setup.example_data; Setup.options := [] |} =
    Some (new_data, options_) /\
    (forall k,
        In k [ Setup.CONF_REALTIME; Setup.CONF_VEHICLE_TYPE; Setup.CONF_AVOID_TOLL_ROADS;
               Setup.CONF_AVOID_SUBSCRIPTION_ROADS; Setup.CONF_AVOID_FERRIES;
               Setup.CONF_UNITS ] ->
        Setup.dict_mem options_ k = true) /\
    Setup.dict_get options_ Setup.CONF_INCL_FILTER = Some (Setup.Str "A4") /\
    Setup.dict_get options_ Setup.CONF_EXCL_FILTER = None.
Proof.
  exact (moved_options_complete Setup.example_defaults
           {| Setup.entry_id := "entry-1"; Setup.data := Setup.example_data;
              Setup.options := [] |} eq_refl).
Defined.

(** X21. The move does not disturb what [async_setup_entry] reads next:
    destination, origin, region and name are read from the new data
    exactly as from the old, and a key that was missing raises the same
    [KeyError]. *)
Theorem move_keeps_endpoints (c : Setup.Defaults) (dfl data : Setup.dict) :
  Setup.read_data c (fst (Setup.move_options dfl data)) = Setup.read_data c data.
Proof.
  unfold Setup.read_data.
  rewrite !(proj1 (move_options_lookup dfl data _)). reflexivity.
Qed.

Lemma move_keys_absent (dfl : Setup.dict) (ks : list Setup.Key) (nd opts : Setup.dict) :
  (forall k, In k ks -> Setup.dict_get nd k = None) ->
  fst (fold_left (Setup.move_key dfl) ks (nd, opts)) = nd.
Proof.
  revert opts. induction ks as [|key ks IH]; intros opts H; simpl; [reflexivity|].
  rewrite (H key (or_introl eq_refl)).
  destruct (Setup.dict_get dfl key); apply IH; intros k Hk; apply H; now right.
Qed.

(** X23. Moving is done once: applied to data that has been through the
    move, the loop takes nothing more out of it, and fills the options
    from the defaults alone. *)
Theorem move_stable (dfl data : Setup.dict) :
  fst (Setup.move_options dfl (fst (Setup.move_options dfl data))) =
  fst (Setup.move_options dfl data) /\
  (forall k,
      Setup.dict_get (snd (Setup.move_options dfl (fst (Setup.move_options dfl data)))) k =
      if existsb (Setup.key_eqb k) Setup.option_keys then Setup.dict_get dfl k else None).
Proof.
  assert (Habs : forall k, In k Setup.option_keys ->
                           Setup.dict_get (fst (Setup.move_options dfl data)) k = None).
  { intros k Hk. rewrite (proj1 (move_options_lookup dfl data k)).
    assert (Hex : existsb (Setup.key_eqb k) Setup.option_keys = true).
    { apply existsb_exists. exists k. split; [exact Hk | apply key_eqb_refl]. }
    now rewrite Hex. }
  split.
  - unfold Setup.move_options at 1. now apply move_keys_absent.
  - intros k. rewrite (proj2 (move_options_lookup dfl _ k)).
    destruct (existsb (Setup.key_eqb k) Setup.option_keys) eqn:Hex; [|reflexivity].
    apply existsb_exists in Hex as (k' & Hin & E). apply key_eqb_eq in E. subst k'.
    now rewrite (Habs k Hin).
Qed.

(* ===================================================================== *)
(** ** The last good reading *)

Lemma same_inputs_request (a b : WazeTravelTimeData.t) :
  same_inputs a b ->
  request a = request b /\ forall rs, candidates a rs = candidates b rs.
Proof.
  intros (Ho & Hd & Hreg & Hc). split.
  - unfold request. now rewrite Ho, Hd, Hreg, Hc.
  - intros rs. unfold candidates, incl_filter_of, excl_filter_of. now rewrite Hc.
Qed.

(** X24. The reading is that of the last refresh that committed.  A
    refresh that commits stores the same duration, distance and route
    whatever the refreshes before it did; a refresh that does not commit
    hands on the object of the refresh before it. *)
Theorem last_commit_wins (first second : RoutingEngine) (self : WazeTravelTimeData.t) :
  (committed (WazeTravelTimeData.run_update second self) ->
   same_reading (after_update second (after_update first self)) (after_update second self)) /\
  (~ committed (WazeTravelTimeData.run_update second self) ->
   after_update second (after_update first self) = after_update first self).
Proof.
  destruct (same_inputs_request _ _ (after_update_inputs first self)) as [Hreq Hcand].
  split.
  - intros Hc. apply committed_iff in Hc as (r & rs & k & [dur dist] & rest & Hr & Ho & Hk).
    unfold after_update at 1 3.
    rewrite (update_commits_first second self r rs k dur dist rest Hr Ho Hk).
    rewrite <- Hreq in Hr. rewrite <- Hcand in Hk.
    rewrite (update_commits_first second _ r rs k dur dist rest Hr Ho Hk).
    repeat split.
  - intros Hn.
    destruct (run_update_cases second (after_update first self))
      as [[H _] | (r & rs & k & dur & dist & rest & Hr & Ho & Hk & _)]; [exact H|].
    exfalso. apply Hn. apply committed_iff.
    exists r, rs, k, (dur, dist), rest. rewrite <- Hreq, <- Hcand. auto.
Qed.

Lemma last_commit_wins_witness :
  same_reading
    (after_update Scenario.engine
       (after_update Scenario.failing_engine (Scenario.fresh (Some "b") None "metric")))
    (after_update Scenario.engine (Scenario.fresh (Some "b") None "metric")).
Proof.
  apply (proj1 (last_commit_wins Scenario.failing_engine Scenario.engine
                  (Scenario.fresh (Some "b") None "metric"))).
  repeat split.
Defined.
